(** * Sale transaction engine of the POS back end: a shallow embedding

    The development follows the TypeScript services of the repository:

    - [Discounts.calculateDiscounts]      (discount.service.ts)
    - [Promotions.checkApplicable], [Promotions.checkPromotionConditions],
      [Promotions.calculateDiscount]      (promotion.service.ts)
    - [Auth.verifySupervisorPin]          (auth.service.ts)
    - [Sales.create], [Sales.getById], [Sales.voidSale],
      [Sales.voidSaleSelfAuthorized], [Sales.refundSale],
      [Sales.refundSaleSelfAuthorized]    (sale.service.ts)

    Modelling conventions.

    - A JavaScript [number] that holds money or a rate is an exact rational
      ([Q]); equalities between amounts are stated with [==].  Binary
      floating point and the rounding of DECIMAL(15,2) columns are not
      modelled.  Quantities, stock levels and loyalty points are INT columns
      and are integers ([Z]).
    - A table is the list of its rows, in insertion order.  A
      [SELECT ... WHERE id = $1] is a [filter]; the code's [rows[0]] is the
      head of the result; an [UPDATE ... WHERE id = $1] rewrites every row
      that matches.  Constraints of the schema (foreign keys, CHECK) are not
      modelled, and neither are the timestamp columns written with NOW().
    - A service function is a computation over the store that either
      returns or throws ([Tx]); BEGIN / COMMIT / ROLLBACK are written out
      in [Tx.transaction].
    - JavaScript truthiness is written out: [x || d], [if (x)] on numbers
      and strings follow [Js.truthyQ], [Js.truthyZ] and [Js.truthyS]. *)

From Stdlib Require Import ZArith QArith Qround List String Ascii Bool Lia.
From Stdlib Require Import DecimalString Sorting.Sorted Sorting.Permutation.
Import ListNotations.

Local Open Scope string_scope.
Local Open Scope Z_scope.
Local Open Scope Q_scope.

(* ================================================================== *)
(** ** JavaScript values *)
(* ================================================================== *)

Module Js.

(** [x < y] and [x > y] on numbers. *)
Definition Qltb (x y : Q) : bool := negb (Qle_bool y x).
Definition Qgtb (x y : Q) : bool := Qltb y x.

(** A number is falsy exactly when it is zero (NaN does not occur: every
    number of the model is a finite rational). *)
Definition truthyQ (x : Q) : bool := negb (Qeq_bool x 0).
Definition truthyZ (x : Z) : bool := negb (Z.eqb x 0).

(** A string is falsy exactly when it is empty. *)
Definition truthyS (s : string) : bool :=
  match s with EmptyString => false | String _ _ => true end.

(** [undefined] and [null] are falsy. *)
Definition truthyOptQ (x : option Q) : bool :=
  match x with Some q => truthyQ q | None => false end.
Definition truthyOptZ (x : option Z) : bool :=
  match x with Some z => truthyZ z | None => false end.
Definition truthyOptS (x : option string) : bool :=
  match x with Some s => truthyS s | None => false end.

(** [x || d] for an optional number, [x || null] for optional values. *)
Definition orQ (x : option Q) (d : Q) : Q :=
  match x with Some q => if truthyQ q then q else d | None => d end.
Definition orZ (x : option Z) (d : Z) : Z :=
  match x with Some z => if truthyZ z then z else d | None => d end.
Definition orNullQ (x : option Q) : option Q :=
  match x with Some q => if truthyQ q then Some q else None | None => None end.
Definition orNullS (x : option string) : option string :=
  match x with Some s => if truthyS s then Some s else None | None => None end.

(** [String.prototype.toUpperCase], on the ASCII letters. *)
Definition upper_ascii (c : ascii) : ascii :=
  let n := nat_of_ascii c in
  if (Nat.leb 97 n && Nat.leb n 122)%bool then ascii_of_nat (n - 32) else c.

Fixpoint toUpperCase (s : string) : string :=
  match s with
  | EmptyString => EmptyString
  | String c s' => String (upper_ascii c) (toUpperCase s')
  end.

(** [String.prototype.toLowerCase], on the ASCII letters. *)
Definition lower_ascii (c : ascii) : ascii :=
  let n := nat_of_ascii c in
  if (Nat.leb 65 n && Nat.leb n 90)%bool then ascii_of_nat (n + 32) else c.

Fixpoint toLowerCase (s : string) : string :=
  match s with
  | EmptyString => EmptyString
  | String c s' => String (lower_ascii c) (toLowerCase s')
  end.

(** [s.replace("_", " ")]: only the first occurrence is replaced. *)
Fixpoint replace_first_underscore (s : string) : string :=
  match s with
  | EmptyString => EmptyString
  | String c s' =>
      if Ascii.eqb c "_"%char then String " "%char s'
      else String c (replace_first_underscore s')
  end.

(** Template-literal rendering of an integer. *)
Definition string_of_Z (z : Z) : string :=
  NilZero.string_of_int (Z.to_int z).

(** [Array.prototype.includes] on an array of strings. *)
Definition includes (l : list string) (x : string) : bool :=
  existsb (String.eqb x) l.

End Js.

(* ================================================================== *)
(** ** Application errors (shared/errors/AppError.ts) *)
(* ================================================================== *)

Module Errors.

Inductive ErrorClass : Type :=
| BadRequest | Unauthorized | Forbidden | NotFound | Conflict
| Validation | Discount
| TypeError.   (* a runtime error that is not an AppError *)

Record AppError : Type := mkAppError {
  cls : ErrorClass;
  statusCode : Z;
  code : string;
  message : string
}.

Definition BadRequestError (msg : string) : AppError :=
  mkAppError BadRequest 400 "BAD_REQUEST" msg.
Definition ForbiddenError (msg : string) : AppError :=
  mkAppError Forbidden 403 "FORBIDDEN" msg.
(** The constructor takes the name of the resource and appends
    [" not found"] itself. *)
Definition NotFoundError (resource : string) : AppError :=
  mkAppError NotFound 404 "NOT_FOUND" (resource ++ " not found").
Definition RuntimeTypeError (msg : string) : AppError :=
  mkAppError TypeError 500 "INTERNAL_ERROR" msg.

End Errors.

(* ================================================================== *)
(** ** The store: one list of rows per table *)
(* ================================================================== *)

Module Store.

Record Product : Type := mkProduct {
  product_id : string;
  product_name : string;
  product_sku : string;
  selling_price : Q;
  cost_price : Q;
  current_stock : Z;
  track_inventory : bool;
  allow_backorder : bool;
  is_taxable : bool;
  tax_rate : Q;
  is_vat_exempt_eligible : bool;
  product_deleted : bool          (* deleted_at IS NOT NULL *)
}.

Record MembershipTier : Type := mkTier {
  tier_id : string;
  tier_name : string;
  tier_discount_percentage : Q;
  points_multiplier : option Q;
  tier_is_active : bool
}.

Record Customer : Type := mkCustomer {
  customer_id : string;
  loyalty_points : Z;
  lifetime_spend : Q;
  total_transactions : Z;
  membership_tier_id : option string
}.

(** The hashed PIN is read as [supervisor_pin_hash] by the sale service
    and as [supervisor_pin] by the auth service; it is one field here. *)
Record User : Type := mkUser {
  user_id : string;
  first_name : string;
  last_name : string;
  user_status : string;          (* 'active' | 'inactive' | 'suspended' *)
  supervisor_pin_hash : option string;
  can_authorize_void : bool;
  can_authorize_refund : bool;
  user_deleted : bool
}.

Record DiscountSetting : Type := mkDiscountSetting {
  discount_type : string;
  setting_name : string;
  percentage : Q;
  is_vat_exempt : bool;
  setting_is_active : bool
}.

Record PromotionRow : Type := mkPromotionRow {
  promo_id : string;
  promo_name : string;
  promo_code : option string;
  promotion_type : string;
  discount_value : Q;
  buy_quantity : option Z;
  get_quantity : option Z;
  min_purchase_amount : option Q;
  max_discount_amount : option Q;
  usage_limit : option Z;
  current_usage : Z;
  target_type : string;
  target_products : option (list string);
  target_categories : option (list string);
  target_customers : option (list string);
  target_membership_tiers : option (list string);
  start_date : Z;
  end_date : Z;
  is_stackable : bool;
  priority : Z;
  promo_is_active : bool
}.

Inductive PaymentMethod : Type := cash | card | gcash | maya | split.

Record SaleRow : Type := mkSaleRow {
  sale_id : nat;
  sale_customer_id : option string;
  sale_user_id : string;
  subtotal : Q;
  discount_amount : Q;
  tax_amount : Q;
  total_amount : Q;
  payment_method : PaymentMethod;
  amount_tendered : option Q;
  change_amount : option Q;
  sale_discount_type : option string;
  sale_is_vat_exempt : bool;
  vat_exempt_reason : option string;
  vatable_amount : Q;
  vat_amount : Q;
  vat_exempt_amount : Q;
  points_earned : Z;
  points_redeemed : Z;
  points_value_redeemed : Q;
  notes : option string;
  status : string;
  voided_by : option string;
  void_authorized_by : option string;
  void_reason : option string;
  refunded_by : option string;
  refund_authorized_by : option string;
  refund_reason : option string;
  refund_amount : Q
}.

Record SaleItemRow : Type := mkSaleItemRow {
  si_sale_id : nat;
  si_product_id : string;
  si_variant_id : option string;
  si_product_name : string;
  si_product_sku : string;
  si_quantity : Z;
  si_unit_price : Q;
  si_cost_price : Q;
  si_discount_amount : Q;
  si_discount_type : option string;
  si_discount_percentage : option Q;
  si_is_vat_exempt : bool;
  si_tax_amount : Q;
  si_subtotal : Q;
  si_total_price : Q
}.

Record SalePaymentRow : Type := mkSalePaymentRow {
  sp_sale_id : nat;
  sp_payment_method : string;
  sp_amount : Q;
  sp_reference_number : option string
}.

Record SaleDiscountRow : Type := mkSaleDiscountRow {
  sd_sale_id : nat;
  sd_discount_type : string;
  sd_discount_name : string;
  sd_discount_amount : Q;
  sd_is_government_mandated : bool;
  sd_customer_id_number : option string
}.

Record StockMovement : Type := mkStockMovement {
  sm_product_id : string;
  sm_movement_type : string;
  sm_quantity : Z;
  sm_quantity_before : Z;
  sm_quantity_after : Z;
  sm_reference_type : string;
  sm_reference_id : option nat;
  sm_notes : option string;
  sm_created_by : string
}.

Record LoyaltyPointsHistory : Type := mkLoyaltyPointsHistory {
  lp_customer_id : string;
  lp_transaction_type : string;
  lp_points : Z;
  lp_balance_after : Z;
  lp_reference_type : string;
  lp_reference_id : nat;
  lp_description : string;
  lp_created_by : string
}.

Record Db : Type := mkDb {
  products : list Product;
  membership_tiers : list MembershipTier;
  customers : list Customer;
  users : list User;
  discount_settings : list DiscountSetting;
  promotions : list PromotionRow;
  sales : list SaleRow;
  sale_items : list SaleItemRow;
  sale_payments : list SalePaymentRow;
  sale_discounts : list SaleDiscountRow;
  stock_movements : list StockMovement;
  loyalty_points_history : list LoyaltyPointsHistory
}.

(** Field updates of the store. *)
Definition with_products (f : list Product -> list Product) (db : Db) : Db :=
  mkDb (f (products db)) (membership_tiers db) (customers db) (users db)
       (discount_settings db) (promotions db) (sales db) (sale_items db)
       (sale_payments db) (sale_discounts db) (stock_movements db)
       (loyalty_points_history db).
Definition with_customers (f : list Customer -> list Customer) (db : Db) : Db :=
  mkDb (products db) (membership_tiers db) (f (customers db)) (users db)
       (discount_settings db) (promotions db) (sales db) (sale_items db)
       (sale_payments db) (sale_discounts db) (stock_movements db)
       (loyalty_points_history db).
Definition with_sales (f : list SaleRow -> list SaleRow) (db : Db) : Db :=
  mkDb (products db) (membership_tiers db) (customers db) (users db)
       (discount_settings db) (promotions db) (f (sales db)) (sale_items db)
       (sale_payments db) (sale_discounts db) (stock_movements db)
       (loyalty_points_history db).
Definition with_sale_items (f : list SaleItemRow -> list SaleItemRow) (db : Db) : Db :=
  mkDb (products db) (membership_tiers db) (customers db) (users db)
       (discount_settings db) (promotions db) (sales db) (f (sale_items db))
       (sale_payments db) (sale_discounts db) (stock_movements db)
       (loyalty_points_history db).
Definition with_sale_payments (f : list SalePaymentRow -> list SalePaymentRow) (db : Db) : Db :=
  mkDb (products db) (membership_tiers db) (customers db) (users db)
       (discount_settings db) (promotions db) (sales db) (sale_items db)
       (f (sale_payments db)) (sale_discounts db) (stock_movements db)
       (loyalty_points_history db).
Definition with_sale_discounts (f : list SaleDiscountRow -> list SaleDiscountRow) (db : Db) : Db :=
  mkDb (products db) (membership_tiers db) (customers db) (users db)
       (discount_settings db) (promotions db) (sales db) (sale_items db)
       (sale_payments db) (f (sale_discounts db)) (stock_movements db)
       (loyalty_points_history db).
Definition with_stock_movements (f : list StockMovement -> list StockMovement) (db : Db) : Db :=
  mkDb (products db) (membership_tiers db) (customers db) (users db)
       (discount_settings db) (promotions db) (sales db) (sale_items db)
       (sale_payments db) (sale_discounts db) (f (stock_movements db))
       (loyalty_points_history db).
Definition with_loyalty_points_history
    (f : list LoyaltyPointsHistory -> list LoyaltyPointsHistory) (db : Db) : Db :=
  mkDb (products db) (membership_tiers db) (customers db) (users db)
       (discount_settings db) (promotions db) (sales db) (sale_items db)
       (sale_payments db) (sale_discounts db) (stock_movements db)
       (f (loyalty_points_history db)).

End Store.

(* ================================================================== *)
(** ** Computations over the store that return or throw *)
(* ================================================================== *)

Module Tx.
Import Errors Store.

Inductive Outcome (A : Type) : Type :=
| Returned (a : A)
| Thrown (e : AppError).
Arguments Returned {A} a.
Arguments Thrown {A} e.

(** The store is threaded through; a throw keeps the store as it was at
    the throwing statement (the writes made so far in the transaction). *)
Definition Tx (A : Type) : Type := Db -> Outcome A * Db.

Definition ret {A} (a : A) : Tx A := fun db => (Returned a, db).
Definition throw {A} (e : AppError) : Tx A := fun db => (Thrown e, db).
Definition bind {A B} (m : Tx A) (k : A -> Tx B) : Tx B :=
  fun db =>
    match m db with
    | (Returned a, db') => k a db'
    | (Thrown e, db') => (Thrown e, db')
    end.
Definition query {A} (q : Db -> A) : Tx A := fun db => (Returned (q db), db).
Definition exec (u : Db -> Db) : Tx unit := fun db => (Returned tt, u db).

(** [BEGIN; try { body; COMMIT } catch { ROLLBACK; throw }]: the writes of
    a body that throws are discarded. *)
Definition transaction {A} (body : Tx A) : Tx A :=
  fun db =>
    match body db with
    | (Returned a, db') => (Returned a, db')
    | (Thrown e, _) => (Thrown e, db)
    end.

Definition is_returned {A} (o : Outcome A) : bool :=
  match o with Returned _ => true | Thrown _ => false end.

End Tx.

Declare Scope tx_scope.
Delimit Scope tx_scope with tx.
Notation "x <- m ;; k" := (Tx.bind m (fun x => k))
  (at level 61, m at next level, right associativity) : tx_scope.
Notation "m ;;; k" := (Tx.bind m (fun _ => k))
  (at level 61, right associativity) : tx_scope.

(* ================================================================== *)
(** ** Discounts service: government and membership discounts *)
(* ================================================================== *)

Module Discounts.
Import Store.

Record Params : Type := mkParams {
  subtotal : Q;
  customerId : option string;
  isSeniorCitizen : bool;          (* an absent flag is [false] *)
  isPwd : bool;
  membershipTierId : option string
}.

Record AppliedDiscount : Type := mkApplied {
  applied_type : string;
  applied_name : string;
  applied_percentage : Q;
  applied_amount : Q
}.

Record Result : Type := mkResult {
  governmentDiscount : Q;
  membershipDiscount : Q;
  isVatExempt : bool;
  appliedDiscounts : list AppliedDiscount
}.

(** [SELECT * FROM discount_settings WHERE is_active = TRUE
     AND discount_type IN ('senior_citizen', 'pwd')] *)
Definition govDiscounts (db : Db) : list DiscountSetting :=
  filter (fun d => setting_is_active d &&
                   (String.eqb (discount_type d) "senior_citizen" ||
                    String.eqb (discount_type d) "pwd"))%bool
         (discount_settings db).

(** [rows.find((d) => d.discount_type === t)] *)
Definition find_setting (t : string) (rows : list DiscountSetting)
  : option DiscountSetting :=
  find (fun d => String.eqb (discount_type d) t) rows.

(** [SELECT * FROM membership_tiers WHERE id = $1 AND is_active = TRUE] *)
Definition active_tiers (db : Db) (id : string) : list MembershipTier :=
  filter (fun t => String.eqb (tier_id t) id && tier_is_active t)%bool
         (membership_tiers db).

(** The government step: the senior-citizen branch, else the PWD branch.
    It yields the discount, the VAT-exemption flag and the entries pushed
    on [appliedDiscounts]. *)
Definition government_step (p : Params) (db : Db)
  : Q * bool * list AppliedDiscount :=
  if isSeniorCitizen p then
    match find_setting "senior_citizen" (govDiscounts db) with
    | Some scDiscount =>
        let governmentDiscount := subtotal p * (percentage scDiscount / 100) in
        (governmentDiscount, is_vat_exempt scDiscount,
         [mkApplied "senior_citizen" (setting_name scDiscount)
                    (percentage scDiscount) governmentDiscount])
    | None => (0, false, [])
    end
  else if isPwd p then
    match find_setting "pwd" (govDiscounts db) with
    | Some pwdDiscount =>
        let governmentDiscount := subtotal p * (percentage pwdDiscount / 100) in
        (governmentDiscount, is_vat_exempt pwdDiscount,
         [mkApplied "pwd" (setting_name pwdDiscount)
                    (percentage pwdDiscount) governmentDiscount])
    | None => (0, false, [])
    end
  else (0, false, []).

(** The membership step, given the government discount already set. *)
Definition membership_step (p : Params) (db : Db) (governmentDiscount : Q)
  : Q * list AppliedDiscount :=
  match membershipTierId p with
  | Some id =>
      if Js.truthyS id then
        match active_tiers db id with
        | tier :: _ =>
            let discountableAmount := subtotal p - governmentDiscount in
            let membershipDiscount :=
              discountableAmount * (tier_discount_percentage tier / 100) in
            if Js.Qgtb membershipDiscount 0
            then (membershipDiscount,
                  [mkApplied "membership" (tier_name tier)
                             (tier_discount_percentage tier) membershipDiscount])
            else (membershipDiscount, [])
        | [] => (0, [])
        end
      else (0, [])
  | None => (0, [])
  end.

Definition calculateDiscounts (p : Params) (db : Db) : Result :=
  let '(governmentDiscount, isVatExempt, govApplied) := government_step p db in
  let '(membershipDiscount, memApplied) :=
    membership_step p db governmentDiscount in
  mkResult governmentDiscount membershipDiscount isVatExempt
           (govApplied ++ memApplied)%list.

End Discounts.

(* ================================================================== *)
(** ** Promotions service *)
(* ================================================================== *)

Module Promotions.
Import Store.

(** [mapPromotion] parses the DECIMAL columns; a non-null column is a
    non-empty string, hence truthy, so [row.x ? parseFloat(row.x) :
    undefined] keeps every non-null value, zero included. *)
Definition Promotion : Type := PromotionRow.
Definition mapPromotion (row : PromotionRow) : Promotion := row.

Record CartItem : Type := mkCartItem {
  productId : string;
  categoryId : option string;
  quantity : Z;
  price : Q
}.

Record Params : Type := mkParams {
  items : list CartItem;
  customerId : option string;
  membershipTierId : option string;
  couponCode : option string
}.

Record Result : Type := mkResult {
  applicable : list Promotion;
  discountAmount : Q
}.

(** [some_nonempty l] is [l && l.length > 0]. *)
Definition nonempty_list (l : option (list string)) : option (list string) :=
  match l with
  | Some (x :: r) => Some (x :: r)
  | _ => None
  end.

Definition checkPromotionConditions (promo : Promotion) (items : list CartItem)
    (subtotal : Q) (customerId membershipTierId : option string) : bool :=
  if (Js.truthyOptQ (min_purchase_amount promo) &&
      Js.Qltb subtotal (Js.orQ (min_purchase_amount promo) 0))%bool
  then false
  else
    let target_ok :=
      if String.eqb (target_type promo) "products" then
        match nonempty_list (target_products promo) with
        | Some tp => existsb (fun item => Js.includes tp (productId item)) items
        | None => true
        end
      else if String.eqb (target_type promo) "categories" then
        match nonempty_list (target_categories promo) with
        | Some tc =>
            existsb (fun item =>
                       match categoryId item with
                       | Some c => (Js.truthyS c && Js.includes tc c)%bool
                       | None => false
                       end) items
        | None => true
        end
      else if String.eqb (target_type promo) "customers" then
        match nonempty_list (target_customers promo) with
        | Some tcs =>
            match customerId with
            | Some c => (Js.truthyS c && Js.includes tcs c)%bool
            | None => false
            end
        | None => true
        end
      else true in
    if negb target_ok then false
    else
      match nonempty_list (target_membership_tiers promo) with
      | Some tiers =>
          match membershipTierId with
          | Some t => (Js.truthyS t && Js.includes tiers t)%bool
          | None => false
          end
      | None => true
      end.

(** [!promo.targetProducts || promo.targetProducts.includes(item.productId)]:
    an empty array is truthy and includes nothing. *)
Definition item_eligible (promo : Promotion) (item : CartItem) : bool :=
  match target_products promo with
  | None => true
  | Some tp => Js.includes tp (productId item)
  end.

(** The [for] loop of the buy_x_get_y case, over the running [discount].
    The division is exact for [buyQuantity + getQuantity <> 0]; for a zero
    sum JavaScript yields a non-finite number, which [Q] does not have. *)
Fixpoint buy_x_get_y_loop (promo : Promotion) (buyQuantity getQuantity : Z)
    (items : list CartItem) (discount : Q) : Q :=
  match items with
  | [] => discount
  | item :: rest =>
      if item_eligible promo item then
        let sets := Qfloor (inject_Z (quantity item) /
                            inject_Z (buyQuantity + getQuantity)) in
        buy_x_get_y_loop promo buyQuantity getQuantity rest
          (discount + inject_Z sets * inject_Z getQuantity * price item)
      else buy_x_get_y_loop promo buyQuantity getQuantity rest discount
  end.

(** The [switch] on the promotion type. *)
Definition discount_by_type (promo : Promotion) (items : list CartItem)
    (subtotal : Q) : Q :=
  if String.eqb (promotion_type promo) "percentage" then
    subtotal * (discount_value promo / 100)
  else if String.eqb (promotion_type promo) "fixed_amount" then
    discount_value promo
  else if String.eqb (promotion_type promo) "buy_x_get_y" then
    match buy_quantity promo, get_quantity promo with
    | Some b, Some g =>
        if (Js.truthyZ b && Js.truthyZ g)%bool
        then buy_x_get_y_loop promo b g items 0
        else 0
    | _, _ => 0
    end
  else 0.

Definition calculateDiscount (promo : Promotion) (items : list CartItem)
    (subtotal : Q) : Q :=
  let discount := discount_by_type promo items subtotal in
  match max_discount_amount promo with
  | Some cap =>
      if (Js.truthyQ cap && Js.Qgtb discount cap)%bool then cap else discount
  | None => discount
  end.

(** [ORDER BY priority DESC]: a stable insertion sort; rows of equal
    priority keep the order of the table. *)
Fixpoint insert_by_priority (p : PromotionRow) (l : list PromotionRow)
  : list PromotionRow :=
  match l with
  | [] => [p]
  | q :: r =>
      if (priority q <? priority p)%Z then p :: q :: r
      else q :: insert_by_priority p r
  end.

Definition order_by_priority_desc (l : list PromotionRow) : list PromotionRow :=
  fold_right insert_by_priority [] l.

(** The query of [checkApplicable]; [now] is the value of NOW(). *)
Definition active_promotion (now : Z) (r : PromotionRow) : bool :=
  (promo_is_active r && (start_date r <=? now)%Z && (now <=? end_date r)%Z &&
   match usage_limit r with
   | None => true
   | Some lim => (current_usage r <? lim)%Z
   end)%bool.

Definition activePromotions (now : Z) (db : Db) : list Promotion :=
  map mapPromotion
      (order_by_priority_desc (filter (active_promotion now) (promotions db))).

(** [couponCode && promo.code &&
     promo.code.toUpperCase() === couponCode.toUpperCase()] *)
Definition coupon_matches (couponCode : option string) (promo : Promotion) : bool :=
  match couponCode, promo_code promo with
  | Some cc, Some pc =>
      (Js.truthyS cc && Js.truthyS pc &&
       String.eqb (Js.toUpperCase pc) (Js.toUpperCase cc))%bool
  | _, _ => false
  end.

(** The body of [for (const promo of activePromotions)], with its
    [break] and [continue]. *)
Fixpoint promotions_loop (params : Params) (subtotal : Q)
    (promos : list Promotion) (applicable : list Promotion) (totalDiscount : Q)
  : list Promotion * Q :=
  match promos with
  | [] => (applicable, totalDiscount)
  | promo :: rest =>
      if coupon_matches (couponCode params) promo then
        if checkPromotionConditions promo (items params) subtotal
             (customerId params) (membershipTierId params)
        then
          let applicable' := (applicable ++ [promo])%list in
          let totalDiscount' :=
            totalDiscount + calculateDiscount promo (items params) subtotal in
          if negb (is_stackable promo) then (applicable', totalDiscount')
          else promotions_loop params subtotal rest applicable' totalDiscount'
        else promotions_loop params subtotal rest applicable totalDiscount
      else if negb (Js.truthyOptS (promo_code promo)) then
        if checkPromotionConditions promo (items params) subtotal
             (customerId params) (membershipTierId params)
        then
          let applicable' := (applicable ++ [promo])%list in
          let totalDiscount' :=
            totalDiscount + calculateDiscount promo (items params) subtotal in
          if negb (is_stackable promo) then (applicable', totalDiscount')
          else promotions_loop params subtotal rest applicable' totalDiscount'
        else promotions_loop params subtotal rest applicable totalDiscount
      else promotions_loop params subtotal rest applicable totalDiscount
  end.

(** [items.reduce((sum, item) => sum + item.price * item.quantity, 0)] *)
Definition cart_subtotal (items : list CartItem) : Q :=
  fold_left (fun sum item => sum + price item * inject_Z (quantity item)) items 0.

Definition checkApplicable (now : Z) (params : Params) (db : Db) : Result :=
  let subtotal := cart_subtotal (items params) in
  let '(applicable, totalDiscount) :=
    promotions_loop params subtotal (activePromotions now db) [] 0 in
  mkResult applicable totalDiscount.

End Promotions.

(* ================================================================== *)
(** ** Auth service: verification of a supervisor PIN *)
(* ================================================================== *)

Module Auth.
Import Errors Store Tx.

Inductive Action : Type := void | refund.

Section WithBcrypt.
(** [bcrypt.compare(pin, hash)] *)
Variable bcrypt_compare : string -> string -> bool.

End WithBcrypt.

End Auth.

(* ================================================================== *)
(** ** Sales service *)
(* ================================================================== *)

Module Sales.
Import Errors Store Tx.
Local Open Scope tx_scope.

Record SaleItem : Type := mkSaleItem {
  productId : string;
  variantId : option string;
  quantity : Z;
  unitPrice : Q;
  itemDiscountAmount : option Q;
  itemDiscountType : option string;
  itemDiscountPercentage : option Q
}.

Record Payment : Type := mkPayment {
  method : string;
  amount : Q;
  reference : option string
}.

Record CreateSaleData : Type := mkCreateSaleData {
  customerId : option string;
  items : list SaleItem;
  paymentMethod : PaymentMethod;
  amountTendered : option Q;
  payments : option (list Payment);
  discountType : option string;
  discountAmount : option Q;
  isVatExempt : bool;              (* an absent flag is [false] *)
  vatExemptReason : option string;
  customerIdNumber : option string;
  pointsToRedeem : option Z;
  notes : option string
}.

(** The hydrated sale returned by [getById]: the sale row and its items
    (the joined customer and cashier names are left out). *)
Record Sale : Type := mkSale {
  sale_header : SaleRow;
  sale_lines : list SaleItemRow
}.

(** The accumulators of the item loop of [create]; an entry of
    [itemsData] is kept as the sale-item row it becomes, its [sale_id]
    filled in at insertion. *)
Record Totals : Type := mkTotals {
  acc_subtotal : Q;
  acc_totalTax : Q;
  acc_itemsData : list SaleItemRow
}.

(** [SELECT ... FROM products WHERE id = $1 AND deleted_at IS NULL] *)
Definition select_product (id : string) (db : Db) : list Product :=
  filter (fun p => String.eqb (product_id p) id && negb (product_deleted p))%bool
         (products db).

(** A product row with another stock level. *)
Definition set_current_stock (p : Product) (stock : Z) : Product :=
  mkProduct (product_id p) (product_name p) (product_sku p)
            (selling_price p) (cost_price p) stock
            (track_inventory p) (allow_backorder p) (is_taxable p)
            (tax_rate p) (is_vat_exempt_eligible p) (product_deleted p).

(** [UPDATE products SET current_stock = current_stock + $1 WHERE id = $2] *)
Definition add_stock (delta : Z) (id : string) (db : Db) : Db :=
  with_products
    (map (fun p =>
            if String.eqb (product_id p) id
            then set_current_stock p (current_stock p + delta)%Z
            else p)) db.

Definition insert_stock_movement (m : StockMovement) (db : Db) : Db :=
  with_stock_movements (fun l => l ++ [m])%list db.

(** One iteration of [for (const item of data.items)] and the rest of
    the loop. *)
Fixpoint items_loop (data : CreateSaleData) (userId : string)
    (items : list SaleItem) (acc : Totals) : Tx Totals :=
  match items with
  | [] => ret acc
  | item :: rest =>
      productResult <- query (select_product (productId item)) ;;
      match productResult with
      | [] => throw (BadRequestError ("Product not found: " ++ productId item))
      | product :: _ =>
          if (track_inventory product &&
              (current_stock product <? quantity item)%Z)%bool
          then throw (BadRequestError
                        ("Insufficient stock for " ++ product_name product ++
                         ". Available: " ++
                         Js.string_of_Z (current_stock product)))
          else
            let unitPrice :=
              if Js.truthyQ (unitPrice item) then unitPrice item
              else selling_price product in
            let itemSubtotal := unitPrice * inject_Z (quantity item) in
            let itemDiscount := Js.orQ (itemDiscountAmount item) 0 in
            let itemTax :=
              if (is_taxable product && negb (isVatExempt data))%bool
              then (itemSubtotal - itemDiscount) * (tax_rate product / 100)
              else 0 in
            let itemTotal := itemSubtotal - itemDiscount + itemTax in
            let acc' :=
              mkTotals (acc_subtotal acc + itemSubtotal)
                       (acc_totalTax acc + itemTax)
                       (acc_itemsData acc ++
                        [mkSaleItemRow 0 (product_id product)
                           (Js.orNullS (variantId item))
                           (product_name product) (product_sku product)
                           (quantity item) unitPrice (cost_price product)
                           itemDiscount (Js.orNullS (itemDiscountType item))
                           (Js.orNullQ (itemDiscountPercentage item))
                           (isVatExempt data) itemTax itemSubtotal itemTotal])%list in
            (if track_inventory product then
               exec (add_stock (- quantity item) (product_id product)) ;;;
               exec (insert_stock_movement
                       (mkStockMovement (product_id product) "sale"
                          (- quantity item) (current_stock product)
                          (current_stock product - quantity item)%Z
                          "sale" None None userId))
             else ret tt) ;;;
            items_loop data userId rest acc'
      end
  end.

(** [SELECT c.loyalty_points, mt.points_multiplier FROM customers c
     LEFT JOIN membership_tiers mt ON c.membership_tier_id = mt.id
     WHERE c.id = $1] *)
Definition select_customer_points (id : string) (db : Db)
  : list (Z * option Q) :=
  flat_map
    (fun c =>
       match
         match membership_tier_id c with
         | Some t => filter (fun mt => String.eqb (tier_id mt) t)
                            (membership_tiers db)
         | None => []
         end
       with
       | [] => [(loyalty_points c, None)]
       | tiers => map (fun mt => (loyalty_points c, points_multiplier mt)) tiers
       end)
    (filter (fun c => String.eqb (customer_id c) id) (customers db)).

(** The loyalty step: it yields [pointsEarned] and [pointsValue]. *)
Definition loyalty_step (data : CreateSaleData) (totalAmount : Q)
    (pointsRedeemed : Z) : Tx (Z * Q) :=
  match Js.orNullS (customerId data) with
  | Some cid =>
      customerResult <- query (select_customer_points cid) ;;
      match customerResult with
      | (availablePoints, points_multiplier) :: _ =>
          (* parseFloat(points_multiplier || "1") *)
          let multiplier :=
            match points_multiplier with Some m => m | None => 1 end in
          let pointsEarned := Qfloor ((totalAmount / 100) * multiplier) in
          if (0 <? pointsRedeemed)%Z then
            if (availablePoints <? pointsRedeemed)%Z then
              throw (BadRequestError
                       ("Insufficient points. Available: " ++
                        Js.string_of_Z availablePoints))
            else ret (pointsEarned, inject_Z pointsRedeemed)
          else ret (pointsEarned, 0)
      | [] => ret (0%Z, 0)
      end
  | None => ret (0%Z, 0)
  end.

(** [INSERT INTO sales (...) RETURNING id]: the generated identifier is
    the number of rows already present (rows are never deleted). *)
Definition insert_sale (row : nat -> SaleRow) : Tx nat :=
  fun db =>
    let id := List.length (sales db) in
    (Returned id, with_sales (fun l => l ++ [row id])%list db).

Definition insert_sale_items (saleId : nat) (itemsData : list SaleItemRow)
    (db : Db) : Db :=
  with_sale_items
    (fun l => l ++ map (fun i =>
       mkSaleItemRow saleId (si_product_id i) (si_variant_id i)
         (si_product_name i) (si_product_sku i) (si_quantity i)
         (si_unit_price i) (si_cost_price i) (si_discount_amount i)
         (si_discount_type i) (si_discount_percentage i) (si_is_vat_exempt i)
         (si_tax_amount i) (si_subtotal i) (si_total_price i)) itemsData)%list db.

Definition insert_sale_payments (saleId : nat) (ps : list Payment) (db : Db) : Db :=
  with_sale_payments
    (fun l => l ++ map (fun p =>
       mkSalePaymentRow saleId (method p) (amount p)
                        (Js.orNullS (reference p))) ps)%list db.

(** [UPDATE customers SET loyalty_points = loyalty_points + $1 - $2,
     lifetime_spend = lifetime_spend + $3,
     total_transactions = total_transactions + 1 WHERE id = $4] *)
Definition update_customer (pointsEarned pointsRedeemed : Z) (totalAmount : Q)
    (id : string) (db : Db) : Db :=
  with_customers
    (map (fun c =>
            if String.eqb (customer_id c) id
            then mkCustomer (customer_id c)
                   (loyalty_points c + pointsEarned - pointsRedeemed)%Z
                   (lifetime_spend c + totalAmount)
                   (total_transactions c + 1)%Z
                   (membership_tier_id c)
            else c)) db.

(** [INSERT INTO loyalty_points_history (...) SELECT $1, type, $2,
     loyalty_points, 'sale', $3, description, $4 FROM customers
     WHERE id = $1] *)
Definition insert_points_history (cid kind : string) (points : Z)
    (saleId : nat) (description userId : string) (db : Db) : Db :=
  with_loyalty_points_history
    (fun l => l ++ map (fun c =>
       mkLoyaltyPointsHistory cid kind points (loyalty_points c) "sale"
                              saleId description userId)
       (filter (fun c => String.eqb (customer_id c) cid) (customers db)))%list db.

(** The sale row written by [create]. *)
Definition new_sale_row (data : CreateSaleData) (userId : string)
    (subtotal totalDiscount totalTax totalAmount changeAmount : Q)
    (pointsEarned pointsRedeemed : Z) (pointsValue : Q) (id : nat) : SaleRow :=
  mkSaleRow id
    (Js.orNullS (customerId data))
    userId
    subtotal
    totalDiscount
    totalTax
    (totalAmount - pointsValue)
    (paymentMethod data)
    (Js.orNullQ (amountTendered data))
    (if Js.Qgtb changeAmount 0 then Some changeAmount else None)
    (Js.orNullS (discountType data))
    (isVatExempt data)
    (Js.orNullS (vatExemptReason data))
    (if isVatExempt data then 0 else subtotal - totalDiscount)
    totalTax
    (if isVatExempt data then subtotal - totalDiscount else 0)
    pointsEarned
    pointsRedeemed
    pointsValue
    (Js.orNullS (notes data))
    "completed"
    None None None None None None 0.

(** The statements of [create] between BEGIN and COMMIT; the result is
    the identifier of the new sale. *)
Definition create_body (data : CreateSaleData) (userId : string) : Tx nat :=
  let totalDiscount := Js.orQ (discountAmount data) 0 in
  acc <- items_loop data userId (items data) (mkTotals 0 0 []) ;;
  let subtotal := acc_subtotal acc in
  let totalTax := acc_totalTax acc in
  let totalAmount := subtotal - totalDiscount + totalTax in
  let changeAmount :=
    match amountTendered data with
    | Some t => if Js.truthyQ t then t - totalAmount else 0
    | None => 0
    end in
  let pointsRedeemed := Js.orZ (pointsToRedeem data) 0 in
  pts <- loyalty_step data totalAmount pointsRedeemed ;;
  let pointsEarned := fst pts in
  let pointsValue := snd pts in
  saleId <- insert_sale (new_sale_row data userId subtotal totalDiscount
                           totalTax totalAmount changeAmount pointsEarned
                           pointsRedeemed pointsValue) ;;
  exec (insert_sale_items saleId (acc_itemsData acc)) ;;;
  (match paymentMethod data, payments data with
   | split, Some ps => exec (insert_sale_payments saleId ps)
   | _, _ => ret tt
   end) ;;;
  (match isVatExempt data, Js.orNullS (vatExemptReason data) with
   | true, Some reason =>
       exec (with_sale_discounts
               (fun l => l ++ [mkSaleDiscountRow saleId reason
                                 (Js.toUpperCase
                                    (Js.replace_first_underscore reason))
                                 totalDiscount true
                                 (Js.orNullS (customerIdNumber data))])%list)
   | _, _ => ret tt
   end) ;;;
  (match Js.orNullS (customerId data) with
   | Some cid =>
       exec (update_customer pointsEarned pointsRedeemed totalAmount cid) ;;;
       (if (0 <? pointsEarned)%Z
        then exec (insert_points_history cid "earn" pointsEarned saleId
                     "Points earned from purchase" userId)
        else ret tt) ;;;
       (if (0 <? pointsRedeemed)%Z
        then exec (insert_points_history cid "redeem" (- pointsRedeemed) saleId
                     "Points redeemed for purchase" userId)
        else ret tt)
   | None => ret tt
   end) ;;;
  ret saleId.

(** [getById]: the sale row joined with its cashier ([JOIN users]); a
    sale whose cashier row is missing is not found. *)
Definition getById (id : nat) (db : Db) : Outcome Sale :=
  match find (fun s => Nat.eqb (sale_id s) id &&
                       existsb (fun u => String.eqb (user_id u) (sale_user_id s))
                               (users db))%bool (sales db) with
  | None => Thrown (NotFoundError "Sale not found")
  | Some sale =>
      Returned (mkSale sale
                  (filter (fun i => Nat.eqb (si_sale_id i) id) (sale_items db)))
  end.

(** [create]: the transaction, then the read-back of the committed sale. *)
Definition create (data : CreateSaleData) (userId : string) (db : Db)
  : Outcome Sale * Db :=
  match transaction (create_body data userId) db with
  | (Returned saleId, db') => (getById saleId db', db')
  | (Thrown e, db') => (Thrown e, db')
  end.

(** *** Void and refund *)

(** [UPDATE products SET current_stock = current_stock + $1 WHERE id = $2]
    is [add_stock]; [SELECT current_stock FROM products WHERE id = $1]: *)
Definition select_stock (id : string) (db : Db) : list Z :=
  map current_stock
      (filter (fun p => String.eqb (product_id p) id) (products db)).

(** [for (const item of itemsResult.rows)]: give the quantity of every
    item of the sale back to its product and record a 'return' movement.
    [referenceType] is 'void' or 'refund', [note] the annotated reason. *)
Fixpoint restore_stock_loop (rows : list SaleItemRow) (referenceType : string)
    (saleId : nat) (note actor : string) : Tx unit :=
  match rows with
  | [] => ret tt
  | item :: rest =>
      exec (add_stock (si_quantity item) (si_product_id item)) ;;;
      stockResult <- query (select_stock (si_product_id item)) ;;
      match stockResult with
      | [] => throw (RuntimeTypeError
                       "Cannot read properties of undefined (reading 'current_stock')")
      | stock :: _ =>
          exec (insert_stock_movement
                  (mkStockMovement (si_product_id item) "return"
                     (si_quantity item) (stock - si_quantity item)%Z stock
                     referenceType (Some saleId) (Some note) actor)) ;;;
          restore_stock_loop rest referenceType saleId note actor
      end
  end.

(** [UPDATE customers SET loyalty_points = loyalty_points - $1 + $2,
     lifetime_spend = lifetime_spend - $3,
     total_transactions = total_transactions - 1 WHERE id = $4] *)
Definition reverse_customer (earned redeemed : Z) (total : Q) (id : string)
    (db : Db) : Db :=
  with_customers
    (map (fun c =>
            if String.eqb (customer_id c) id
            then mkCustomer (customer_id c)
                   (loyalty_points c - earned + redeemed)%Z
                   (lifetime_spend c - total)
                   (total_transactions c - 1)%Z
                   (membership_tier_id c)
            else c)) db.

(** The stock and loyalty reversal shared by the four operations. *)
Definition reverse_effects (sale : SaleRow) (referenceType : string)
    (saleId : nat) (note actor : string) : Tx unit :=
  itemsResult <- query (fun db => filter (fun i => Nat.eqb (si_sale_id i) saleId)
                                         (sale_items db)) ;;
  restore_stock_loop itemsResult referenceType saleId note actor ;;;
  match Js.orNullS (sale_customer_id sale) with
  | Some cid =>
      exec (reverse_customer (points_earned sale) (points_redeemed sale)
                             (total_amount sale) cid)
  | None => ret tt
  end.

(** [SELECT * FROM sales WHERE id = $1] *)
Definition select_sale (saleId : nat) (db : Db) : list SaleRow :=
  filter (fun s => Nat.eqb (sale_id s) saleId) (sales db).

(** [UPDATE sales SET status = 'voided', voided_at = NOW(), voided_by = $1,
     void_authorized_by = $2, void_reason = $3 WHERE id = $4] *)
Definition mark_voided (voidedBy authorizedBy reason : string) (saleId : nat)
    (db : Db) : Db :=
  with_sales
    (map (fun s =>
            if Nat.eqb (sale_id s) saleId
            then mkSaleRow (sale_id s) (sale_customer_id s) (sale_user_id s)
                   (subtotal s) (discount_amount s) (tax_amount s)
                   (total_amount s) (payment_method s) (amount_tendered s)
                   (change_amount s) (sale_discount_type s)
                   (sale_is_vat_exempt s) (vat_exempt_reason s)
                   (vatable_amount s) (vat_amount s) (vat_exempt_amount s)
                   (points_earned s) (points_redeemed s)
                   (points_value_redeemed s) (Store.notes s)
                   "voided"
                   (Some voidedBy) (Some authorizedBy) (Some reason)
                   (refunded_by s) (refund_authorized_by s) (refund_reason s)
                   (refund_amount s)
            else s)) db.

(** [UPDATE sales SET status = 'refunded', refunded_at = NOW(),
     refunded_by = $1, refund_authorized_by = $2, refund_reason = $3,
     refund_amount = total_amount WHERE id = $4] *)
Definition mark_refunded (refundedBy authorizedBy reason : string)
    (saleId : nat) (db : Db) : Db :=
  with_sales
    (map (fun s =>
            if Nat.eqb (sale_id s) saleId
            then mkSaleRow (sale_id s) (sale_customer_id s) (sale_user_id s)
                   (subtotal s) (discount_amount s) (tax_amount s)
                   (total_amount s) (payment_method s) (amount_tendered s)
                   (change_amount s) (sale_discount_type s)
                   (sale_is_vat_exempt s) (vat_exempt_reason s)
                   (vatable_amount s) (vat_amount s) (vat_exempt_amount s)
                   (points_earned s) (points_redeemed s)
                   (points_value_redeemed s) (Store.notes s)
                   "refunded"
                   (voided_by s) (void_authorized_by s) (void_reason s)
                   (Some refundedBy) (Some authorizedBy) (Some reason)
                   (total_amount s)
            else s)) db.

Section WithBcrypt.
(** [bcrypt.compare(pin, hash)] *)
Variable bcrypt_compare : string -> string -> bool.

(** "Verify supervisor PIN": the first statements of [voidSale] and
    [refundSale].  [capability] is the column read
    ([can_authorize_void] or [can_authorize_refund]) and [denied] the
    message of the Forbidden error. *)
Definition verify_supervisor (capability : User -> bool) (denied : string)
    (supervisorId supervisorPin : string) : Tx unit :=
  supervisorResult <-
    query (fun db => filter (fun u => String.eqb (user_id u) supervisorId)
                            (users db)) ;;
  match supervisorResult with
  | [] => throw (NotFoundError "Supervisor not found")
  | supervisor :: _ =>
      if negb (capability supervisor) then throw (ForbiddenError denied)
      else
        match Js.orNullS (supervisor_pin_hash supervisor) with
        | None => throw (BadRequestError "Supervisor PIN not set")
        | Some hash =>
            if negb (bcrypt_compare supervisorPin hash)
            then throw (BadRequestError "Invalid supervisor PIN")
            else ret tt
        end
  end.

Definition voidSale_body (saleId : nat)
    (reason supervisorId supervisorPin voidedBy : string) : Tx unit :=
  verify_supervisor can_authorize_void "User not authorized to approve voids"
                    supervisorId supervisorPin ;;;
  saleResult <- query (select_sale saleId) ;;
  match saleResult with
  | [] => throw (NotFoundError "Sale not found")
  | sale :: _ =>
      if negb (String.eqb (status sale) "completed")
      then throw (BadRequestError ("Cannot void a " ++ status sale ++ " sale"))
      else
        exec (mark_voided voidedBy supervisorId reason saleId) ;;;
        reverse_effects sale "void" saleId ("Void: " ++ reason) voidedBy
  end.

Definition refundSale_body (saleId : nat)
    (reason supervisorId supervisorPin refundedBy : string) : Tx unit :=
  verify_supervisor can_authorize_refund
                    "User not authorized to approve refunds"
                    supervisorId supervisorPin ;;;
  saleResult <- query (select_sale saleId) ;;
  match saleResult with
  | [] => throw (NotFoundError "Sale not found")
  | sale :: _ =>
      if negb (String.eqb (status sale) "completed")
      then throw (BadRequestError ("Cannot refund a " ++ status sale ++ " sale"))
      else
        exec (mark_refunded refundedBy supervisorId reason saleId) ;;;
        reverse_effects sale "refund" saleId ("Refund: " ++ reason) refundedBy
  end.

(** The transaction, then the read-back of the committed sale. *)
Definition voidSale (saleId : nat)
    (reason supervisorId supervisorPin voidedBy : string) (db : Db)
  : Outcome Sale * Db :=
  match transaction (voidSale_body saleId reason supervisorId supervisorPin
                                   voidedBy) db with
  | (Returned _, db') => (getById saleId db', db')
  | (Thrown e, db') => (Thrown e, db')
  end.

Definition refundSale (saleId : nat)
    (reason supervisorId supervisorPin refundedBy : string) (db : Db)
  : Outcome Sale * Db :=
  match transaction (refundSale_body saleId reason supervisorId supervisorPin
                                     refundedBy) db with
  | (Returned _, db') => (getById saleId db', db')
  | (Thrown e, db') => (Thrown e, db')
  end.
End WithBcrypt.

Definition voidSaleSelfAuthorized_body (saleId : nat)
    (reason voidedBy : string) : Tx unit :=
  saleResult <- query (select_sale saleId) ;;
  match saleResult with
  | [] => throw (NotFoundError "Sale not found")
  | sale :: _ =>
      if negb (String.eqb (status sale) "completed")
      then throw (BadRequestError ("Cannot void a " ++ status sale ++ " sale"))
      else
        exec (mark_voided voidedBy voidedBy reason saleId) ;;;
        reverse_effects sale "void" saleId ("Void: " ++ reason) voidedBy
  end.

Definition refundSaleSelfAuthorized_body (saleId : nat)
    (reason refundedBy : string) : Tx unit :=
  saleResult <- query (select_sale saleId) ;;
  match saleResult with
  | [] => throw (NotFoundError "Sale not found")
  | sale :: _ =>
      if negb (String.eqb (status sale) "completed")
      then throw (BadRequestError ("Cannot refund a " ++ status sale ++ " sale"))
      else
        exec (mark_refunded refundedBy refundedBy reason saleId) ;;;
        reverse_effects sale "refund" saleId ("Refund: " ++ reason) refundedBy
  end.

Definition voidSaleSelfAuthorized (saleId : nat) (reason voidedBy : string)
    (db : Db) : Outcome Sale * Db :=
  match transaction (voidSaleSelfAuthorized_body saleId reason voidedBy) db with
  | (Returned _, db') => (getById saleId db', db')
  | (Thrown e, db') => (Thrown e, db')
  end.

Definition refundSaleSelfAuthorized (saleId : nat) (reason refundedBy : string)
    (db : Db) : Outcome Sale * Db :=
  match transaction (refundSaleSelfAuthorized_body saleId reason refundedBy) db with
  | (Returned _, db') => (getById saleId db', db')
  | (Thrown e, db') => (Thrown e, db')
  end.

End Sales.

(* ================================================================== *)
(** ** Sales controller: validation and the choice of the void path *)
(* ================================================================== *)

Module SaleController.
Import Errors Store Tx.

(** [req.user]: the authenticated operator. *)
Record AuthPayload : Type := mkAuthPayload {
  userId : string;
  role : option string;
  canAuthorizeVoid : bool;
  canAuthorizeRefund : bool
}.

(** [req.body] of the void and refund routes. *)
Record ReverseBody : Type := mkReverseBody {
  reason : option string;
  supervisorId : option string;
  supervisorPin : option string
}.

(** [req.user.role?.toLowerCase() === r] *)
Definition role_is (u : AuthPayload) (r : string) : bool :=
  match role u with
  | Some x => String.eqb (Js.toLowerCase x) r
  | None => false
  end.

Section WithBcrypt.
Variable bcrypt_compare : string -> string -> bool.

Definition voidSale (user : AuthPayload) (id : nat) (body : ReverseBody)
    (db : Db) : Outcome Sales.Sale * Db :=
  match Js.orNullS (reason body) with
  | None => (Thrown (BadRequestError "Void reason is required"), db)
  | Some reason =>
      let userCanAuthorize :=
        (canAuthorizeVoid user || role_is user "super_admin" ||
         role_is user "manager")%bool in
      if userCanAuthorize then
        Sales.voidSaleSelfAuthorized id reason (userId user) db
      else
        match Js.orNullS (supervisorId body) with
        | None => (Thrown (BadRequestError "Supervisor ID is required"), db)
        | Some supervisorId =>
            match Js.orNullS (supervisorPin body) with
            | None =>
                (Thrown (BadRequestError "Supervisor PIN is required"), db)
            | Some supervisorPin =>
                Sales.voidSale bcrypt_compare id reason supervisorId
                               supervisorPin (userId user) db
            end
        end
  end.

Definition refundSale (user : AuthPayload) (id : nat) (body : ReverseBody)
    (db : Db) : Outcome Sales.Sale * Db :=
  match Js.orNullS (reason body) with
  | None => (Thrown (BadRequestError "Refund reason is required"), db)
  | Some reason =>
      let userCanAuthorize :=
        (canAuthorizeRefund user || role_is user "super_admin" ||
         role_is user "manager")%bool in
      if userCanAuthorize then
        Sales.refundSaleSelfAuthorized id reason (userId user) db
      else
        match Js.orNullS (supervisorId body) with
        | None => (Thrown (BadRequestError "Supervisor ID is required"), db)
        | Some supervisorId =>
            match Js.orNullS (supervisorPin body) with
            | None =>
                (Thrown (BadRequestError "Supervisor PIN is required"), db)
            | Some supervisorPin =>
                Sales.refundSale bcrypt_compare id reason supervisorId
                                 supervisorPin (userId user) db
            end
        end
  end.
End WithBcrypt.

End SaleController.

(* ================================================================== *)
(** ** Specification-side definitions

    These follow the wording of the properties, not the code; the
    theorems below relate them to the functions above. *)
(* ================================================================== *)

Module Spec.
Import Store.

(** Sum of a list of amounts. *)
Definition sum_Q (l : list Q) : Q := fold_right Qplus 0 l.

(** The same discount request without the PWD flag. *)
Definition without_pwd (p : Discounts.Params) : Discounts.Params :=
  Discounts.mkParams (Discounts.subtotal p) (Discounts.customerId p)
                     (Discounts.isSeniorCitizen p) false
                     (Discounts.membershipTierId p).

(** An applied discount is a government discount. *)
Definition is_government (a : Discounts.AppliedDiscount) : bool :=
  (String.eqb (Discounts.applied_type a) "senior_citizen" ||
   String.eqb (Discounts.applied_type a) "pwd")%bool.

(** "for each eligible item, floor(quantity / (buyQty + getQty)) * getQty
    * unitPrice", with the integer (floor) division. *)
Definition free_items_value (promo : Promotions.Promotion) (b g : Z)
    (items : list Promotions.CartItem) : Q :=
  sum_Q (map (fun item =>
                inject_Z ((Promotions.quantity item / (b + g)) * g)%Z *
                Promotions.price item)
             (filter (Promotions.item_eligible promo) items)).

(** A candidate promotion is considered when it has no code, or when its
    code is the supplied coupon code; it matches when moreover its
    conditions hold. *)
Definition considered (params : Promotions.Params) (promo : Promotions.Promotion)
  : bool :=
  (Promotions.coupon_matches (Promotions.couponCode params) promo ||
   negb (Js.truthyOptS (promo_code promo)))%bool.

Definition matches (params : Promotions.Params) (promo : Promotions.Promotion)
  : bool :=
  (considered params promo &&
   Promotions.checkPromotionConditions promo (Promotions.items params)
     (Promotions.cart_subtotal (Promotions.items params))
     (Promotions.customerId params) (Promotions.membershipTierId params))%bool.

(** The elements of a list up to and including the first one that
    satisfies [stop]. *)
Fixpoint through_first {A} (stop : A -> bool) (l : list A) : list A :=
  match l with
  | [] => []
  | x :: r => if stop x then [x] else x :: through_first stop r
  end.

Definition non_stackable (promo : Promotions.Promotion) : bool :=
  negb (is_stackable promo).

(** A persisted sale item corresponds to a line of the cart: same
    product and quantity, the unit price of the request when it gives a
    non-zero one, and a line subtotal of unit price times quantity. *)
Definition cart_line (item : Sales.SaleItem) (row : SaleItemRow) : Prop :=
  si_product_id row = Sales.productId item /\
  si_quantity row = Sales.quantity item /\
  (Js.truthyQ (Sales.unitPrice item) = true ->
     si_unit_price row = Sales.unitPrice item) /\
  si_subtotal row = si_unit_price row * inject_Z (si_quantity row).


(** Loyalty points are redeemed by a sale when a customer row is
    attached to it and the number of points requested is positive. *)
Definition redeems (data : Sales.CreateSaleData) (db : Db) : bool :=
  match Js.orNullS (Sales.customerId data) with
  | Some cid =>
      match Sales.select_customer_points cid db with
      | _ :: _ => (0 <? Js.orZ (Sales.pointsToRedeem data) 0)%Z
      | [] => false
      end
  | None => false
  end.

(** The tables the item loop of [create] leaves alone. *)
Definition same_ledgers (db db1 : Db) : Prop :=
  sales db1 = sales db /\ sale_items db1 = sale_items db /\
  customers db1 = customers db /\ users db1 = users db /\
  membership_tiers db1 = membership_tiers db.

(** The quantity a list of (product, quantity) pairs holds of a product. *)
Definition net_quantity (id : string) (l : list (string * Z)) : Z :=
  fold_right (fun e acc => if String.eqb id (fst e) then (snd e + acc)%Z else acc)
             0%Z l.

(** A product row with its stock moved by an amount that depends on the
    product only. *)
Definition shift_stock (f : string -> Z) (p : Product) : Product :=
  Sales.set_current_stock p (current_stock p + f (product_id p))%Z.

Definition cart_key (l : Sales.SaleItem) : string * Z :=
  (Sales.productId l, Sales.quantity l).
Definition row_key (r : SaleItemRow) : string * Z :=
  (si_product_id r, si_quantity r).

(** Two customer rows with the same balances. *)
Definition same_balances (c c' : Customer) : Prop :=
  customer_id c' = customer_id c /\
  loyalty_points c' = loyalty_points c /\
  total_transactions c' = total_transactions c /\
  lifetime_spend c' == lifetime_spend c /\
  membership_tier_id c' = membership_tier_id c.

(** The same request with another amount tendered. *)
Definition with_amountTendered (t : option Q) (data : Sales.CreateSaleData)
  : Sales.CreateSaleData :=
  Sales.mkCreateSaleData (Sales.customerId data) (Sales.items data)
    (Sales.paymentMethod data) t (Sales.payments data)
    (Sales.discountType data) (Sales.discountAmount data)
    (Sales.isVatExempt data) (Sales.vatExemptReason data)
    (Sales.customerIdNumber data) (Sales.pointsToRedeem data)
    (Sales.notes data).

End Spec.

(* ================================================================== *)
(** ** Concrete stores and requests used by the examples *)
(* ================================================================== *)

Module Examples.
Import Store.

(** A stand-in for bcrypt: the hash of [pin] is ["hash:" ++ pin]. *)
Definition compare_pin (pin hash : string) : bool :=
  String.eqb ("hash:" ++ pin) hash.

Definition rice : Product :=
  mkProduct "p-rice" "Rice" "SKU-1" 100 80 10 true false true 12 true false.
Definition service : Product :=
  mkProduct "p-service" "Service" "SKU-2" 50 0 0 false false false 0 true false.
Definition water : Product :=
  mkProduct "p-water" "Water" "SKU-3" 100 60 2 true false false 0 true false.

Definition silver : MembershipTier := mkTier "t-silver" "Silver" 5 (Some (5 # 4)) true.

Definition ana : Customer := mkCustomer "c-ana" 30 0 0 None.

Definition cashier : User :=
  mkUser "u-cashier" "Cy" "Cash" "active" None false false false.
Definition supervisor : User :=
  mkUser "u-super" "Su" "Per" "active" (Some "hash:1234") true true false.
Definition idle_supervisor : User :=
  mkUser "u-idle" "Id" "Le" "inactive" (Some "hash:1234") true true false.

Definition senior : DiscountSetting :=
  mkDiscountSetting "senior_citizen" "Senior Citizen" 20 true true.
Definition pwd : DiscountSetting :=
  mkDiscountSetting "pwd" "PWD" 15 true true.

(** An auto-apply promotion of priority 10 and a coupon promotion of
    priority 1, both non-stackable and both without conditions. *)
Definition house_promo : PromotionRow :=
  mkPromotionRow "promo-house" "House" None "fixed_amount" 5 None None
                 None None None 0 "all" None None None None 0 100 false 10 true.
Definition coupon_promo : PromotionRow :=
  mkPromotionRow "promo-save" "Save" (Some "SAVE") "fixed_amount" 50 None None
                 None None None 0 "all" None None None None 0 100 false 1 true.
Definition stack_promo : PromotionRow :=
  mkPromotionRow "promo-stack" "Stack" None "percentage" 10 None None
                 None (Some 15) None 0 "all" None None None None 0 100 true 20 true.
(** "Buy 0, get 1": the buy quantity is zero. *)
Definition free_promo : PromotionRow :=
  mkPromotionRow "promo-free" "Free" None "buy_x_get_y" 0 (Some 0%Z) (Some 1%Z)
                 None None None 0 "all" None None None None 0 100 false 0 true.
Definition b2g1_promo : PromotionRow :=
  mkPromotionRow "promo-b2g1" "B2G1" None "buy_x_get_y" 0 (Some 2%Z) (Some 1%Z)
                 None (Some 150) None 0 "all" None None None None 0 100 false 0 true.

Definition db0 : Db :=
  mkDb [rice; service; water] [silver] [ana] [cashier; supervisor; idle_supervisor]
       [senior; pwd] [house_promo; coupon_promo] [] [] [] [] [] [].

(** A request with both government flags and a membership tier. *)
Definition both_flags : Discounts.Params :=
  Discounts.mkParams 200 None true true (Some "t-silver").

Definition line (p : string) (q : Z) : Sales.SaleItem :=
  Sales.mkSaleItem p None q 0 None None None.

Definition cart_item (p : string) (q : Z) (price : Q) : Promotions.CartItem :=
  Promotions.mkCartItem p None q price.

Definition order (customer : option string) (lines : list Sales.SaleItem)
    (tendered : option Q) (discount : option Q) (points : option Z)
  : Sales.CreateSaleData :=
  Sales.mkCreateSaleData customer lines cash tendered None None discount
                         false None None points None.


(** Five units of a product with two in stock, after a line that can be
    served. *)
Definition thirsty_order : Sales.CreateSaleData :=
  order None [line "p-rice" 1; line "p-water" 5] None None None.

(** Two units of rice (100 each, 12% tax) for a customer who redeems 30
    points and tenders 300: subtotal 200, tax 24, total 224 - 30. *)
Definition loyal_order : Sales.CreateSaleData :=
  order (Some "c-ana") [line "p-rice" 2] (Some 300) None (Some 30%Z).

(** The same cart paid with 10, less than the total of 224. *)
Definition underpaid_order : Sales.CreateSaleData :=
  order None [line "p-rice" 2] (Some 10) None None.

(** Two services (50 each, untaxed) with a sale-level discount of 150
    and nothing tendered: the total is -50. *)
Definition zero_tendered_order : Sales.CreateSaleData :=
  order None [line "p-service" 2] (Some 0) (Some 150) None.

(** Two services (a product that does not track inventory) for a
    customer who redeems 30 points. *)
Definition service_order : Sales.CreateSaleData :=
  order (Some "c-ana") [line "p-service" 2] (Some 100) None (Some 30%Z).

(** The store after [service_order], and after its void. *)
Definition db_sold : Db := snd (Sales.create service_order "u-cashier" db0).
Definition db_voided : Db :=
  snd (Sales.voidSaleSelfAuthorized 0 "mistake" "u-super" db_sold).

(** Two units of rice for a customer who redeems nothing. *)
Definition plain_order : Sales.CreateSaleData :=
  order (Some "c-ana") [line "p-rice" 2] (Some 300) None None.

(** The session of the cashier, who cannot authorize a void. *)
Definition cashier_session : SaleController.AuthPayload :=
  SaleController.mkAuthPayload "u-cashier" (Some "cashier") false false.

(** A cart of three units at 10, and the coupon request for it. *)
Definition small_cart : list Promotions.CartItem := [cart_item "p-rice" 3 10].
Definition coupon_request : Promotions.Params :=
  Promotions.mkParams small_cart None None (Some "save").

(** A 10% promotion whose configured cap is zero. *)
Definition zero_cap_promo : PromotionRow :=
  mkPromotionRow "promo-zero" "Zero cap" None "percentage" 10 None None
                 None (Some 0) None 0 "all" None None None None 0 100 false 0 true.

End Examples.

(* ================================================================== *)
(** ** Products service: lookup, soft delete, manual stock adjustment
       (product.service.ts) *)
(* ================================================================== *)

Module Products.
Import Errors Store Tx.
Local Open Scope tx_scope.

(** [x || null] written to the [created_by] column of a stock movement.
    The column holds a string in the model; NULL is the empty string
    there, which [x || null] never stores. *)
Definition created_by (createdBy : option string) : string :=
  match Js.orNullS createdBy with Some s => s | None => "" end.

(** [getById]: [SELECT ... FROM products p LEFT JOIN categories c ...
     WHERE p.id = $1 AND p.deleted_at IS NULL]; the joined category name
    is left out of the result. *)
Definition getById (id : string) (db : Db) : Outcome Product :=
  match Sales.select_product id db with
  | [] => Thrown (NotFoundError "Product not found")
  | product :: _ => Returned product
  end.

(** A product row with [deleted_at] set. *)
Definition set_deleted (p : Product) : Product :=
  mkProduct (product_id p) (product_name p) (product_sku p)
            (selling_price p) (cost_price p) (current_stock p)
            (track_inventory p) (allow_backorder p) (is_taxable p)
            (tax_rate p) (is_vat_exempt_eligible p) true.

(** [remove]: [UPDATE products SET deleted_at = NOW(), status = 'archived'
     WHERE id = $1 AND deleted_at IS NULL RETURNING id]; the rows
    returned are the rows the statement has matched. *)
Definition remove (id : string) (db : Db) : Outcome unit * Db :=
  let result := Sales.select_product id db in
  let db' :=
    with_products
      (map (fun p =>
              if (String.eqb (product_id p) id && negb (product_deleted p))%bool
              then set_deleted p else p)) db in
  match result with
  | [] => (Thrown (NotFoundError "Product not found"), db')
  | _ :: _ => (Returned tt, db')
  end.

(** [UPDATE products SET current_stock = $1 WHERE id = $2] *)
Definition set_stock (stock : Z) (id : string) (db : Db) : Db :=
  with_products
    (map (fun p =>
            if String.eqb (product_id p) id
            then Sales.set_current_stock p stock
            else p)) db.

(** The statements of [adjustStock] between BEGIN and COMMIT. *)
Definition adjustStock_body (id : string) (quantity : Z) (movementType : string)
    (notes createdBy : option string) : Tx unit :=
  productResult <- query (Sales.select_product id) ;;
  match productResult with
  | [] => throw (NotFoundError "Product not found")
  | product :: _ =>
      let currentStock := current_stock product in
      let newStock := (currentStock + quantity)%Z in
      if (newStock <? 0)%Z then throw (BadRequestError "Insufficient stock")
      else
        exec (set_stock newStock id) ;;;
        exec (Sales.insert_stock_movement
                (mkStockMovement id movementType quantity currentStock newStock
                   "manual" None (Js.orNullS notes) (created_by createdBy)))
  end.

(** [adjustStock]: the transaction, then the read-back of the product. *)
Definition adjustStock (id : string) (quantity : Z) (movementType : string)
    (notes createdBy : option string) (db : Db) : Outcome Product * Db :=
  match transaction (adjustStock_body id quantity movementType notes createdBy)
                    db with
  | (Returned _, db') => (getById id db', db')
  | (Thrown e, db') => (Thrown e, db')
  end.

End Products.

(* ================================================================== *)
(** ** Inventory service: bulk adjustment and stock count
       (inventory.service.ts) *)
(* ================================================================== *)

Module Inventory.
Import Errors Store Tx.
Local Open Scope tx_scope.

Record Adjustment : Type := mkAdjustment {
  adj_productId : string;
  adj_quantity : Z;
  adj_notes : option string
}.

Record BulkResult : Type := mkBulkResult {
  bulk_success : nat;
  bulk_failed : nat;
  bulk_errors : list string
}.

(** [for (const adj of adjustments)], over the counter [success] and the
    array [errors].  The statements of the model do not fail, so the
    [catch] inside the loop is not reached. *)
Fixpoint bulk_loop (adjustments : list Adjustment) (movementType : string)
    (createdBy : option string) (success : nat) (errors : list string)
  : Tx (nat * list string) :=
  match adjustments with
  | [] => ret (success, errors)
  | adj :: rest =>
      productResult <- query (Sales.select_product (adj_productId adj)) ;;
      match productResult with
      | [] =>
          bulk_loop rest movementType createdBy success
            (errors ++ [("Product " ++ adj_productId adj ++ " not found")%string])%list
      | product :: _ =>
          if negb (track_inventory product) then
            bulk_loop rest movementType createdBy success
              (errors ++ [("Product " ++ product_name product ++
                           " does not track inventory")%string])%list
          else
            let currentStock := current_stock product in
            let newStock := (currentStock + adj_quantity adj)%Z in
            if (newStock <? 0)%Z then
              bulk_loop rest movementType createdBy success
                (errors ++ [("Product " ++ product_name product ++
                             ": Insufficient stock (current: " ++
                             Js.string_of_Z currentStock ++ ", adjustment: " ++
                             Js.string_of_Z (adj_quantity adj) ++ ")")%string])%list
            else
              exec (Products.set_stock newStock (adj_productId adj)) ;;;
              exec (Sales.insert_stock_movement
                      (mkStockMovement (adj_productId adj) movementType
                         (adj_quantity adj) currentStock newStock "bulk" None
                         (Js.orNullS (adj_notes adj))
                         (Products.created_by createdBy))) ;;;
              bulk_loop rest movementType createdBy (S success) errors
      end
  end.

Definition bulkAdjustStock (adjustments : list Adjustment) (movementType : string)
    (createdBy : option string) : Tx BulkResult :=
  transaction
    (r <- bulk_loop adjustments movementType createdBy 0%nat [] ;;
     ret (mkBulkResult (fst r) (List.length (snd r)) (snd r))).

Record Count : Type := mkCount {
  cnt_productId : string;
  actualCount : Z;
  cnt_notes : option string
}.

Record Discrepancy : Type := mkDiscrepancy {
  d_productId : string;
  d_productName : string;
  expected : Z;
  actual : Z;
  difference : Z
}.

Record CountResult : Type := mkCountResult {
  count_success : nat;
  count_failed : nat;
  discrepancies : list Discrepancy
}.

(** [for (const count of counts)], over [success], [failed] and
    [discrepancies]. *)
Fixpoint count_loop (counts : list Count) (createdBy : option string)
    (success failed : nat) (found : list Discrepancy)
  : Tx (nat * nat * list Discrepancy) :=
  match counts with
  | [] => ret (success, failed, found)
  | count :: rest =>
      productResult <- query (Sales.select_product (cnt_productId count)) ;;
      match productResult with
      | [] => count_loop rest createdBy success (S failed) found
      | product :: _ =>
          let currentStock := current_stock product in
          let difference := (actualCount count - currentStock)%Z in
          let found' :=
            if negb (difference =? 0)%Z
            then (found ++ [mkDiscrepancy (product_id product)
                              (product_name product) currentStock
                              (actualCount count) difference])%list
            else found in
          exec (Products.set_stock (actualCount count) (cnt_productId count)) ;;;
          exec (Sales.insert_stock_movement
                  (mkStockMovement (cnt_productId count) "count" difference
                     currentStock (actualCount count) "stock_count" None
                     (match Js.orNullS (cnt_notes count) with
                      | Some n => Some n
                      | None => Some "Stock count adjustment"
                      end)
                     (Products.created_by createdBy))) ;;;
          count_loop rest createdBy (S success) failed found'
      end
  end.

Definition stockCount (counts : list Count) (createdBy : option string)
  : Tx CountResult :=
  transaction
    (r <- count_loop counts createdBy 0%nat 0%nat [] ;;
     ret (mkCountResult (fst (fst r)) (snd (fst r)) (snd r))).

End Inventory.

(* ================================================================== *)
(** ** Customers service: the loyalty balance (customer.service.ts)

    The customers service reads the [deleted_at] column and writes
    history rows whose reference is a free identifier; its rows carry
    these beside the columns of [Store.Customer], in a store of their
    own. *)
(* ================================================================== *)

Module Customers.
Import Errors Tx.

Record CustomerRow : Type := mkCustomerRow {
  fields : Store.Customer;
  deleted : bool                  (* deleted_at IS NOT NULL *)
}.

Record PointsEntry : Type := mkPointsEntry {
  pe_customer_id : string;
  pe_transaction_type : string;
  pe_points : Z;
  pe_balance_after : Z;
  pe_reference_type : string;
  pe_reference_id : option string;
  pe_description : string;
  pe_created_by : option string
}.

Record CustomerDb : Type := mkCustomerDb {
  customers : list CustomerRow;
  loyalty_points_history : list PointsEntry
}.

(** [SELECT ... FROM customers WHERE id = $1 AND deleted_at IS NULL] *)
Definition select_customer (id : string) (db : CustomerDb) : list CustomerRow :=
  filter (fun c => String.eqb (Store.customer_id (fields c)) id &&
                   negb (deleted c))%bool
         (customers db).

(** [getById]; the joined tier name is left out of the result. *)
Definition getById (id : string) (db : CustomerDb) : Outcome Store.Customer :=
  match select_customer id db with
  | [] => Thrown (NotFoundError "Customer not found")
  | c :: _ => Returned (fields c)
  end.

(** [UPDATE customers SET loyalty_points = $1 WHERE id = $2] *)
Definition set_points (balance : Z) (id : string) (db : CustomerDb)
  : CustomerDb :=
  mkCustomerDb
    (map (fun c =>
            if String.eqb (Store.customer_id (fields c)) id
            then mkCustomerRow
                   (Store.mkCustomer (Store.customer_id (fields c)) balance
                      (Store.lifetime_spend (fields c))
                      (Store.total_transactions (fields c))
                      (Store.membership_tier_id (fields c)))
                   (deleted c)
            else c) (customers db))
    (loyalty_points_history db).

Definition insert_history (e : PointsEntry) (db : CustomerDb) : CustomerDb :=
  mkCustomerDb (customers db) (loyalty_points_history db ++ [e])%list.

(** [remove]: [UPDATE customers SET deleted_at = NOW(), is_active = false
     WHERE id = $1 AND deleted_at IS NULL RETURNING id] *)
Definition remove (id : string) (db : CustomerDb) : Outcome unit * CustomerDb :=
  let result := select_customer id db in
  let db' :=
    mkCustomerDb
      (map (fun c =>
              if (String.eqb (Store.customer_id (fields c)) id &&
                  negb (deleted c))%bool
              then mkCustomerRow (fields c) true else c) (customers db))
      (loyalty_points_history db) in
  match result with
  | [] => (Thrown (NotFoundError "Customer not found"), db')
  | _ :: _ => (Returned tt, db')
  end.

(** [addLoyaltyPoints]: the only throw comes before the first write, so
    the rollback gives the store of the call back. *)
Definition addLoyaltyPoints (id : string) (points : Z)
    (transactionType description : string) (referenceId createdBy : option string)
    (db : CustomerDb) : Outcome Store.Customer * CustomerDb :=
  match select_customer id db with
  | [] => (Thrown (NotFoundError "Customer not found"), db)
  | c :: _ =>
      let currentPoints := Store.loyalty_points (fields c) in
      let newBalance := (currentPoints + points)%Z in
      let db1 := set_points newBalance id db in
      let db2 :=
        insert_history
          (mkPointsEntry id transactionType points newBalance "manual"
             (Js.orNullS referenceId) description (Js.orNullS createdBy)) db1 in
      (getById id db2, db2)
  end.

Definition redeemLoyaltyPoints (id : string) (points : Z) (description : string)
    (referenceId createdBy : option string) (db : CustomerDb)
  : Outcome Store.Customer * CustomerDb :=
  match select_customer id db with
  | [] => (Thrown (NotFoundError "Customer not found"), db)
  | c :: _ =>
      let currentPoints := Store.loyalty_points (fields c) in
      if (currentPoints <? points)%Z
      then (Thrown (BadRequestError "Insufficient loyalty points"), db)
      else
        let newBalance := (currentPoints - points)%Z in
        let db1 := set_points newBalance id db in
        let db2 :=
          insert_history
            (mkPointsEntry id "redeem" (- points) newBalance "redemption"
               (Js.orNullS referenceId) description (Js.orNullS createdBy)) db1 in
        (getById id db2, db2)
  end.

End Customers.

(* ================================================================== *)
(** ** Promotions service: maintenance of the promotions
       (promotion.service.ts) *)
(* ================================================================== *)

Module PromotionAdmin.
Import Errors Store Tx.

(** [String.prototype.trim], on the ASCII white space. *)
Definition is_space (c : ascii) : bool :=
  let n := nat_of_ascii c in
  (Nat.eqb n 32 || (Nat.leb 9 n && Nat.leb n 13))%bool.

Fixpoint trim_start (s : string) : string :=
  match s with
  | EmptyString => EmptyString
  | String c s' => if is_space c then trim_start s' else s
  end.

Fixpoint trim_end (s : string) : string :=
  match s with
  | EmptyString => EmptyString
  | String c s' =>
      match trim_end s' with
      | EmptyString => if is_space c then EmptyString else String c EmptyString
      | t => String c t
      end
  end.

Definition trim (s : string) : string := trim_end (trim_start s).

(** [getActive]: the promotions switched on and inside their dates,
    [ORDER BY priority DESC]; [now] is the value of NOW(). *)
Definition getActive (now : Z) (db : Db) : list Promotions.Promotion :=
  map Promotions.mapPromotion
      (Promotions.order_by_priority_desc
         (filter (fun r => promo_is_active r && (start_date r <=? now)%Z &&
                           (now <=? end_date r)%Z)%bool
                 (promotions db))).

(** [getById] *)
Definition getById (id : string) (db : Db) : Outcome Promotions.Promotion :=
  match filter (fun r => String.eqb (promo_id r) id) (promotions db) with
  | [] => Thrown (NotFoundError "Promotion not found")
  | row :: _ => Returned (Promotions.mapPromotion row)
  end.

(** [UPPER(code) = UPPER($1)]; a NULL code matches nothing. *)
Definition code_is (code : string) (r : PromotionRow) : bool :=
  match promo_code r with
  | Some c => String.eqb (Js.toUpperCase c) (Js.toUpperCase code)
  | None => false
  end.

(** [getByCode]: [... WHERE UPPER(code) = UPPER($1) AND is_active = TRUE] *)
Definition getByCode (code : string) (db : Db) : option Promotions.Promotion :=
  match filter (fun r => code_is code r && promo_is_active r)%bool
               (promotions db) with
  | [] => None
  | row :: _ => Some (Promotions.mapPromotion row)
  end.

Record CreatePromotionData : Type := mkCreatePromotionData {
  name : string;
  code : option string;
  promotionType : string;
  discountValue : Q;
  buyQuantity : option Z;
  getQuantity : option Z;
  minPurchaseAmount : option Q;
  maxDiscountAmount : option Q;
  usageLimit : option Z;
  targetType : option string;
  targetProducts : option (list string);
  targetCategories : option (list string);
  targetCustomers : option (list string);
  targetMembershipTiers : option (list string);
  startDate : Z;
  endDate : Z;
  isStackable : option bool;
  priority : option Z;
  isActive : option bool
}.

(** [data.code?.trim() || null] *)
Definition sanitized_code (data : CreatePromotionData) : option string :=
  match code data with
  | Some c => Js.orNullS (Some (trim c))
  | None => None
  end.

(** The row inserted by [create]; [id] is the identifier the database
    generates, and [current_usage] takes its default. *)
Definition new_promotion_row (data : CreatePromotionData) (id : string)
  : PromotionRow :=
  mkPromotionRow id (name data)
    (match sanitized_code data with
     | Some c => Js.orNullS (Some (Js.toUpperCase c))
     | None => None
     end)
    (promotionType data) (discountValue data)
    (buyQuantity data) (getQuantity data)
    (minPurchaseAmount data) (maxDiscountAmount data)
    (usageLimit data) 0%Z
    (match Js.orNullS (targetType data) with Some t => t | None => "all" end)
    (targetProducts data) (targetCategories data) (targetCustomers data)
    (targetMembershipTiers data)
    (startDate data) (endDate data)
    (match isStackable data with Some b => b | None => false end)
    (match priority data with Some p => p | None => 0%Z end)
    (match isActive data with Some b => b | None => true end).

(** [INSERT INTO promotions (...) VALUES (...)] *)
Definition insert_promotion (row : PromotionRow) (db : Db) : Db :=
  mkDb (products db) (membership_tiers db) (customers db) (users db)
       (discount_settings db) (promotions db ++ [row])%list (sales db)
       (sale_items db) (sale_payments db) (sale_discounts db)
       (stock_movements db) (loyalty_points_history db).

(** [create]; [id] stands for gen_random_uuid(). *)
Definition create (data : CreatePromotionData) (id : string) (db : Db)
  : Outcome Promotions.Promotion * Db :=
  let insert :=
    let row := new_promotion_row data id in
    (Returned (Promotions.mapPromotion row), insert_promotion row db) in
  match sanitized_code data with
  | Some c =>
      match filter (code_is c) (promotions db) with
      | _ :: _ => (Thrown (BadRequestError "Promotion code already exists"), db)
      | [] => insert
      end
  | None => insert
  end.

(** [remove]: [DELETE FROM promotions WHERE id = $1 RETURNING id] *)
Definition remove (id : string) (db : Db) : Outcome unit * Db :=
  let result := filter (fun r => String.eqb (promo_id r) id) (promotions db) in
  let db' :=
    mkDb (products db) (membership_tiers db) (customers db) (users db)
         (discount_settings db)
         (filter (fun r => negb (String.eqb (promo_id r) id)) (promotions db))
         (sales db) (sale_items db) (sale_payments db) (sale_discounts db)
         (stock_movements db) (loyalty_points_history db) in
  match result with
  | [] => (Thrown (NotFoundError "Promotion not found"), db')
  | _ :: _ => (Returned tt, db')
  end.

(** A row of [promotion_usage]. *)
Record UsageRow : Type := mkUsageRow {
  pu_promotion_id : string;
  pu_customer_id : option string;
  pu_sale_id : nat;
  pu_discount_amount : Q
}.

(** [UPDATE promotions SET current_usage = current_usage + 1
     WHERE id = $1] *)
Definition count_usage (promotionId : string) (db : Db) : Db :=
  mkDb (products db) (membership_tiers db) (customers db) (users db)
       (discount_settings db)
       (map (fun r =>
               if String.eqb (promo_id r) promotionId
               then mkPromotionRow (promo_id r) (promo_name r) (promo_code r)
                      (promotion_type r) (discount_value r) (buy_quantity r)
                      (get_quantity r) (min_purchase_amount r)
                      (max_discount_amount r) (usage_limit r)
                      (current_usage r + 1)%Z (target_type r)
                      (target_products r) (target_categories r)
                      (target_customers r) (target_membership_tiers r)
                      (start_date r) (end_date r) (is_stackable r)
                      (Store.priority r) (promo_is_active r)
               else r) (promotions db))
       (sales db) (sale_items db) (sale_payments db) (sale_discounts db)
       (stock_movements db) (loyalty_points_history db).

(** [recordUsage]: the table [promotion_usage] is kept beside the store. *)
Definition recordUsage (promotionId : string) (customerId : option string)
    (saleId : nat) (discountAmount : Q) (st : Db * list UsageRow)
  : Db * list UsageRow :=
  (count_usage promotionId (fst st),
   (snd st ++ [mkUsageRow promotionId customerId saleId discountAmount])%list).

End PromotionAdmin.

(* ================================================================== *)
(** ** Sales service: the summary of the day (sale.service.ts) *)
(* ================================================================== *)

Module SalesReport.
Import Store.



Section WithCalendar.
(** [DATE(created_at) = CURRENT_DATE]: the timestamp of a sale is not a
    column of the model; the test is given by sale identifier. *)
Variable created_today : nat -> bool.


End WithCalendar.

End SalesReport.

(* ================================================================== *)
(** ** Sales controller: the validation of a new sale *)
(* ================================================================== *)

Module SaleControllerCreate.
Import Errors Store Tx.

(** [req.body] of the create route: the cart and the payment method may
    be missing; the other fields are those of the service. *)
Record CreateBody : Type := mkCreateBody {
  body_items : option (list Sales.SaleItem);
  body_paymentMethod : option PaymentMethod;
  body_rest : Sales.CreateSaleData
}.

(** The request handed to the service once both are present. *)
Definition to_data (items : list Sales.SaleItem) (pm : PaymentMethod)
    (d : Sales.CreateSaleData) : Sales.CreateSaleData :=
  Sales.mkCreateSaleData (Sales.customerId d) items pm (Sales.amountTendered d)
    (Sales.payments d) (Sales.discountType d) (Sales.discountAmount d)
    (Sales.isVatExempt d) (Sales.vatExemptReason d) (Sales.customerIdNumber d)
    (Sales.pointsToRedeem d) (Sales.notes d).

Definition create (user : SaleController.AuthPayload) (body : CreateBody)
    (db : Db) : Outcome Sales.Sale * Db :=
  match body_items body with
  | None | Some [] => (Thrown (BadRequestError "Items are required"), db)
  | Some (item :: rest) =>
      match body_paymentMethod body with
      | None => (Thrown (BadRequestError "Payment method is required"), db)
      | Some pm =>
          Sales.create (to_data (item :: rest) pm (body_rest body))
                       (SaleController.userId user) db
      end
  end.

End SaleControllerCreate.

(* ================================================================== *)
(** ** Specification-side definitions for the ledgers *)
(* ================================================================== *)

Module Ledger.
Import Store.

(** A stock movement is consistent when the quantity after is the
    quantity before plus the quantity moved. *)
Definition consistent (m : StockMovement) : Prop :=
  sm_quantity_after m = (sm_quantity_before m + sm_quantity m)%Z.

(** The net quantity a list of movements moves of a product. *)
Definition moved (id : string) (l : list StockMovement) : Z :=
  fold_right (fun m acc =>
                if String.eqb id (sm_product_id m) then (sm_quantity m + acc)%Z
                else acc) 0%Z l.

(** The product selected for an identifier, when it tracks inventory,
    has a stock that is not negative. *)
Definition stock_nonneg (id : string) (db : Db) : Prop :=
  forall p others,
    Sales.select_product id db = p :: others ->
    track_inventory p = true -> (0 <= current_stock p)%Z.

(** The net number of points a list of history rows records. *)
Definition points_recorded (l : list LoyaltyPointsHistory) : Z :=
  fold_right (fun h acc => (lp_points h + acc)%Z) 0%Z l.

End Ledger.

(* ================================================================== *)
(** ** The four operations that take a sale back *)
(* ================================================================== *)

Module Reversal.
Import Store.

(** A void or a refund, authorized by the operator ([None]) or by a
    supervisor and their PIN ([Some (supervisorId, supervisorPin)]). *)
Definition run (bcrypt_compare : string -> string -> bool)
    (action : Auth.Action) (supervisor : option (string * string))
    (saleId : nat) (reason actor : string) (db : Db)
  : Tx.Outcome Sales.Sale * Db :=
  match action, supervisor with
  | Auth.void, None => Sales.voidSaleSelfAuthorized saleId reason actor db
  | Auth.void, Some (supervisorId, supervisorPin) =>
      Sales.voidSale bcrypt_compare saleId reason supervisorId supervisorPin
                     actor db
  | Auth.refund, None => Sales.refundSaleSelfAuthorized saleId reason actor db
  | Auth.refund, Some (supervisorId, supervisorPin) =>
      Sales.refundSale bcrypt_compare saleId reason supervisorId supervisorPin
                       actor db
  end.

(** The user recorded as having authorized the operation. *)
Definition authorizer (supervisor : option (string * string)) (actor : string)
  : string :=
  match supervisor with Some (supervisorId, _) => supervisorId | None => actor end.

Definition reference_type (action : Auth.Action) : string :=
  match action with Auth.void => "void" | Auth.refund => "refund" end.

Definition note (action : Auth.Action) (reason : string) : string :=
  match action with
  | Auth.void => "Void: " ++ reason
  | Auth.refund => "Refund: " ++ reason
  end.

Definition new_status (action : Auth.Action) : string :=
  match action with Auth.void => "voided" | Auth.refund => "refunded" end.

(** The capability a supervisor needs for the operation. *)
Definition capability (action : Auth.Action) (u : User) : bool :=
  match action with
  | Auth.void => can_authorize_void u
  | Auth.refund => can_authorize_refund u
  end.

(** The audit columns of a sale row after the operation. *)
Definition audited (action : Auth.Action) (actor authorizedBy reason : string)
    (s : SaleRow) : Prop :=
  match action with
  | Auth.void =>
      voided_by s = Some actor /\ void_authorized_by s = Some authorizedBy /\
      void_reason s = Some reason
  | Auth.refund =>
      refunded_by s = Some actor /\ refund_authorized_by s = Some authorizedBy /\
      refund_reason s = Some reason /\ refund_amount s = total_amount s
  end.

(** Two sale rows with the same amounts, customer, cashier and points. *)
Definition same_sale (s s' : SaleRow) : Prop :=
  sale_id s' = sale_id s /\ sale_customer_id s' = sale_customer_id s /\
  sale_user_id s' = sale_user_id s /\ subtotal s' = subtotal s /\
  discount_amount s' = discount_amount s /\ tax_amount s' = tax_amount s /\
  total_amount s' = total_amount s /\ points_earned s' = points_earned s /\
  points_redeemed s' = points_redeemed s /\
  points_value_redeemed s' = points_value_redeemed s.

End Reversal.

(* ================================================================== *)
(** ** Further requests and stores used by the examples *)
(* ================================================================== *)

Module MoreExamples.
Import Store Examples.

(** Two units of rice for a senior citizen: VAT-exempt, with a discount
    of 40. *)
Definition exempt_order : Sales.CreateSaleData :=
  Sales.mkCreateSaleData None [line "p-rice" 2] cash (Some 300) None
    (Some "senior_citizen") (Some 40) true (Some "senior_citizen")
    (Some "SC-1") None None.

(** The store after [loyal_order] (two units of rice, 30 points
    redeemed). *)
Definition db_loyal : Db := snd (Sales.create loyal_order "u-cashier" db0).

(** The store after [plain_order] (two units of rice, no points
    redeemed). *)
Definition db_plain : Db := snd (Sales.create plain_order "u-cashier" db0).

(** A promotion that can be used once, and a store that holds it. *)
Definition once_promo : PromotionRow :=
  mkPromotionRow "promo-once" "Once" None "fixed_amount" 5 None None
                 None None (Some 1%Z) 0 "all" None None None None 0 100 false 30
                 true.
Definition db_once : Db :=
  mkDb [rice; service; water] [silver] [ana] [cashier; supervisor]
       [senior; pwd] [once_promo; house_promo] [] [] [] [] [] [].

(** The customers service's store with the customer of the examples. *)
Definition loyalty_db : Customers.CustomerDb :=
  Customers.mkCustomerDb [Customers.mkCustomerRow ana false] [].


(** A new coupon promotion, its code given in lower case between
    spaces. *)
Definition summer : PromotionAdmin.CreatePromotionData :=
  PromotionAdmin.mkCreatePromotionData "Summer" (Some " summer ") "percentage"
    10 None None None None None None None None None None 0 100 None None None.

End MoreExamples.

(* ================================================================== *)
(** ** The void and refund routes *)
(* ================================================================== *)

Module Routes.
Import Store.

(** The handler of the void or of the refund route. *)
Definition request (bcrypt_compare : string -> string -> bool)
    (action : Auth.Action) (user : SaleController.AuthPayload) (id : nat)
    (body : SaleController.ReverseBody) (db : Db)
  : Tx.Outcome Sales.Sale * Db :=
  match action with
  | Auth.void => SaleController.voidSale bcrypt_compare user id body db
  | Auth.refund => SaleController.refundSale bcrypt_compare user id body db
  end.

(** The operator may authorize the operation alone: the flag of the
    session for it, or the role of a manager or super administrator. *)
Definition self_authority (action : Auth.Action)
    (user : SaleController.AuthPayload) : bool :=
  (match action with
   | Auth.void => SaleController.canAuthorizeVoid user
   | Auth.refund => SaleController.canAuthorizeRefund user
   end || SaleController.role_is user "super_admin" ||
   SaleController.role_is user "manager")%bool.

End Routes.

(* ================================================================== *)
(** ** Variations of a promotion request *)
(* ================================================================== *)

Module Carts.

(** The same request with another coupon code. *)
Definition with_couponCode (cc : option string) (params : Promotions.Params)
  : Promotions.Params :=
  Promotions.mkParams (Promotions.items params) (Promotions.customerId params)
                      (Promotions.membershipTierId params) cc.

(** The same request with more items in the cart. *)
Definition with_more (more : list Promotions.CartItem)
    (params : Promotions.Params) : Promotions.Params :=
  Promotions.mkParams (Promotions.items params ++ more)%list
                      (Promotions.customerId params)
                      (Promotions.membershipTierId params)
                      (Promotions.couponCode params).

(** A cart item with a price and a quantity that are not negative. *)
Definition item_nonneg (item : Promotions.CartItem) : Prop :=
  (0 <= Promotions.quantity item)%Z /\ 0 <= Promotions.price item.

End Carts.

(* ================================================================== *)
(** ** The coupon codes of a store *)
(* ================================================================== *)

Module Coupons.
Import Store.

(** The codes of the promotions of the store, in upper case. *)
Definition codes (db : Db) : list string :=
  flat_map (fun r => match promo_code r with
                     | Some c => [Js.toUpperCase c]
                     | None => []
                     end) (promotions db).

(** No two promotions carry the same code, whatever the case. *)
Definition distinct (db : Db) : Prop := NoDup (codes db).

End Coupons.

(* ================================================================== *)
(** ** Facts about the JavaScript helpers *)
(* ================================================================== *)

Import Errors Store Tx.

Lemma Qltb_true (x y : Q) : Js.Qltb x y = true <-> x < y.
Proof.
  unfold Js.Qltb. rewrite negb_true_iff.
  split; intro H.
  - apply Qnot_le_lt. intro Hle. apply Qle_bool_iff in Hle. congruence.
  - destruct (Qle_bool y x) eqn:E; [|reflexivity].
    apply Qle_bool_iff in E. exfalso. exact (Qlt_not_le _ _ H E).
Qed.

Lemma Qltb_false (x y : Q) : Js.Qltb x y = false <-> y <= x.
Proof.
  unfold Js.Qltb. rewrite negb_false_iff. apply Qle_bool_iff.
Qed.

Lemma truthyQ_true (x : Q) : Js.truthyQ x = true <-> ~ x == 0.
Proof.
  unfold Js.truthyQ. rewrite negb_true_iff.
  split; intro H.
  - intro E. apply Qeq_bool_iff in E. congruence.
  - destruct (Qeq_bool x 0) eqn:E; [|reflexivity].
    apply Qeq_bool_iff in E. contradiction.
Qed.

Lemma truthyQ_false (x : Q) : Js.truthyQ x = false <-> x == 0.
Proof.
  unfold Js.truthyQ. rewrite negb_false_iff. apply Qeq_bool_iff.
Qed.

Lemma truthyZ_true (x : Z) : Js.truthyZ x = true <-> x <> 0%Z.
Proof.
  unfold Js.truthyZ. rewrite negb_true_iff. apply Z.eqb_neq.
Qed.

Lemma truthyS_true (s : string) : Js.truthyS s = true <-> s <> "".
Proof.
  destruct s; simpl; split; intro H; congruence.
Qed.

Lemma orNullS_some (s : string) : s <> "" -> Js.orNullS (Some s) = Some s.
Proof.
  intro H. simpl. apply truthyS_true in H. rewrite H. reflexivity.
Qed.

(** [Math.floor(q / d)] on integers is the floor division of [Z]. *)
Lemma Qfloor_div (q d : Z) :
  d <> 0%Z -> Qfloor (inject_Z q / inject_Z d) = (q / d)%Z.
Proof.
  intro Hd. unfold Qdiv, Qinv, Qmult, inject_Z. simpl.
  destruct d as [|p|p]; simpl.
  - congruence.
  - rewrite Z.mul_1_r. reflexivity.
  - rewrite <- (Z.div_opp_opp q (Z.neg p)) by discriminate.
    simpl. f_equal. lia.
Qed.

(* ================================================================== *)
(** ** Discounts: precedence of the government discount *)
(* ================================================================== *)

Section DiscountFacts.
Import Discounts.

Lemma government_step_entries (p : Params) (db : Db) :
  let '(_, _, applied) := government_step p db in
  (List.length applied <= 1)%nat /\
  (forall a, In a applied ->
     (applied_type a = "senior_citizen" /\ isSeniorCitizen p = true) \/
     (applied_type a = "pwd" /\ isSeniorCitizen p = false)).
Proof.
  unfold government_step.
  destruct (isSeniorCitizen p).
  - destruct (find_setting "senior_citizen" (govDiscounts db)); simpl.
    + split; [lia|]. intros a [<-|[]]. left; auto.
    + split; [lia|]. intros a [].
  - destruct (isPwd p).
    + destruct (find_setting "pwd" (govDiscounts db)); simpl.
      * split; [lia|]. intros a [<-|[]]. right; auto.
      * split; [lia|]. intros a [].
    + simpl. split; [lia|]. intros a [].
Qed.

Lemma membership_step_entries (p : Params) (db : Db) (g : Q) :
  forall a, In a (snd (membership_step p db g)) -> applied_type a = "membership".
Proof.
  unfold membership_step.
  destruct (membershipTierId p) as [id|]; [|intros a []].
  destruct (Js.truthyS id); [|intros a []].
  destruct (active_tiers db id) as [|tier rest]; [intros a []|].
  destruct (Js.Qgtb _ 0); simpl; [|intros a []].
  intros a [<-|[]]. reflexivity.
Qed.

Lemma filter_none {A} (f : A -> bool) (l : list A) :
  (forall a, In a l -> f a = false) -> filter f l = [].
Proof.
  induction l as [|x l IH]; intro H; simpl; [reflexivity|].
  rewrite (H x (or_introl eq_refl)). apply IH. intros a Ha. apply H. right; exact Ha.
Qed.

(** C5. Discount precedence.  For every evaluation [r] of
    [calculateDiscounts]:
    - when both the senior-citizen and the PWD flag are set, the PWD flag
      has no effect ([r] is the result of the same request without it), no
      applied discount is a PWD discount, and the government discount is
      the senior-citizen one: [subtotal * percentage / 100] of the active
      senior-citizen setting, with its VAT-exemption flag (and zero when
      there is no such setting);
    - at most one government discount is applied;
    - when the membership tier of the request is found, the membership
      discount is [(subtotal - governmentDiscount) * percentage / 100]:
      its base is the subtotal less the government discount. *)
Theorem calculateDiscounts_precedence (p : Params) (db : Db) :
  (isSeniorCitizen p = true -> isPwd p = true ->
     calculateDiscounts p db = calculateDiscounts (Spec.without_pwd p) db /\
     (forall a, In a (appliedDiscounts (calculateDiscounts p db)) ->
                applied_type a <> "pwd") /\
     (forall sc, find_setting "senior_citizen" (govDiscounts db) = Some sc ->
        governmentDiscount (calculateDiscounts p db)
          = subtotal p * (percentage sc / 100) /\
        isVatExempt (calculateDiscounts p db) = is_vat_exempt sc /\
        In (mkApplied "senior_citizen" (setting_name sc) (percentage sc)
                      (subtotal p * (percentage sc / 100)))
           (appliedDiscounts (calculateDiscounts p db))) /\
     (find_setting "senior_citizen" (govDiscounts db) = None ->
        governmentDiscount (calculateDiscounts p db) = 0)) /\
  (List.length (filter Spec.is_government
                  (appliedDiscounts (calculateDiscounts p db))) <= 1)%nat /\
  (forall id tier rest,
     membershipTierId p = Some id -> id <> "" ->
     active_tiers db id = tier :: rest ->
     membershipDiscount (calculateDiscounts p db)
       = (subtotal p - governmentDiscount (calculateDiscounts p db))
         * (tier_discount_percentage tier / 100)).
Proof.
  split; [|split].
  - intros Hsc Hpwd.
    assert (Hgov : government_step p db = government_step (Spec.without_pwd p) db).
    { unfold government_step. simpl. rewrite Hsc. reflexivity. }
    repeat split.
    + unfold calculateDiscounts. rewrite Hgov.
      destruct (government_step (Spec.without_pwd p) db) as [[g v] ga].
      reflexivity.
    + intros a Ha Htype.
      unfold calculateDiscounts in Ha.
      pose proof (government_step_entries p db) as Hg.
      destruct (government_step p db) as [[g v] ga].
      pose proof (membership_step_entries p db g) as Hm.
      destruct (membership_step p db g) as [m ma]. simpl in *.
      apply in_app_or in Ha. destruct Ha as [Ha|Ha].
      * destruct Hg as [_ Hg]. destruct (Hg a Ha) as [[E _]|[_ E]]; congruence.
      * specialize (Hm a Ha). congruence.
    + unfold calculateDiscounts, government_step. rewrite Hsc, H.
      destruct (membership_step p db _). reflexivity.
    + unfold calculateDiscounts, government_step. rewrite Hsc, H.
      destruct (membership_step p db _). reflexivity.
    + unfold calculateDiscounts, government_step. rewrite Hsc, H.
      destruct (membership_step p db _). simpl. left. reflexivity.
    + intro H. unfold calculateDiscounts, government_step. rewrite Hsc, H.
      destruct (membership_step p db _). reflexivity.
  - unfold calculateDiscounts.
    pose proof (government_step_entries p db) as Hg.
    destruct (government_step p db) as [[g v] ga].
    pose proof (membership_step_entries p db g) as Hm.
    destruct (membership_step p db g) as [m ma]. simpl in *.
    rewrite filter_app, length_app.
    rewrite (filter_none Spec.is_government ma).
    + destruct Hg as [Hlen _]. simpl.
      pose proof (filter_length_le Spec.is_government ga). lia.
    + intros a Ha. unfold Spec.is_government. rewrite (Hm a Ha). reflexivity.
  - intros id tier rest Hid Hne Htier.
    unfold calculateDiscounts.
    destruct (government_step p db) as [[g v] ga].
    unfold membership_step. rewrite Hid, Htier.
    apply truthyS_true in Hne. rewrite Hne.
    destruct (Js.Qgtb _ 0); reflexivity.
Qed.

End DiscountFacts.

Import Examples.

(** Witness of [calculateDiscounts_precedence]: both flags set, Silver
    tier (5%), senior-citizen setting at 20%, subtotal 200. *)
Lemma calculateDiscounts_precedence_witness :
  Discounts.governmentDiscount (Discounts.calculateDiscounts both_flags db0)
    = 200 * (20 / 100) /\
  (forall a, In a (Discounts.appliedDiscounts
                     (Discounts.calculateDiscounts both_flags db0)) ->
             Discounts.applied_type a <> "pwd") /\
  Discounts.membershipDiscount (Discounts.calculateDiscounts both_flags db0)
    = (200 - Discounts.governmentDiscount
               (Discounts.calculateDiscounts both_flags db0)) * (5 / 100).
Proof.
  destruct (calculateDiscounts_precedence both_flags db0) as [A [_ C]].
  destruct (A eq_refl eq_refl) as [_ [A2 [A3 _]]].
  split; [|split].
  - exact (proj1 (A3 senior eq_refl)).
  - exact A2.
  - apply (C "t-silver" silver []); [reflexivity|discriminate|reflexivity].
Defined.

(* ================================================================== *)
(** ** Promotions: amount of a promotion *)
(* ================================================================== *)

Section PromotionFacts.
Import Promotions.

Lemma buy_x_get_y_loop_sum (promo : Promotion) (b g : Z)
    (items : list CartItem) (discount : Q) :
  (b + g <> 0)%Z ->
  buy_x_get_y_loop promo b g items discount
    == discount + Spec.free_items_value promo b g items.
Proof.
  intro Hbg. revert discount.
  induction items as [|item rest IH]; intro discount.
  - unfold Spec.free_items_value. simpl. ring.
  - cbn [buy_x_get_y_loop]. unfold Spec.free_items_value in *.
    cbn [filter]. destruct (item_eligible promo item).
    + rewrite IH. rewrite Qfloor_div by exact Hbg.
      cbn [map Spec.sum_Q fold_right]. rewrite inject_Z_mult. unfold Spec.sum_Q. ring.
    + apply IH.
Qed.

(** C7 (amended). Amount of a promotion.  The amount before the cap is,
    by type: percentage, [subtotal * value / 100]; fixed_amount, the
    configured value; buy_x_get_y with buy and get quantities both set
    and non-zero, the sum over the eligible items of
    [floor(quantity / (buy + get)) * get * price], and zero when either
    quantity is unset or zero.  When a non-zero [maxDiscountAmount] is
    configured and the amount exceeds it, the result is the cap;
    otherwise the result is the amount itself. *)
Theorem calculateDiscount_by_type (promo : Promotion) (items : list CartItem)
    (subtotal : Q) :
  (promotion_type promo = "percentage" ->
     discount_by_type promo items subtotal
       = subtotal * (discount_value promo / 100)) /\
  (promotion_type promo = "fixed_amount" ->
     discount_by_type promo items subtotal = discount_value promo) /\
  (promotion_type promo = "buy_x_get_y" ->
     (forall b g, buy_quantity promo = Some b -> get_quantity promo = Some g ->
                  b <> 0%Z -> g <> 0%Z -> (b + g <> 0)%Z ->
        discount_by_type promo items subtotal
          == Spec.free_items_value promo b g items) /\
     ((Js.truthyOptZ (buy_quantity promo) && Js.truthyOptZ (get_quantity promo))%bool
        = false ->
        discount_by_type promo items subtotal = 0)) /\
  (forall cap, max_discount_amount promo = Some cap -> ~ cap == 0 ->
               cap < discount_by_type promo items subtotal ->
     calculateDiscount promo items subtotal = cap) /\
  ((max_discount_amount promo = None \/
    exists cap, max_discount_amount promo = Some cap /\
                (cap == 0 \/ discount_by_type promo items subtotal <= cap)) ->
     calculateDiscount promo items subtotal
       = discount_by_type promo items subtotal).
Proof.
  split; [|split; [|split; [|split]]].
  - intro H. unfold discount_by_type. rewrite H. reflexivity.
  - intro H. unfold discount_by_type. rewrite H. reflexivity.
  - intro H. split.
    + intros b g Hb Hg Hb0 Hg0 Hbg.
      unfold discount_by_type. rewrite H, Hb, Hg. simpl.
      apply truthyZ_true in Hb0. apply truthyZ_true in Hg0.
      rewrite Hb0, Hg0. simpl.
      rewrite buy_x_get_y_loop_sum by exact Hbg. ring.
    + intro Hf. unfold discount_by_type. rewrite H. simpl.
      destruct (buy_quantity promo) as [b|]; [|reflexivity].
      destruct (get_quantity promo) as [g|]; [|reflexivity].
      simpl in Hf. rewrite Hf. reflexivity.
  - intros cap Hcap Hnz Hlt. unfold calculateDiscount. rewrite Hcap.
    apply truthyQ_true in Hnz. unfold Js.Qgtb.
    apply Qltb_true in Hlt. rewrite Hnz, Hlt. reflexivity.
  - intros [Hnone|[cap [Hcap Hor]]]; unfold calculateDiscount.
    + rewrite Hnone. reflexivity.
    + rewrite Hcap. destruct Hor as [Hz|Hle].
      * apply truthyQ_false in Hz. rewrite Hz. reflexivity.
      * unfold Js.Qgtb. apply Qltb_false in Hle. rewrite Hle.
        rewrite andb_false_r. reflexivity.
Qed.

End PromotionFacts.

(** Witness of [calculateDiscount_by_type]: "buy 2 get 1" on a cart of
    seven units at 100, capped at 150: two free units are worth 200 and
    the cap applies. *)
Lemma calculateDiscount_by_type_witness :
  Promotions.discount_by_type b2g1_promo [cart_item "p-rice" 7 100] 700
    == Spec.free_items_value b2g1_promo 2 1 [cart_item "p-rice" 7 100] /\
  Promotions.calculateDiscount b2g1_promo [cart_item "p-rice" 7 100] 700 = 150 /\
  Promotions.discount_by_type stack_promo small_cart 30 = 30 * (10 / 100) /\
  Promotions.calculateDiscount stack_promo small_cart 30
    = Promotions.discount_by_type stack_promo small_cart 30.
Proof.
  destruct (calculateDiscount_by_type b2g1_promo [cart_item "p-rice" 7 100] 700)
    as [_ [_ [B [C _]]]].
  destruct (calculateDiscount_by_type stack_promo small_cart 30)
    as [P [_ [_ [_ D]]]].
  split; [|split; [|split]].
  - apply (proj1 (B eq_refl) 2%Z 1%Z); [reflexivity|reflexivity|lia|lia|lia].
  - apply (C 150); [reflexivity|discriminate|reflexivity].
  - apply P. reflexivity.
  - apply D. right. exists 15. split; [reflexivity|].
    right. discriminate.
Defined.

(** C7, as stated, fails at two explicit promotions.
    "Buy 0 get 1" on three units at 10: the stated formula gives
    [floor(3 / 1) * 1 * 10 = 30], the code gives 0.
    A 10% promotion with a configured cap of 0 on a subtotal of 30: the
    amount 3 exceeds the cap, and the code returns 3, not the cap. *)
Lemma calculateDiscount_counterexample :
  (promotion_type free_promo = "buy_x_get_y" /\
   Promotions.checkPromotionConditions free_promo small_cart 30 None None = true /\
   Spec.free_items_value free_promo 0 1 small_cart == 30 /\
   Promotions.calculateDiscount free_promo small_cart 30 == 0 /\
   ~ Promotions.calculateDiscount free_promo small_cart 30
       == Spec.free_items_value free_promo 0 1 small_cart) /\
  (max_discount_amount zero_cap_promo = Some 0 /\
   0 < Promotions.discount_by_type zero_cap_promo small_cart 30 /\
   Promotions.calculateDiscount zero_cap_promo small_cart 30 == 3 /\
   ~ Promotions.calculateDiscount zero_cap_promo small_cart 30 == 0).
Proof.
  repeat split; try reflexivity; discriminate.
Qed.

(* ================================================================== *)
(** ** Promotions: order of evaluation and stacking *)
(* ================================================================== *)

Section PromotionOrder.
Import Promotions.

Lemma through_first_incl {A} (stop : A -> bool) (l : list A) (x : A) :
  In x (Spec.through_first stop l) -> In x l.
Proof.
  induction l as [|y l IH]; simpl; [tauto|].
  destruct (stop y); simpl; intuition.
Qed.

Lemma through_first_stop_last {A} (stop : A -> bool) (l l1 l2 : list A) (x : A) :
  Spec.through_first stop l = (l1 ++ x :: l2)%list -> stop x = true -> l2 = [].
Proof.
  revert l1. induction l as [|y l IH]; intros l1 H Hx; simpl in H.
  - destruct l1; discriminate.
  - destruct (stop y) eqn:Ey.
    + destruct l1 as [|z l1]; simpl in H.
      * injection H as _ H. symmetry. exact H.
      * injection H as _ H. destruct l1; discriminate.
    + destruct l1 as [|z l1]; simpl in H.
      * injection H as H _. congruence.
      * injection H as _ H. exact (IH l1 H Hx).
Qed.

(** The loop applies, in the order of its input, the promotions that
    match, through the first non-stackable one. *)
Lemma promotions_loop_spec (params : Params) (promos applicable : list Promotion)
    (totalDiscount : Q) :
  let subtotal := cart_subtotal (items params) in
  let taken := Spec.through_first Spec.non_stackable
                 (filter (Spec.matches params) promos) in
  fst (promotions_loop params subtotal promos applicable totalDiscount)
    = (applicable ++ taken)%list /\
  snd (promotions_loop params subtotal promos applicable totalDiscount)
    == totalDiscount +
       Spec.sum_Q (map (fun p => calculateDiscount p (items params) subtotal) taken).
Proof.
  cbv zeta. revert applicable totalDiscount.
  induction promos as [|promo rest IH]; intros applicable totalDiscount.
  - simpl. rewrite app_nil_r. split; [reflexivity|ring].
  - cbn [promotions_loop filter].
    assert (Hm : Spec.matches params promo
                 = ((coupon_matches (couponCode params) promo ||
                     negb (Js.truthyOptS (promo_code promo))) &&
                    checkPromotionConditions promo (items params)
                      (cart_subtotal (items params)) (customerId params)
                      (membershipTierId params))%bool) by reflexivity.
    rewrite Hm. clear Hm.
    assert (Hstep :
      fst (if negb (is_stackable promo)
           then ((applicable ++ [promo])%list,
                 totalDiscount + calculateDiscount promo (items params)
                                   (cart_subtotal (items params)))
           else promotions_loop params (cart_subtotal (items params)) rest
                  (applicable ++ [promo])%list
                  (totalDiscount + calculateDiscount promo (items params)
                                     (cart_subtotal (items params))))
      = (applicable ++ Spec.through_first Spec.non_stackable
           (promo :: filter (Spec.matches params) rest))%list /\
      snd (if negb (is_stackable promo)
           then ((applicable ++ [promo])%list,
                 totalDiscount + calculateDiscount promo (items params)
                                   (cart_subtotal (items params)))
           else promotions_loop params (cart_subtotal (items params)) rest
                  (applicable ++ [promo])%list
                  (totalDiscount + calculateDiscount promo (items params)
                                     (cart_subtotal (items params))))
      == totalDiscount +
         Spec.sum_Q (map (fun p => calculateDiscount p (items params)
                                     (cart_subtotal (items params)))
                         (Spec.through_first Spec.non_stackable
                            (promo :: filter (Spec.matches params) rest)))).
    { cbn [Spec.through_first]. unfold Spec.non_stackable at 1 3.
      destruct (is_stackable promo); cbn [negb].
      - destruct (IH (applicable ++ [promo])%list
                     (totalDiscount +
                      calculateDiscount promo (items params)
                        (cart_subtotal (items params)))) as [H1 H2].
        split.
        + rewrite H1, <- app_assoc. reflexivity.
        + rewrite H2. cbn [map]. unfold Spec.sum_Q. cbn [fold_right]. ring.
      - split; [reflexivity|].
        cbn [snd map]. unfold Spec.sum_Q. cbn [fold_right]. ring. }
    destruct (coupon_matches (couponCode params) promo);
      [|destruct (Js.truthyOptS (promo_code promo))];
      cbn [orb negb andb];
      try apply IH;
      (destruct (checkPromotionConditions promo (items params)
                   (cart_subtotal (items params)) (customerId params)
                   (membershipTierId params));
       [exact Hstep | apply IH]).
Qed.

Lemma insert_by_priority_sorted (p : PromotionRow) (l : list PromotionRow) :
  Sorted (fun a b => (priority b <= priority a)%Z) l ->
  Sorted (fun a b => (priority b <= priority a)%Z) (insert_by_priority p l).
Proof.
  induction 1 as [|q r Hs IH Hhd]; simpl.
  - repeat constructor.
  - destruct (priority q <? priority p)%Z eqn:E.
    + apply Z.ltb_lt in E. constructor; [constructor; assumption|].
      constructor. lia.
    + apply Z.ltb_ge in E. constructor; [exact IH|].
      destruct r as [|r0 r]; simpl.
      * constructor. exact E.
      * destruct (priority r0 <? priority p)%Z.
        -- constructor. exact E.
        -- inversion Hhd; subst. constructor. assumption.
Qed.

Lemma order_by_priority_desc_sorted (l : list PromotionRow) :
  Sorted (fun a b => (priority b <= priority a)%Z) (order_by_priority_desc l).
Proof.
  induction l as [|p l IH]; simpl; [constructor|].
  apply insert_by_priority_sorted. exact IH.
Qed.

Lemma insert_by_priority_perm (p : PromotionRow) (l : list PromotionRow) :
  Permutation (insert_by_priority p l) (p :: l).
Proof.
  induction l as [|q r IH]; simpl; [reflexivity|].
  destruct (priority q <? priority p)%Z; [reflexivity|].
  rewrite IH. apply perm_swap.
Qed.

Lemma order_by_priority_desc_perm (l : list PromotionRow) :
  Permutation (order_by_priority_desc l) l.
Proof.
  induction l as [|p l IH]; simpl; [reflexivity|].
  rewrite insert_by_priority_perm. constructor. exact IH.
Qed.

(** C6 (amended). Promotion evaluation order and stacking.  The
    candidates (the active promotions under their usage cap) are
    evaluated in one pass in descending order of priority, whether or
    not they carry a code.  A candidate is considered when it has no code
    (auto-apply) or when its code is the supplied coupon code (compared
    in upper case); it is applied when moreover its conditions hold.  The
    applied promotions are exactly the matching candidates, in priority
    order, through the first non-stackable one: a non-stackable applied
    promotion is the last one applied, and the discount amount is the sum
    of the amounts of the applied promotions. *)
Theorem checkApplicable_order_and_stacking (now : Z) (params : Params) (db : Db) :
  let r := checkApplicable now params db in
  let subtotal := cart_subtotal (items params) in
  Sorted (fun a b => (priority b <= priority a)%Z) (activePromotions now db) /\
  Permutation (activePromotions now db)
              (filter (active_promotion now) (promotions db)) /\
  applicable r
    = Spec.through_first Spec.non_stackable
        (filter (Spec.matches params) (activePromotions now db)) /\
  (forall p, In p (applicable r) ->
     In p (activePromotions now db) /\
     (coupon_matches (couponCode params) p = true \/
      Js.truthyOptS (promo_code p) = false) /\
     checkPromotionConditions p (items params) subtotal (customerId params)
                              (membershipTierId params) = true) /\
  (forall l1 p l2, applicable r = (l1 ++ p :: l2)%list ->
                   is_stackable p = false -> l2 = []) /\
  discountAmount r
    == Spec.sum_Q (map (fun p => calculateDiscount p (items params) subtotal)
                       (applicable r)).
Proof.
  cbv zeta.
  assert (Happ : applicable (checkApplicable now params db)
                 = Spec.through_first Spec.non_stackable
                     (filter (Spec.matches params) (activePromotions now db))).
  { unfold checkApplicable.
    pose proof (promotions_loop_spec params (activePromotions now db) [] 0) as H.
    cbv zeta in H. destruct H as [H _].
    destruct (promotions_loop _ _ _ _ _) as [a t]. exact H. }
  split; [|split; [|split; [|split; [|split]]]].
  - unfold activePromotions, mapPromotion. rewrite map_id.
    apply order_by_priority_desc_sorted.
  - unfold activePromotions, mapPromotion. rewrite map_id.
    apply order_by_priority_desc_perm.
  - exact Happ.
  - intros p Hp. rewrite Happ in Hp.
    apply through_first_incl in Hp. apply filter_In in Hp.
    destruct Hp as [Hin Hm]. unfold Spec.matches, Spec.considered in Hm.
    apply andb_true_iff in Hm. destruct Hm as [Hc Hk].
    split; [exact Hin|]. split; [|exact Hk].
    apply orb_true_iff in Hc. destruct Hc as [Hc|Hc]; [left; exact Hc|].
    right. apply negb_true_iff. exact Hc.
  - intros l1 p l2 Heq Hs. rewrite Happ in Heq.
    apply (through_first_stop_last _ _ _ _ _ Heq).
    unfold Spec.non_stackable. rewrite Hs. reflexivity.
  - unfold checkApplicable.
    pose proof (promotions_loop_spec params (activePromotions now db) [] 0) as H.
    cbv zeta in H. destruct H as [H1 H2].
    destruct (promotions_loop _ _ _ _ _) as [a t]. simpl in *.
    rewrite H2, H1. ring.
Qed.

End PromotionOrder.

(** The theorem at the store of the examples: with the coupon "save", the
    house promotion alone is applied, for a discount of 5. *)
Lemma checkApplicable_order_and_stacking_witness :
  Promotions.applicable (Promotions.checkApplicable 50 coupon_request db0)
    = Spec.through_first Spec.non_stackable
        (filter (Spec.matches coupon_request) (Promotions.activePromotions 50 db0)) /\
  Promotions.discountAmount (Promotions.checkApplicable 50 coupon_request db0)
    == Spec.sum_Q
         (map (fun p => Promotions.calculateDiscount p small_cart
                          (Promotions.cart_subtotal small_cart))
              (Promotions.applicable
                 (Promotions.checkApplicable 50 coupon_request db0))).
Proof.
  destruct (checkApplicable_order_and_stacking 50 coupon_request db0)
    as [_ [_ [A [_ [_ D]]]]].
  split; [exact A|exact D].
Defined.

(** C6, as stated, fails: with the coupon code "save" supplied, the
    auto-apply promotion of higher priority is evaluated and applied before
    the promotion carrying that code, and being non-stackable it ends the
    evaluation; the coupon's promotion, whose conditions hold, is never
    applied. *)
Lemma checkApplicable_coupon_counterexample :
  Promotions.coupon_matches (Promotions.couponCode coupon_request) coupon_promo = true /\
  Promotions.checkPromotionConditions coupon_promo small_cart 30 None None = true /\
  Promotions.applicable (Promotions.checkApplicable 50 coupon_request db0)
    = [house_promo] /\
  ~ In coupon_promo
       (Promotions.applicable (Promotions.checkApplicable 50 coupon_request db0)).
Proof.
  split; [reflexivity|]. split; [reflexivity|]. split; [reflexivity|].
  intros [H|[]]. discriminate H.
Qed.

(* ================================================================== *)
(** ** Sales: the item loop of [create] *)
(* ================================================================== *)

Section CreateFacts.
Import Sales.

Lemma filter_map_comm {A} (f : A -> bool) (g : A -> A) (l : list A) :
  (forall a, f (g a) = f a) -> filter f (map g l) = map g (filter f l).
Proof.
  intro H. induction l as [|a l IH]; simpl; [reflexivity|].
  rewrite H. destruct (f a); simpl; rewrite IH; reflexivity.
Qed.

(** A stock update keeps the identity of the rows: the same products are
    selected, with the updated stock. *)
Lemma select_product_add_stock (id pid : string) (delta : Z) (db : Db) :
  select_product id (add_stock delta pid db) = [] <-> select_product id db = [].
Proof.
  unfold select_product, add_stock. simpl.
  rewrite filter_map_comm.
  - split; intro H.
    + destruct (filter _ (products db)); [reflexivity|discriminate].
    + rewrite H. reflexivity.
  - intro p. destruct (String.eqb (product_id p) pid); reflexivity.
Qed.

(** The loop split at a line. *)
Lemma items_loop_app (data : CreateSaleData) (userId : string)
    (pre post : list SaleItem) (acc : Totals) (db : Db) :
  items_loop data userId (pre ++ post) acc db
  = match items_loop data userId pre acc db with
    | (Returned acc1, db1) => items_loop data userId post acc1 db1
    | (Thrown e, db1) => (Thrown e, db1)
    end.
Proof.
  revert acc db. induction pre as [|item pre IH]; intros acc db.
  - reflexivity.
  - cbn [app items_loop]. unfold bind, query, throw, exec, ret.
    destruct (select_product (productId item) db) as [|product others];
      [reflexivity|].
    destruct (track_inventory product && _)%bool; [reflexivity|].
    destruct (track_inventory product); apply IH.
Qed.

(** Whatever the loop throws is a BadRequest error. *)
Lemma items_loop_thrown (data : CreateSaleData) (userId : string)
    (items : list SaleItem) (acc : Totals) (db db1 : Db) (e : AppError) :
  items_loop data userId items acc db = (Thrown e, db1) ->
  exists msg, e = BadRequestError msg.
Proof.
  revert acc db. induction items as [|item rest IH]; intros acc db H.
  - discriminate H.
  - cbn [items_loop] in H. unfold bind, query, throw, exec, ret in H.
    destruct (select_product (productId item) db) as [|product others].
    + injection H as <- _. eexists. reflexivity.
    + destruct (track_inventory product && _)%bool.
      * injection H as <- _. eexists. reflexivity.
      * destruct (track_inventory product); exact (IH _ _ H).
Qed.

(** A line whose product is missing makes the loop throw, wherever the
    line stands in the cart. *)
Lemma items_loop_missing_product (data : CreateSaleData) (userId : string)
    (l : SaleItem) (items : list SaleItem) (acc : Totals) (db : Db) :
  In l items -> select_product (productId l) db = [] ->
  exists msg db1,
    items_loop data userId items acc db = (Thrown (BadRequestError msg), db1).
Proof.
  revert acc db. induction items as [|item rest IH]; intros acc db Hin Hnone.
  - destruct Hin.
  - cbn [items_loop]. unfold bind, query, throw, exec, ret.
    destruct (select_product (productId item) db) as [|product others] eqn:Ep.
    + eexists. eexists. reflexivity.
    + destruct Hin as [->|Hin]; [congruence|].
      destruct (track_inventory product && _)%bool.
      * eexists. eexists. reflexivity.
      * destruct (track_inventory product).
        -- apply IH; [exact Hin|].
           exact (proj2 (select_product_add_stock _ _ _ _) Hnone).
        -- apply IH; assumption.
Qed.

(** A throw of the body of [create] is rolled back. *)
Lemma create_thrown (data : CreateSaleData) (userId : string) (db db1 : Db)
    (e : AppError) :
  items_loop data userId (items data) (mkTotals 0 0 []) db = (Thrown e, db1) ->
  create data userId db = (Thrown e, db).
Proof.
  intro H. unfold create, transaction, create_body, bind.
  rewrite H. reflexivity.
Qed.


(** The loop throws at a line whose tracked product is short of stock in
    the store the loop has reached, whatever comes before and after. *)
Lemma items_loop_insufficient (data : CreateSaleData) (userId : string)
    (db : Db) (pre post : list SaleItem) (l : SaleItem) (acc : Totals)
    (p : Product) (others : list Product) :
  select_product (productId l) (snd (items_loop data userId pre acc db))
    = p :: others ->
  track_inventory p = true ->
  (current_stock p < quantity l)%Z ->
  exists msg db1,
    items_loop data userId (pre ++ l :: post) acc db
    = (Thrown (BadRequestError msg), db1).
Proof.
  intros Hsel Htrack Hlow. rewrite items_loop_app.
  destruct (items_loop data userId pre acc db) as [[acc1|e] db1] eqn:Epre.
  - simpl in Hsel. cbn [items_loop]. unfold bind, query, throw.
    rewrite Hsel, Htrack. apply Z.ltb_lt in Hlow. rewrite Hlow.
    simpl. eexists. eexists. reflexivity.
  - destruct (items_loop_thrown _ _ _ _ _ _ _ Epre) as [msg ->].
    eexists. eexists. reflexivity.
Qed.

(** C4. Insufficient stock.  When the loop comes to a line whose product
    tracks inventory and whose current stock, as the transaction reads
    it at that line, is less than the quantity requested, [create] fails
    with a BadRequest error and returns the store it was given: no stock
    movement, stock decrement, sale, sale item or loyalty change of the
    call remains, for any line of the cart.  The [allow_backorder] column
    is not consulted. *)
Theorem create_insufficient_stock_atomic (data : CreateSaleData)
    (userId : string) (db : Db) (pre post : list SaleItem) (l : SaleItem)
    (p : Product) (others : list Product) :
  items data = (pre ++ l :: post)%list ->
  select_product (productId l)
    (snd (items_loop data userId pre (mkTotals 0 0 []) db)) = p :: others ->
  track_inventory p = true ->
  (current_stock p < quantity l)%Z ->
  exists msg, create data userId db = (Thrown (BadRequestError msg), db).
Proof.
  intros Hitems Hsel Htrack Hlow.
  destruct (items_loop_insufficient data userId db pre post l (mkTotals 0 0 [])
              p others Hsel Htrack Hlow) as [msg [db1 H]].
  rewrite <- Hitems in H.
  exists msg. exact (create_thrown _ _ _ _ _ H).
Qed.

(** Lines of non-negative quantity never raise a stock level: the product
    rows selected for an identifier keep their tracking flag and have at
    most the stock they had. *)
Lemma items_loop_stock_le (data : CreateSaleData) (userId : string)
    (pre : list SaleItem) (acc acc1 : Totals) (db db1 : Db) :
  items_loop data userId pre acc db = (Returned acc1, db1) ->
  (forall l', In l' pre -> (0 <= quantity l')%Z) ->
  forall id p others,
    select_product id db = p :: others ->
    exists p1 others1,
      select_product id db1 = p1 :: others1 /\
      track_inventory p1 = track_inventory p /\
      (current_stock p1 <= current_stock p)%Z.
Proof.
  revert acc db. induction pre as [|item rest IH]; intros acc db H Hq id p others Hsel.
  - injection H as _ <-. exists p, others. split; [exact Hsel|]. split; [reflexivity|lia].
  - cbn [items_loop] in H. unfold bind, query, throw, exec, ret in H.
    destruct (select_product (productId item) db) as [|product others0];
      [discriminate H|].
    destruct (track_inventory product && _)%bool; [discriminate H|].
    pose proof (Hq item (or_introl eq_refl)) as Hq0.
    assert (Hrest : forall l', In l' rest -> (0 <= quantity l')%Z)
      by (intros l' Hl'; apply Hq; right; exact Hl').
    destruct (track_inventory product).
    + assert (Hstep : exists p' others',
                select_product id
                  (add_stock (- quantity item) (product_id product) db)
                = p' :: others' /\
                track_inventory p' = track_inventory p /\
                (current_stock p' <= current_stock p)%Z).
      { unfold select_product, add_stock. simpl.
        rewrite filter_map_comm.
        - fold (select_product id db). rewrite Hsel. simpl.
          eexists. eexists. split; [reflexivity|].
          destruct (String.eqb (product_id p) (product_id product)); simpl;
            split; try reflexivity; lia.
        - intro a. destruct (String.eqb (product_id a) (product_id product));
            reflexivity. }
      destruct Hstep as [p' [others' [Hsel' [Ht' Hs']]]].
      destruct (IH _ _ H Hrest id p' others' Hsel')
        as [p1 [others1 [H1 [H2 H3]]]].
      exists p1, others1. split; [exact H1|]. split; [congruence|lia].
    + exact (IH _ _ H Hrest id p others Hsel).
Qed.

(** The same failure read on the store as it is when [create] is called:
    a cart of non-negative quantities with a line on a tracked product
    whose stock is below the quantity of the line is refused, and the
    store is left as it was. *)
Lemma create_insufficient_stock_initial (data : CreateSaleData)
    (userId : string) (db : Db) (l : SaleItem) (p : Product)
    (others : list Product) :
  In l (items data) ->
  (forall l', In l' (items data) -> (0 <= quantity l')%Z) ->
  select_product (productId l) db = p :: others ->
  track_inventory p = true ->
  (current_stock p < quantity l)%Z ->
  exists msg, create data userId db = (Thrown (BadRequestError msg), db).
Proof.
  intros Hin Hq Hsel Htrack Hlow.
  destruct (in_split _ _ Hin) as [pre [post Hitems]].
  assert (H : exists msg db1,
             items_loop data userId (items data) (mkTotals 0 0 []) db
             = (Thrown (BadRequestError msg), db1)).
  { rewrite Hitems.
    destruct (items_loop data userId pre (mkTotals 0 0 []) db)
      as [[acc1|e] db1] eqn:Epre.
    - assert (Hpre : forall l', In l' pre -> (0 <= quantity l')%Z).
      { intros l' Hl'. apply Hq. rewrite Hitems. apply in_or_app. left. exact Hl'. }
      destruct (items_loop_stock_le _ _ _ _ _ _ _ Epre Hpre _ _ _ Hsel)
        as [p1 [others1 [H1 [H2 H3]]]].
      apply (items_loop_insufficient data userId db pre post l (mkTotals 0 0 [])
               p1 others1).
      + rewrite Epre. exact H1.
      + congruence.
      + lia.
    - rewrite items_loop_app, Epre.
      destruct (items_loop_thrown _ _ _ _ _ _ _ Epre) as [msg ->].
      eexists. eexists. reflexivity. }
  destruct H as [msg [db1 H]].
  exists msg. exact (create_thrown _ _ _ _ _ H).
Qed.

End CreateFacts.



(** Witness of [create_insufficient_stock_atomic]: five units requested of
    a product with two in stock, on the second line of the cart. *)
Lemma create_insufficient_stock_atomic_witness :
  exists msg,
    Sales.create thirsty_order "u-cashier" db0
    = (Thrown (BadRequestError msg), db0).
Proof.
  apply (create_insufficient_stock_atomic thirsty_order "u-cashier" db0
           [line "p-rice" 1] [] (line "p-water" 5) water []);
    reflexivity.
Defined.

(* ================================================================== *)
(** ** Sales: what a successful [create] persists *)
(* ================================================================== *)

Section CreateSuccess.
Import Sales.

Lemma items_loop_returned (data : CreateSaleData) (userId : string)
    (items : list SaleItem) (acc acc' : Totals) (db db1 : Db) :
  items_loop data userId items acc db = (Returned acc', db1) ->
  Spec.same_ledgers db db1 /\
  exists rows,
    acc_itemsData acc' = (acc_itemsData acc ++ rows)%list /\
    Forall2 Spec.cart_line items rows /\
    acc_subtotal acc'
      == acc_subtotal acc +
         Spec.sum_Q (map (fun l => si_unit_price l * inject_Z (si_quantity l))
                         rows) /\
    acc_totalTax acc'
      == acc_totalTax acc + Spec.sum_Q (map si_tax_amount rows).
Proof.
  revert acc db. induction items as [|item rest IH]; intros acc db H.
  - injection H as <- <-. split; [repeat split|].
    exists []. rewrite app_nil_r.
    split; [reflexivity|]. split; [constructor|].
    unfold Spec.sum_Q. simpl. split; ring.
  - cbn [items_loop] in H. unfold bind, query, throw, exec, ret in H.
    destruct (select_product (productId item) db) as [|product others] eqn:Ep;
      [discriminate H|].
    destruct (track_inventory product && _)%bool; [discriminate H|].
    assert (Hid : product_id product = productId item).
    { assert (Hin : In product (select_product (productId item) db))
        by (rewrite Ep; left; reflexivity).
      unfold select_product in Hin. apply filter_In in Hin.
      destruct Hin as [_ Hin]. apply andb_true_iff in Hin.
      apply String.eqb_eq. exact (proj1 Hin). }
    destruct (track_inventory product);
      (destruct (IH _ _ H) as [Hsame2 [rows [Hrows [Hall [Hsub Htax]]]]];
       cbn [acc_subtotal acc_totalTax acc_itemsData] in *;
       split;
       [ destruct Hsame2 as [B1 [B2 [B3 [B4 B5]]]]; repeat split; assumption
       | eexists (_ :: rows); split; [|split; [|split]];
         [ rewrite Hrows, <- app_assoc; reflexivity
         | constructor; [|exact Hall];
           unfold Spec.cart_line;
           cbn [si_product_id si_quantity si_unit_price si_subtotal];
           split; [exact Hid|]; split; [reflexivity|];
           split; [|reflexivity];
           intro Ht; rewrite Ht; reflexivity
         | rewrite Hsub; unfold Spec.sum_Q;
           cbn [map fold_right si_unit_price si_quantity]; ring
         | rewrite Htax; unfold Spec.sum_Q;
           cbn [map fold_right si_tax_amount]; ring ] ]).
Qed.

(** The loyalty step reads the store and leaves it as it is; the value
    of the points is the number of points redeemed, or zero when none
    are. *)
Lemma loyalty_step_returned (data : CreateSaleData) (totalAmount : Q)
    (db db1 : Db) (pts : Z * Q) :
  loyalty_step data totalAmount (Js.orZ (pointsToRedeem data) 0) db
    = (Returned pts, db1) ->
  db1 = db /\
  snd pts = (if Spec.redeems data db
             then inject_Z (Js.orZ (pointsToRedeem data) 0) else 0).
Proof.
  unfold loyalty_step, Spec.redeems, bind, query, throw, ret.
  destruct (Js.orNullS (customerId data)) as [cid|].
  - destruct (select_customer_points cid db) as [|[available mult] others].
    + intro H. injection H as <- <-. split; reflexivity.
    + destruct (0 <? Js.orZ (pointsToRedeem data) 0)%Z.
      * destruct (available <? Js.orZ (pointsToRedeem data) 0)%Z;
          [discriminate|].
        intro H. injection H as <- <-. split; reflexivity.
      * intro H. injection H as <- <-. split; reflexivity.
  - intro H. injection H as <- <-. split; reflexivity.
Qed.

Lemma select_customer_points_same (cid : string) (db db1 : Db) :
  Spec.same_ledgers db db1 ->
  select_customer_points cid db1 = select_customer_points cid db.
Proof.
  intros [_ [_ [Hc [_ Ht]]]]. unfold select_customer_points.
  rewrite Hc, Ht. reflexivity.
Qed.

Lemma redeems_same (data : CreateSaleData) (db db1 : Db) :
  Spec.same_ledgers db db1 -> Spec.redeems data db1 = Spec.redeems data db.
Proof.
  intro H. unfold Spec.redeems.
  destruct (Js.orNullS (customerId data)); [|reflexivity].
  rewrite (select_customer_points_same _ _ _ H). reflexivity.
Qed.

(** The sale row and the sale items written by a body that returns. *)
Lemma create_body_returned (data : CreateSaleData) (userId : string)
    (db db' : Db) (saleId : nat) :
  create_body data userId db = (Returned saleId, db') ->
  exists acc db1 pts,
    items_loop data userId (items data) (mkTotals 0 0 []) db
      = (Returned acc, db1) /\
    snd pts = (if Spec.redeems data db
               then inject_Z (Js.orZ (pointsToRedeem data) 0) else 0) /\
    saleId = List.length (sales db) /\
    users db' = users db /\
    sales db'
      = (sales db ++
         [new_sale_row data userId (acc_subtotal acc)
            (Js.orQ (discountAmount data) 0) (acc_totalTax acc)
            (acc_subtotal acc - Js.orQ (discountAmount data) 0 + acc_totalTax acc)
            (match amountTendered data with
             | Some t =>
                 if Js.truthyQ t
                 then t - (acc_subtotal acc - Js.orQ (discountAmount data) 0
                           + acc_totalTax acc)
                 else 0
             | None => 0
             end)
            (fst pts) (Js.orZ (pointsToRedeem data) 0) (snd pts) saleId])%list /\
    exists rows,
      acc_itemsData acc = rows /\
      sale_items db'
        = (sale_items db ++
           map (fun i =>
                  mkSaleItemRow saleId (si_product_id i) (si_variant_id i)
                    (si_product_name i) (si_product_sku i) (si_quantity i)
                    (si_unit_price i) (si_cost_price i) (si_discount_amount i)
                    (si_discount_type i) (si_discount_percentage i)
                    (si_is_vat_exempt i) (si_tax_amount i) (si_subtotal i)
                    (si_total_price i)) rows)%list.
Proof.
  intro H. unfold create_body in H. unfold bind at 1 in H.
  destruct (items_loop data userId (items data) (mkTotals 0 0 []) db)
    as [[acc|e] db1] eqn:Eloop; [|discriminate H].
  destruct (items_loop_returned _ _ _ _ _ _ _ Eloop) as [Hsame _].
  unfold bind at 1 in H.
  destruct (loyalty_step data _ _ db1) as [[pts|e] db2] eqn:Epts;
    [|discriminate H].
  apply loyalty_step_returned in Epts. destruct Epts as [-> Hval].
  rewrite (redeems_same _ _ _ Hsame) in Hval.
  destruct Hsame as [Hs [Hi [_ [Hu _]]]].
  exists acc, db1, pts.
  split; [reflexivity|]. split; [exact Hval|].
  unfold bind, insert_sale, exec, ret in H.
  set (row := new_sale_row _ _ _ _ _ _ _ _ _ _) in *.
  rewrite Hs in *.
  destruct (paymentMethod data), (payments data), (isVatExempt data),
    (Js.orNullS (vatExemptReason data)), (Js.orNullS (customerId data)),
    (0 <? fst pts)%Z, (0 <? Js.orZ (pointsToRedeem data) 0)%Z;
    injection H as <- <-; cbn;
    (split; [reflexivity|]); (split; [exact Hu|]);
    (split; [rewrite Hs; reflexivity|]);
    eexists; (split; [reflexivity|]); rewrite Hi; reflexivity.
Qed.

Lemma create_returned (data : CreateSaleData) (userId : string) (db db' : Db)
    (sale : Sale) :
  create data userId db = (Returned sale, db') ->
  create_body data userId db = (Returned (List.length (sales db)), db').
Proof.
  unfold create, transaction. intro H.
  destruct (create_body data userId db) as [[saleId|e] db2] eqn:Ebody.
  - destruct (create_body_returned _ _ _ _ _ Ebody)
      as [_ [_ [_ [_ [_ [-> _]]]]]].
    destruct (getById _ db2); injection H as _ <-; reflexivity.
  - discriminate H.
Qed.

End CreateSuccess.

Section CreateTotals.
Import Sales.



(** *** The amount tendered *)

Lemma items_loop_tendered (t : option Q) (data : CreateSaleData)
    (userId : string) (items : list SaleItem) (acc : Totals) (db : Db) :
  items_loop (Spec.with_amountTendered t data) userId items acc db
  = items_loop data userId items acc db.
Proof.
  revert acc db. induction items as [|item rest IH]; intros acc db.
  - reflexivity.
  - cbn [items_loop]. unfold bind, query, throw, exec, ret.
    destruct (select_product (productId item) db) as [|product others];
      [reflexivity|].
    destruct (track_inventory product && _)%bool; [reflexivity|].
    destruct (track_inventory product); apply IH.
Qed.

(** Once the loop and the loyalty step have returned, the rest of the
    body returns. *)
Lemma create_body_runs (data : CreateSaleData) (userId : string)
    (db db1 : Db) (acc : Totals) (pts : Z * Q) :
  items_loop data userId (items data) (mkTotals 0 0 []) db
    = (Returned acc, db1) ->
  loyalty_step data
    (acc_subtotal acc - Js.orQ (discountAmount data) 0 + acc_totalTax acc)
    (Js.orZ (pointsToRedeem data) 0) db1 = (Returned pts, db1) ->
  exists db' row,
    create_body data userId db = (Returned (List.length (sales db1)), db') /\
    users db' = users db1 /\
    sales db' = (sales db1 ++ [row])%list /\
    sale_id row = List.length (sales db1) /\
    sale_user_id row = userId.
Proof.
  intros Hloop Hpts. unfold create_body. unfold bind at 1. rewrite Hloop.
  unfold bind at 1. rewrite Hpts.
  unfold bind, insert_sale, exec, ret.
  set (row := new_sale_row _ _ _ _ _ _ _ _ _ _).
  destruct (paymentMethod data), (payments data), (isVatExempt data),
    (Js.orNullS (vatExemptReason data)), (Js.orNullS (customerId data)),
    (0 <? fst pts)%Z, (0 <? Js.orZ (pointsToRedeem data) 0)%Z;
    eexists; exists (row (List.length (sales db1)));
    (split; [reflexivity|]); repeat split.
Qed.

Lemma find_last_some {A} (P : A -> bool) (l : list A) (r1 r2 : A) :
  P r2 = P r1 ->
  find P (l ++ [r1]) <> None -> find P (l ++ [r2]) <> None.
Proof.
  intro HP. induction l as [|a l IH]; simpl.
  - rewrite HP. destruct (P r1); congruence.
  - destruct (P a); [congruence|exact IH].
Qed.

(** No failure of [create] depends on the amount tendered. *)
Lemma create_success_tendered (t : option Q) (data : CreateSaleData)
    (userId : string) (db db' : Db) (sale : Sale) :
  create data userId db = (Returned sale, db') ->
  is_returned (fst (create (Spec.with_amountTendered t data) userId db)) = true.
Proof.
  intro H. pose proof (create_returned _ _ _ _ _ H) as Hbody.
  destruct (create_body_returned _ _ _ _ _ Hbody)
    as [acc [db1 [pts [Hloop [_ [_ [Hu [Hsales _]]]]]]]].
  destruct (items_loop_returned _ _ _ _ _ _ _ Hloop) as [Hsame _].
  assert (Hpts : exists pts',
             loyalty_step data
               (acc_subtotal acc - Js.orQ (discountAmount data) 0
                + acc_totalTax acc)
               (Js.orZ (pointsToRedeem data) 0) db1 = (Returned pts', db1)).
  { unfold create_body in Hbody. unfold bind at 1 in Hbody.
    rewrite Hloop in Hbody. unfold bind at 1 in Hbody.
    destruct (loyalty_step data _ _ db1) as [[pts'|e] db2] eqn:E;
      [|discriminate Hbody].
    destruct (loyalty_step_returned _ _ _ _ _ E) as [-> _].
    exists pts'. reflexivity. }
  destruct Hpts as [pts' Hpts].
  destruct (create_body_runs (Spec.with_amountTendered t data) userId db db1
              acc pts')
    as [dbt [rowt [Hbt [Hut [Hst [Hidt Huidt]]]]]].
  { rewrite items_loop_tendered. exact Hloop. }
  { exact Hpts. }
  unfold create, transaction in *. rewrite Hbt. rewrite Hbody in H.
  destruct Hsame as [Hs1 [_ [_ [Hu1 _]]]].
  unfold getById in *. rewrite Hst, Hut, Hu1. rewrite Hs1 in *.
  rewrite Hsales, Hu in H.
  match goal with
  | |- context [find ?P (sales db ++ [rowt])%list] =>
      pose proof (fun r1 => find_last_some P (sales db) r1 rowt) as Hfind
  end.
  cbn beta in Hfind.
  match type of H with
  | context [find ?P (?l ++ [?r])%list] =>
      specialize (Hfind r);
      destruct (find P (l ++ [r])%list) eqn:Ef; [|discriminate H]
  end.
  destruct (find _ (sales db ++ [rowt])%list); [reflexivity|].
  exfalso. apply Hfind; [|discriminate|reflexivity].
  rewrite Hidt, Huidt. reflexivity.
Qed.

(** C10 (amended). Payment is never checked.  If [create] succeeds for a
    request, it succeeds for the same request with any other amount
    tendered, present or absent, smaller than the total or not.  With
    [totalAmount = subtotal - discount_amount + tax_amount] (the total
    before redeemed points are taken off), the persisted [change_amount]
    is [amountTendered - totalAmount] when the amount tendered is given,
    is not zero, and the difference is positive; it is null in every
    other case. *)
Theorem create_change_amount (data : CreateSaleData) (userId : string)
    (db db' : Db) (sale : Sale) :
  create data userId db = (Returned sale, db') ->
  (forall t,
     is_returned (fst (create (Spec.with_amountTendered t data) userId db))
     = true) /\
  exists row,
    sales db' = (sales db ++ [row])%list /\
    (forall t, amountTendered data = Some t -> ~ t == 0 ->
       0 < t - (subtotal row - discount_amount row + tax_amount row) ->
       change_amount row
       = Some (t - (subtotal row - discount_amount row + tax_amount row))) /\
    (forall t, amountTendered data = Some t ->
       t == 0 \/
       ~ 0 < t - (subtotal row - discount_amount row + tax_amount row) ->
       change_amount row = None) /\
    (amountTendered data = None -> change_amount row = None).
Proof.
  intro H. split.
  - intro t. exact (create_success_tendered t _ _ _ _ _ H).
  - apply create_returned in H.
    destruct (create_body_returned _ _ _ _ _ H)
      as [acc [db1 [pts [_ [_ [_ [_ [Hsales _]]]]]]]].
    eexists. split; [exact Hsales|].
    cbn [new_sale_row change_amount subtotal discount_amount tax_amount].
    split; [|split].
    + intros t Ht Hnz Hpos. rewrite Ht.
      apply truthyQ_true in Hnz. rewrite Hnz.
      unfold Js.Qgtb. apply Qltb_true in Hpos. rewrite Hpos. reflexivity.
    + intros t Ht [Hz|Hneg]; rewrite Ht.
      * apply truthyQ_false in Hz. rewrite Hz. reflexivity.
      * destruct (Js.truthyQ t); [|reflexivity].
        destruct (Js.Qgtb _ 0) eqn:E; [|reflexivity].
        unfold Js.Qgtb in E. apply Qltb_true in E. contradiction.
    + intro Ht. rewrite Ht. reflexivity.
Qed.

End CreateTotals.


(** Witness of [create_change_amount]: 10 tendered for a total of 224. *)
Lemma create_change_amount_witness :
  exists sale db',
    Sales.create underpaid_order "u-cashier" db0 = (Returned sale, db') /\
    (forall t,
       is_returned
         (fst (Sales.create (Spec.with_amountTendered t underpaid_order)
                            "u-cashier" db0)) = true) /\
    exists row,
      sales db' = (sales db0 ++ [row])%list /\
      10 < subtotal row - discount_amount row + tax_amount row /\
      change_amount row = None.
Proof.
  eexists. eexists. split.
  - vm_compute. reflexivity.
  - destruct (create_change_amount underpaid_order "u-cashier" db0 _ _ eq_refl)
      as [Hany [row [Hsales [_ [Hnone _]]]]].
    split; [exact Hany|].
    exists row. split; [exact Hsales|].
    injection Hsales as <-.
    split; [reflexivity|].
    apply (Hnone 10); [reflexivity|]. right. discriminate.
Defined.

(** C10, as stated, fails when zero is tendered for a sale whose total is
    negative: the difference [amountTendered - totalAmount] is 50, which
    is positive, and the persisted change is null. *)
Lemma create_change_amount_counterexample :
  Sales.amountTendered zero_tendered_order = Some 0 /\
  is_returned (fst (Sales.create zero_tendered_order "u-cashier" db0)) = true /\
  exists row,
    sales (snd (Sales.create zero_tendered_order "u-cashier" db0)) = [row] /\
    0 - (subtotal row - discount_amount row + tax_amount row) == 50 /\
    0 < 0 - (subtotal row - discount_amount row + tax_amount row) /\
    change_amount row = None.
Proof.
  split; [reflexivity|]. split; [reflexivity|].
  eexists. split; [vm_compute; reflexivity|].
  split; [reflexivity|]. split; reflexivity.
Qed.

(* ================================================================== *)
(** ** Sales: void and refund *)
(* ================================================================== *)

Section ReverseFacts.
Import Sales.
Variable bcrypt_compare : string -> string -> bool.














Lemma completed_status (s : SaleRow) :
  negb (String.eqb (status s) "completed") = false -> status s = "completed".
Proof.
  intro H. apply negb_false_iff in H. apply String.eqb_eq. exact H.
Qed.






End ReverseFacts.



(** C2: the code at a failing input.  Two units of a product that does
    not track inventory are sold to a customer who redeems 30 points, and
    the sale is voided at once.  The sale did not take the units out of
    stock, the void puts them in: the stock of the product goes from 0 to
    2.  The sale added its total before points (100) to the lifetime spend,
    the void takes off the persisted total (70): the lifetime spend goes
    from 0 to 30.  The point balance and the transaction count are
    restored. *)
Theorem void_after_create_not_exact :
  is_returned (fst (Sales.create service_order "u-cashier" db0)) = true /\
  is_returned (fst (Sales.voidSaleSelfAuthorized 0 "mistake" "u-super" db_sold))
    = true /\
  map track_inventory (products db0) = [true; false; true] /\
  map current_stock (products db0) = [10; 0; 2]%Z /\
  map current_stock (products db_sold) = [10; 0; 2]%Z /\
  map current_stock (products db_voided) = [10; 2; 2]%Z /\
  map loyalty_points (customers db0) = [30]%Z /\
  map loyalty_points (customers db_voided) = [30]%Z /\
  map total_transactions (customers db0) = [0]%Z /\
  map total_transactions (customers db_voided) = [0]%Z /\
  Forall2 Qeq (map lifetime_spend (customers db0)) [0] /\
  Forall2 Qeq (map lifetime_spend (customers db_sold)) [100] /\
  Forall2 Qeq (map total_amount (sales db_sold)) [70] /\
  Forall2 Qeq (map lifetime_spend (customers db_voided)) [30].
Proof.
  repeat split; try (vm_compute; reflexivity);
    repeat constructor; vm_compute; reflexivity.
Qed.


(* ================================================================== *)
(** ** Sales: what a void gives back of a sale just created *)
(* ================================================================== *)

Section RoundTrip.
Import Sales.

Lemma shift_stock_compose (f g : string -> Z) (p : Product) :
  Spec.shift_stock f (Spec.shift_stock g p)
  = Spec.shift_stock (fun x => (g x + f x)%Z) p.
Proof.
  destruct p. unfold Spec.shift_stock, set_current_stock. simpl.
  f_equal. lia.
Qed.

Lemma shift_stock_zero (f : string -> Z) (p : Product) :
  f (product_id p) = 0%Z -> Spec.shift_stock f p = p.
Proof.
  intro H. destruct p. unfold Spec.shift_stock, set_current_stock.
  simpl in *. rewrite H. f_equal. lia.
Qed.

Lemma shift_stock_ext (f g : string -> Z) (p : Product) :
  f (product_id p) = g (product_id p) ->
  Spec.shift_stock f p = Spec.shift_stock g p.
Proof.
  intro H. unfold Spec.shift_stock. rewrite H. reflexivity.
Qed.

Lemma add_stock_shift (delta : Z) (id : string) (db : Db) :
  products (add_stock delta id db)
  = map (Spec.shift_stock (fun x => if String.eqb x id then delta else 0%Z))
        (products db).
Proof.
  unfold add_stock. simpl. apply map_ext. intro p.
  unfold Spec.shift_stock.
  destruct (String.eqb (product_id p) id); [reflexivity|].
  destruct p. unfold set_current_stock. simpl. f_equal. lia.
Qed.

Lemma tracked_after_add_stock (id pid : string) (delta : Z) (db : Db) :
  (forall p rest, select_product id db = p :: rest -> track_inventory p = true) ->
  forall p' rest',
    select_product id (add_stock delta pid db) = p' :: rest' ->
    track_inventory p' = true.
Proof.
  intros H p' rest'. unfold select_product, add_stock. simpl.
  rewrite filter_map_comm.
  - fold (select_product id db).
    destruct (select_product id db) as [|p rest] eqn:E; [discriminate|].
    simpl. intro H'. injection H' as <- _.
    specialize (H p rest eq_refl).
    destruct (String.eqb (product_id p) pid); exact H.
  - intro p. destruct (String.eqb (product_id p) pid); reflexivity.
Qed.

(** With every product of the cart tracked, the loop takes the quantity
    of each line out of the stock of its product. *)
Lemma items_loop_products (data : CreateSaleData) (userId : string)
    (items : list SaleItem) (acc acc' : Totals) (db db1 : Db) :
  items_loop data userId items acc db = (Returned acc', db1) ->
  (forall l, In l items -> forall p rest,
     select_product (productId l) db = p :: rest -> track_inventory p = true) ->
  products db1
  = map (Spec.shift_stock
           (fun x => (- Spec.net_quantity x (map Spec.cart_key items))%Z))
        (products db).
Proof.
  revert acc db. induction items as [|item rest IH]; intros acc db H Htr.
  - injection H as _ <-. simpl.
    rewrite <- (map_id (products db)) at 1. apply map_ext.
    intro p. symmetry. apply shift_stock_zero. reflexivity.
  - cbn [items_loop] in H. unfold bind, query, throw, exec, ret in H.
    destruct (select_product (productId item) db) as [|product others] eqn:Ep;
      [discriminate H|].
    destruct (track_inventory product && _)%bool; [discriminate H|].
    assert (Hid : product_id product = productId item).
    { assert (Hin : In product (select_product (productId item) db))
        by (rewrite Ep; left; reflexivity).
      unfold select_product in Hin. apply filter_In in Hin.
      destruct Hin as [_ Hin]. apply andb_true_iff in Hin.
      apply String.eqb_eq. exact (proj1 Hin). }
    rewrite (Htr item (or_introl eq_refl) product others Ep) in H.
    apply IH in H.
    + rewrite H.
      change (products (insert_stock_movement ?m ?d)) with (products d).
      rewrite add_stock_shift, map_map. apply map_ext. intro p.
      rewrite shift_stock_compose. apply shift_stock_ext.
      unfold Spec.net_quantity.
      cbn [map fold_right Spec.cart_key fst snd].
      rewrite Hid.
      destruct (String.eqb (product_id p) (productId item)); lia.
    + intros l Hl p rest0 Hsel.
      apply (tracked_after_add_stock (productId l) (product_id product)
               (- quantity item) db (Htr l (or_intror Hl)) p rest0).
      exact Hsel.
Qed.

(** The restore loop puts the quantity of every row back, tracked
    product or not, and touches no other table of interest. *)
Lemma restore_stock_loop_products (rows : list SaleItemRow)
    (referenceType : string) (saleId : nat) (note actor : string)
    (db db2 : Db) (u : unit) :
  restore_stock_loop rows referenceType saleId note actor db = (Returned u, db2) ->
  products db2
  = map (Spec.shift_stock (fun x => Spec.net_quantity x (map Spec.row_key rows)))
        (products db) /\
  customers db2 = customers db.
Proof.
  revert db. induction rows as [|item rest IH]; intros db H.
  - injection H as _ <-. simpl. split; [|reflexivity].
    rewrite <- (map_id (products db)) at 1. apply map_ext.
    intro p. symmetry. apply shift_stock_zero. reflexivity.
  - cbn [restore_stock_loop] in H. unfold bind, query, throw, exec in H.
    destruct (select_stock (si_product_id item) _) as [|stock others];
      [discriminate H|].
    apply IH in H. destruct H as [Hp Hc].
    split; [|exact Hc].
    rewrite Hp.
    change (products (insert_stock_movement ?m ?d)) with (products d).
    rewrite add_stock_shift, map_map. apply map_ext. intro p.
    rewrite shift_stock_compose. apply shift_stock_ext.
    unfold Spec.net_quantity.
    cbn [map fold_right Spec.row_key fst snd].
    destruct (String.eqb (product_id p) (si_product_id item)); lia.
Qed.

(** The effects of a self-authorized void that returns. *)
Lemma void_self_effects (saleId : nat) (reason actor : string) (db db' : Db)
    (sale : Sale) :
  voidSaleSelfAuthorized saleId reason actor db = (Returned sale, db') ->
  exists s rest,
    select_sale saleId db = s :: rest /\
    products db'
    = map (Spec.shift_stock
             (fun x => Spec.net_quantity x
                         (map Spec.row_key
                              (filter (fun i => Nat.eqb (si_sale_id i) saleId)
                                      (sale_items db)))))
          (products db) /\
    customers db'
    = match Js.orNullS (sale_customer_id s) with
      | Some cid =>
          customers (reverse_customer (points_earned s) (points_redeemed s)
                                      (total_amount s) cid db)
      | None => customers db
      end.
Proof.
  unfold voidSaleSelfAuthorized, transaction, voidSaleSelfAuthorized_body.
  unfold bind at 1. unfold query at 1.
  destruct (select_sale saleId db) as [|s rest] eqn:Hsel; [discriminate|].
  destruct (negb (String.eqb (status s) "completed")); [discriminate|].
  unfold bind at 1. unfold exec at 1.
  unfold reverse_effects. unfold bind at 1. unfold query at 1.
  unfold bind at 1.
  destruct (restore_stock_loop _ "void" saleId _ actor _) as [[u|e] db2] eqn:Er;
    [|discriminate].
  apply restore_stock_loop_products in Er. destruct Er as [Hp Hc].
  intro H. exists s, rest. split; [reflexivity|].
  simpl in Hp, Hc.
  destruct (Js.orNullS (sale_customer_id s)) as [cid|]; unfold exec, ret in H;
    injection H as _ <-;
    (split; [exact Hp|]); simpl; rewrite Hc; reflexivity.
Qed.

Lemma orNullS_idempotent (x : option string) :
  Js.orNullS (Js.orNullS x) = Js.orNullS x.
Proof.
  destruct x as [s|]; [|reflexivity]. simpl.
  destruct (Js.truthyS s) eqn:E; [|reflexivity]. simpl. rewrite E. reflexivity.
Qed.

(** The effects of a body of [create] that returns, on every table the
    void reads. *)
Lemma create_body_effects (data : CreateSaleData) (userId : string)
    (db db' : Db) (saleId : nat) :
  create_body data userId db = (Returned saleId, db') ->
  exists acc db1 pts,
    items_loop data userId (items data) (mkTotals 0 0 []) db
      = (Returned acc, db1) /\
    snd pts = (if Spec.redeems data db
               then inject_Z (Js.orZ (pointsToRedeem data) 0) else 0) /\
    saleId = List.length (sales db) /\
    sales db'
      = (sales db ++
         [new_sale_row data userId (acc_subtotal acc)
            (Js.orQ (discountAmount data) 0) (acc_totalTax acc)
            (acc_subtotal acc - Js.orQ (discountAmount data) 0 + acc_totalTax acc)
            (match amountTendered data with
             | Some t =>
                 if Js.truthyQ t
                 then t - (acc_subtotal acc - Js.orQ (discountAmount data) 0
                           + acc_totalTax acc)
                 else 0
             | None => 0
             end)
            (fst pts) (Js.orZ (pointsToRedeem data) 0) (snd pts) saleId])%list /\
    sale_items db'
      = (sale_items db ++
         map (fun i =>
                mkSaleItemRow saleId (si_product_id i) (si_variant_id i)
                  (si_product_name i) (si_product_sku i) (si_quantity i)
                  (si_unit_price i) (si_cost_price i) (si_discount_amount i)
                  (si_discount_type i) (si_discount_percentage i)
                  (si_is_vat_exempt i) (si_tax_amount i) (si_subtotal i)
                  (si_total_price i)) (acc_itemsData acc))%list /\
    products db' = products db1 /\
    customers db'
      = match Js.orNullS (customerId data) with
        | Some cid =>
            customers
              (update_customer (fst pts) (Js.orZ (pointsToRedeem data) 0)
                 (acc_subtotal acc - Js.orQ (discountAmount data) 0
                  + acc_totalTax acc) cid db)
        | None => customers db
        end.
Proof.
  intro H. unfold create_body in H. unfold bind at 1 in H.
  destruct (items_loop data userId (items data) (mkTotals 0 0 []) db)
    as [[acc|e] db1] eqn:Eloop; [|discriminate H].
  destruct (items_loop_returned _ _ _ _ _ _ _ Eloop) as [Hsame _].
  unfold bind at 1 in H.
  destruct (loyalty_step data _ _ db1) as [[pts|e] db2] eqn:Epts;
    [|discriminate H].
  apply loyalty_step_returned in Epts. destruct Epts as [-> Hval].
  rewrite (redeems_same _ _ _ Hsame) in Hval.
  destruct Hsame as [Hs [Hi [Hc [Hu _]]]].
  exists acc, db1, pts.
  split; [reflexivity|]. split; [exact Hval|].
  unfold bind, insert_sale, exec, ret in H.
  set (row := new_sale_row _ _ _ _ _ _ _ _ _ _) in *.
  rewrite Hs in *.
  destruct (paymentMethod data), (payments data), (isVatExempt data),
    (Js.orNullS (vatExemptReason data)), (Js.orNullS (customerId data)),
    (0 <? fst pts)%Z, (0 <? Js.orZ (pointsToRedeem data) 0)%Z;
    injection H as <- <-; cbn;
    (split; [reflexivity|]);
    (split; [rewrite Hs; reflexivity|]);
    (split; [rewrite Hi; reflexivity|]);
    (split; [reflexivity|]); rewrite Hc; reflexivity.
Qed.

Lemma filter_fresh_sales (id : nat) (l : list SaleRow) (row : SaleRow) :
  (forall s, In s l -> sale_id s <> id) -> sale_id row = id ->
  filter (fun s => Nat.eqb (sale_id s) id) (l ++ [row]) = [row].
Proof.
  intros Hfresh Hrow. rewrite filter_app.
  rewrite (filter_none _ l).
  - simpl. rewrite Hrow, Nat.eqb_refl. reflexivity.
  - intros a Ha. apply Nat.eqb_neq. exact (Hfresh a Ha).
Qed.

Lemma filter_fresh_items (id : nat) (l lines : list SaleItemRow) :
  (forall i, In i l -> si_sale_id i <> id) ->
  (forall i, In i lines -> si_sale_id i = id) ->
  filter (fun i => Nat.eqb (si_sale_id i) id) (l ++ lines) = lines.
Proof.
  intros Hfresh Hlines. rewrite filter_app.
  rewrite (filter_none _ l).
  - simpl. induction lines as [|x lines IH]; simpl; [reflexivity|].
    rewrite (Hlines x (or_introl eq_refl)), Nat.eqb_refl.
    f_equal. apply IH. intros i Hi. apply Hlines. right. exact Hi.
  - intros a Ha. apply Nat.eqb_neq. exact (Hfresh a Ha).
Qed.

Lemma Forall2_cart_keys (items : list SaleItem) (rows : list SaleItemRow) :
  Forall2 Spec.cart_line items rows ->
  map Spec.row_key rows = map Spec.cart_key items.
Proof.
  induction 1 as [|item row items rows [Hp [Hq _]] _ IH]; simpl; [reflexivity|].
  unfold Spec.row_key at 1, Spec.cart_key at 1. rewrite Hp, Hq, IH. reflexivity.
Qed.

Lemma Forall2_same_map {A} (R : A -> A -> Prop) (f : A -> A) (l : list A) :
  (forall a, R a (f a)) -> Forall2 R l (map f l).
Proof.
  intro H. induction l; simpl; constructor; auto.
Qed.

(** Where the round trip is exact.  In a store whose next sale
    identifier is fresh, a sale whose lines are all on inventory-tracked
    products and which redeems no points, voided at once by the
    self-authorized path, leaves every product row and every customer
    balance as before the sale.  (Untracked products and redeemed points
    are where [void_after_create_not_exact] shows the round trip to
    fail.) *)
Lemma void_after_create_restores (data : CreateSaleData)
    (userId reason actor : string) (db db1 db2 : Db) (sale sale' : Sale) :
  (forall s, In s (sales db) -> sale_id s <> List.length (sales db)) ->
  (forall i, In i (sale_items db) -> si_sale_id i <> List.length (sales db)) ->
  (forall l, In l (items data) -> forall p rest,
     select_product (productId l) db = p :: rest -> track_inventory p = true) ->
  Spec.redeems data db = false ->
  create data userId db = (Returned sale, db1) ->
  voidSaleSelfAuthorized (List.length (sales db)) reason actor db1
    = (Returned sale', db2) ->
  products db2 = products db /\
  Forall2 Spec.same_balances (customers db) (customers db2).
Proof.
  intros Hfs Hfi Htr Hred Hcreate Hvoid.
  apply create_returned in Hcreate.
  destruct (create_body_effects _ _ _ _ _ Hcreate)
    as [acc [dbl [pts [Hloop [Hval [_ [Hsales [Hitems [Hprod Hcust]]]]]]]]].
  rewrite Hred in Hval.
  destruct (items_loop_returned _ _ _ _ _ _ _ Hloop)
    as [_ [rows [Hacc [Hall _]]]].
  cbn [acc_itemsData app] in Hacc. rewrite Hacc in Hitems.
  pose proof (items_loop_products _ _ _ _ _ _ _ Hloop Htr) as Hdebit.
  destruct (void_self_effects _ _ _ _ _ _ Hvoid)
    as [s [rest [Hsel [Hcredit Hrev]]]].
  unfold select_sale in Hsel. rewrite Hsales in Hsel.
  rewrite filter_fresh_sales in Hsel; [|exact Hfs|reflexivity].
  injection Hsel as <- <-.
  rewrite Hitems in Hcredit.
  rewrite filter_fresh_items in Hcredit; [|exact Hfi|].
  2:{ intros i Hi. apply in_map_iff in Hi. destruct Hi as [x [<- _]]. reflexivity. }
  split.
  - rewrite Hcredit, Hprod, Hdebit, map_map.
    rewrite <- (map_id (products db)) at 2. apply map_ext. intro p.
    rewrite shift_stock_compose. apply shift_stock_zero.
    rewrite map_map.
    change (fun x => Spec.row_key (mkSaleItemRow _ _ _ _ _ _ _ _ _ _ _ _ _ _ _))
      with Spec.row_key.
    rewrite (Forall2_cart_keys _ _ Hall). lia.
  - rewrite Hrev. cbn [new_sale_row sale_customer_id points_earned
                       points_redeemed total_amount].
    rewrite orNullS_idempotent.
    destruct (Js.orNullS (customerId data)) as [cid|].
    + unfold reverse_customer. cbn [with_customers customers].
      rewrite Hcust. unfold update_customer. cbn [with_customers customers].
      rewrite map_map. apply Forall2_same_map. intro c.
      destruct (String.eqb (customer_id c) cid) eqn:E.
      * cbn [customer_id]. rewrite E.
        unfold Spec.same_balances.
        cbn [customer_id loyalty_points total_transactions lifetime_spend
             membership_tier_id].
        rewrite Hval.
        repeat split; try lia. ring.
      * rewrite E. unfold Spec.same_balances.
        repeat split; reflexivity.
    + rewrite Hcust. rewrite <- (map_id (customers db)) at 2.
      apply Forall2_same_map. intro c. unfold Spec.same_balances.
      repeat split; reflexivity.
Qed.

End RoundTrip.

(** [void_after_create_restores] on a sale of a tracked product to a
    customer who redeems no points. *)
Lemma void_after_create_restores_example :
  products (snd (Sales.voidSaleSelfAuthorized 0 "mistake" "u-super"
                   (snd (Sales.create plain_order "u-cashier" db0))))
    = products db0 /\
  Forall2 Spec.same_balances (customers db0)
    (customers (snd (Sales.voidSaleSelfAuthorized 0 "mistake" "u-super"
                       (snd (Sales.create plain_order "u-cashier" db0))))).
Proof.
  eapply (void_after_create_restores plain_order "u-cashier" "mistake" "u-super"
            db0).
  - intros s [].
  - intros i [].
  - intros l [<-|[]] p rest H. vm_compute in H. injection H as <- _. reflexivity.
  - reflexivity.
  - vm_compute. reflexivity.
  - vm_compute. reflexivity.
Defined.

(* ================================================================== *)
(** ** Sales: the stock ledger of a sale *)
(* ================================================================== *)

Section SaleLedgers.
Import Sales.

Lemma select_product_head_id (id : string) (db : Db) (p : Product)
    (others : list Product) :
  select_product id db = p :: others -> product_id p = id.
Proof.
  intro E.
  assert (Hin : In p (select_product id db)) by (rewrite E; left; reflexivity).
  unfold select_product in Hin. apply filter_In in Hin.
  destruct Hin as [_ Hin]. apply andb_true_iff in Hin.
  apply String.eqb_eq. exact (proj1 Hin).
Qed.

(** A stock update rewrites the selected rows in place. *)
Lemma select_product_add_stock_map (id pid : string) (delta : Z) (db : Db) :
  select_product id (add_stock delta pid db)
  = map (fun p => if String.eqb (product_id p) pid
                  then set_current_stock p (current_stock p + delta)%Z
                  else p)
        (select_product id db).
Proof.
  unfold select_product, add_stock. simpl.
  apply filter_map_comm.
  intro p. destruct (String.eqb (product_id p) pid); reflexivity.
Qed.

(** The movements the item loop writes account for the stock it moves:
    each one is a 'sale' movement whose quantity after is the quantity
    before plus the quantity moved, and every product row is shifted by
    the net quantity of the movements written for it. *)
Lemma items_loop_movements (data : CreateSaleData) (userId : string)
    (items : list SaleItem) (acc acc' : Totals) (db db1 : Db) :
  items_loop data userId items acc db = (Returned acc', db1) ->
  exists ms,
    stock_movements db1 = (stock_movements db ++ ms)%list /\
    Forall (fun m => sm_movement_type m = "sale" /\
                     sm_reference_type m = "sale" /\
                     sm_created_by m = userId /\
                     Ledger.consistent m) ms /\
    products db1
    = map (Spec.shift_stock (fun x => Ledger.moved x ms)) (products db).
Proof.
  revert acc db. induction items as [|item rest IH]; intros acc db H.
  - injection H as _ <-. exists []. rewrite app_nil_r.
    split; [reflexivity|]. split; [constructor|]. simpl.
    rewrite <- (map_id (products db)) at 1. apply map_ext.
    intro p. symmetry. apply shift_stock_zero. reflexivity.
  - cbn [items_loop] in H. unfold bind, query, throw, exec, ret in H.
    destruct (select_product (productId item) db) as [|product others] eqn:Ep;
      [discriminate H|].
    destruct (track_inventory product && _)%bool; [discriminate H|].
    destruct (track_inventory product).
    + apply IH in H. destruct H as [ms [Hms [Hall Hp]]].
      eexists (_ :: ms). split; [|split].
      * rewrite Hms. cbn [insert_stock_movement with_stock_movements
                          stock_movements add_stock with_products].
        rewrite <- app_assoc. reflexivity.
      * constructor; [|exact Hall].
        cbn [sm_movement_type sm_reference_type sm_created_by sm_quantity].
        unfold Ledger.consistent.
        cbn [sm_quantity_after sm_quantity_before sm_quantity].
        repeat split; lia.
      * rewrite Hp.
        change (products (insert_stock_movement ?m ?d)) with (products d).
        rewrite add_stock_shift, map_map. apply map_ext. intro p.
        rewrite shift_stock_compose. apply shift_stock_ext.
        unfold Ledger.moved. cbn [fold_right sm_product_id sm_quantity].
        destruct (String.eqb (product_id p) (product_id product)); lia.
    + exact (IH _ _ H).
Qed.

(** The loop leaves the other ledgers alone. *)
Lemma items_loop_frame (data : CreateSaleData) (userId : string)
    (items : list SaleItem) (acc acc' : Totals) (db db1 : Db) :
  items_loop data userId items acc db = (Returned acc', db1) ->
  loyalty_points_history db1 = loyalty_points_history db /\
  sale_payments db1 = sale_payments db /\
  sale_discounts db1 = sale_discounts db /\
  promotions db1 = promotions db /\
  discount_settings db1 = discount_settings db.
Proof.
  revert acc db. induction items as [|item rest IH]; intros acc db H.
  - injection H as _ <-. repeat split.
  - cbn [items_loop] in H. unfold bind, query, throw, exec, ret in H.
    destruct (select_product (productId item) db) as [|product others];
      [discriminate H|].
    destruct (track_inventory product && _)%bool; [discriminate H|].
    destruct (track_inventory product); exact (IH _ _ H).
Qed.

(** What the statements of [create] after the item loop leave alone. *)
Lemma create_body_stock (data : CreateSaleData) (userId : string)
    (db db' : Db) (saleId : nat) :
  create_body data userId db = (Returned saleId, db') ->
  exists acc db1,
    items_loop data userId (items data) (mkTotals 0 0 []) db
      = (Returned acc, db1) /\
    products db' = products db1 /\
    stock_movements db' = stock_movements db1.
Proof.
  intro H. unfold create_body in H. unfold bind at 1 in H.
  destruct (items_loop data userId (items data) (mkTotals 0 0 []) db)
    as [[acc|e] db1] eqn:Eloop; [|discriminate H].
  unfold bind at 1 in H.
  destruct (loyalty_step data _ _ db1) as [[pts|e] db2] eqn:Epts;
    [|discriminate H].
  apply loyalty_step_returned in Epts. destruct Epts as [-> _].
  exists acc, db1. split; [reflexivity|].
  unfold bind, insert_sale, exec, ret in H.
  destruct (paymentMethod data), (payments data), (isVatExempt data),
    (Js.orNullS (vatExemptReason data)), (Js.orNullS (customerId data)),
    (0 <? fst pts)%Z, (0 <? Js.orZ (pointsToRedeem data) 0)%Z;
    injection H as _ <-; split; reflexivity.
Qed.


(** The loop keeps the stock of a tracked product from going negative,
    and leaves the stock of every product of the cart non-negative. *)
Lemma items_loop_nonneg (data : CreateSaleData) (userId : string)
    (items : list SaleItem) (acc acc' : Totals) (db db1 : Db) (id : string) :
  items_loop data userId items acc db = (Returned acc', db1) ->
  (Ledger.stock_nonneg id db \/ exists l, In l items /\ productId l = id) ->
  Ledger.stock_nonneg id db1.
Proof.
  revert acc db. induction items as [|item rest IH]; intros acc db H Hid.
  - injection H as _ <-. destruct Hid as [Hid|[l [[] _]]]. exact Hid.
  - cbn [items_loop] in H. unfold bind, query, throw, exec, ret in H.
    destruct (select_product (productId item) db) as [|product others] eqn:Ep;
      [discriminate H|].
    destruct (track_inventory product && _)%bool eqn:Echeck; [discriminate H|].
    pose proof (select_product_head_id _ _ _ _ Ep) as Hpid.
    destruct (track_inventory product) eqn:Etrack.
    + simpl in Echeck. apply Z.ltb_ge in Echeck.
      apply (IH _ _ H).
      destruct Hid as [Hinv|[l [[<-|Hl] Hl']]].
      * left. intros p' others' Hsel Htr.
        change (select_product id (insert_stock_movement ?m ?d))
          with (select_product id d) in Hsel.
        rewrite select_product_add_stock_map in Hsel.
        destruct (select_product id db) as [|p rest0] eqn:Eid; [discriminate|].
        simpl in Hsel. injection Hsel as <- _.
        pose proof (select_product_head_id _ _ _ _ Eid) as Hp.
        destruct (String.eqb (product_id p) (product_id product)) eqn:E.
        -- apply String.eqb_eq in E.
           assert (Hsame : id = productId item) by congruence.
           rewrite Hsame, Ep in Eid. injection Eid as <- _.
           simpl. lia.
        -- exact (Hinv p rest0 Eid Htr).
      * left. intros p' others' Hsel Htr.
        change (select_product id (insert_stock_movement ?m ?d))
          with (select_product id d) in Hsel.
        rewrite select_product_add_stock_map in Hsel.
        rewrite <- Hl', Ep in Hsel. simpl in Hsel.
        rewrite String.eqb_refl in Hsel. injection Hsel as <- _.
        simpl. lia.
      * right. exists l. split; assumption.
    + apply (IH _ _ H).
      destruct Hid as [Hinv|[l [[<-|Hl] Hl']]].
      * left. exact Hinv.
      * left. intros p' others' Hsel Htr.
        rewrite <- Hl', Ep in Hsel. injection Hsel as <- _. congruence.
      * right. exists l. split; assumption.
Qed.

(** X2. A sale never drives stock negative.  After a sale that
    completes, the product selected for an identifier has a non-negative
    stock when it tracks inventory, for every product of the cart, and
    for every other product that had a non-negative stock before. *)
Theorem create_stock_nonneg (data : CreateSaleData) (userId : string)
    (db db' : Db) (sale : Sale) (id : string) :
  create data userId db = (Returned sale, db') ->
  (Ledger.stock_nonneg id db \/
   exists l, In l (items data) /\ productId l = id) ->
  Ledger.stock_nonneg id db'.
Proof.
  intros H Hid. apply create_returned in H.
  destruct (create_body_stock _ _ _ _ _ H) as [acc [db1 [Hloop [Hp _]]]].
  pose proof (items_loop_nonneg _ _ _ _ _ _ _ id Hloop Hid) as Hinv.
  unfold Ledger.stock_nonneg, select_product in *. rewrite Hp. exact Hinv.
Qed.

(** X3. Insufficient points.  When the cart can be served but the
    customer has fewer points than the sale asks to redeem, [create]
    fails with a BadRequest error that names the balance, and the store
    is the store of the call: the stock taken by the item loop is given
    back by the rollback. *)
Theorem create_insufficient_points_atomic (data : CreateSaleData)
    (userId : string) (db db1 : Db) (acc : Totals) (cid : string)
    (n available : Z) (mult : option Q) (others : list (Z * option Q)) :
  items_loop data userId (items data) (mkTotals 0 0 []) db
    = (Returned acc, db1) ->
  Js.orNullS (customerId data) = Some cid ->
  select_customer_points cid db = (available, mult) :: others ->
  pointsToRedeem data = Some n ->
  (0 < n)%Z ->
  (available < n)%Z ->
  create data userId db
  = (Thrown (BadRequestError
               ("Insufficient points. Available: " ++ Js.string_of_Z available)),
     db).
Proof.
  intros Hloop Hcid Hsel Hn Hpos Hlow.
  unfold create, transaction, create_body. unfold bind at 1. rewrite Hloop.
  unfold bind at 1.
  destruct (items_loop_returned _ _ _ _ _ _ _ Hloop) as [Hsame _].
  unfold loyalty_step. rewrite Hcid. unfold bind, query.
  rewrite (select_customer_points_same _ _ _ Hsame), Hsel.
  rewrite Hn. unfold Js.orZ.
  assert (Ht : Js.truthyZ n = true) by (apply truthyZ_true; lia).
  rewrite Ht.
  apply Z.ltb_lt in Hpos. rewrite Hpos.
  apply Z.ltb_lt in Hlow. rewrite Hlow.
  reflexivity.
Qed.

(** On a VAT-exempt sale the loop charges no tax. *)
Lemma items_loop_vat_exempt (data : CreateSaleData) (userId : string)
    (items : list SaleItem) (acc acc' : Totals) (db db1 : Db) :
  isVatExempt data = true ->
  items_loop data userId items acc db = (Returned acc', db1) ->
  acc_totalTax acc' == acc_totalTax acc /\
  exists rows,
    acc_itemsData acc' = (acc_itemsData acc ++ rows)%list /\
    Forall (fun r => si_tax_amount r = 0 /\ si_is_vat_exempt r = true /\
                     si_total_price r == si_subtotal r - si_discount_amount r)
           rows.
Proof.
  intro Hex. revert acc db. induction items as [|item rest IH]; intros acc db H.
  - injection H as <- <-. split; [reflexivity|].
    exists []. rewrite app_nil_r. split; [reflexivity|constructor].
  - cbn [items_loop] in H. unfold bind, query, throw, exec, ret in H.
    destruct (select_product (productId item) db) as [|product others];
      [discriminate H|].
    destruct (track_inventory product && _)%bool; [discriminate H|].
    rewrite Hex in H. cbn [negb] in H. rewrite andb_false_r in H.
    destruct (track_inventory product);
      (destruct (IH _ _ H) as [Htax [rows [Hrows Hall]]];
       cbn [acc_totalTax acc_itemsData] in *;
       split;
       [ rewrite Htax; ring
       | eexists (_ :: rows); split;
         [ rewrite Hrows, <- app_assoc; reflexivity
         | constructor; [|exact Hall];
           cbn [si_tax_amount si_is_vat_exempt si_total_price si_subtotal
                si_discount_amount];
           split; [reflexivity|]; split; [reflexivity|ring] ] ]).
Qed.

(** X4. A VAT-exempt sale is untaxed.  When the request is flagged
    VAT-exempt, the sale that completes carries no tax: every persisted
    line has a tax amount of zero and a total of its subtotal less its
    discount, whatever the tax rate of the product, and the sale row has
    tax and VAT of zero, nothing vatable, the whole of subtotal less
    discount as VAT-exempt amount, and a total of subtotal less discount
    less the value of the points redeemed. *)
Theorem create_vat_exempt_untaxed (data : CreateSaleData) (userId : string)
    (db db' : Db) (sale : Sale) :
  isVatExempt data = true ->
  create data userId db = (Returned sale, db') ->
  exists row lines,
    sales db' = (sales db ++ [row])%list /\
    sale_items db' = (sale_items db ++ lines)%list /\
    sale_is_vat_exempt row = true /\
    tax_amount row == 0 /\ vat_amount row == 0 /\
    vatable_amount row = 0 /\
    vat_exempt_amount row = subtotal row - discount_amount row /\
    total_amount row
      == subtotal row - discount_amount row - points_value_redeemed row /\
    Forall (fun r => si_tax_amount r = 0 /\ si_is_vat_exempt r = true /\
                     si_total_price r == si_subtotal r - si_discount_amount r)
           lines.
Proof.
  intros Hex H. apply create_returned in H.
  destruct (create_body_returned _ _ _ _ _ H)
    as [acc [db1 [pts [Hloop [_ [_ [_ [Hsales [rows [Hrows Hitems]]]]]]]]]].
  destruct (items_loop_vat_exempt _ _ _ _ _ _ _ Hex Hloop)
    as [Htax [rows' [Hrows' Hall]]].
  cbn [acc_totalTax acc_itemsData app] in Htax, Hrows'.
  eexists. eexists. split; [exact Hsales|]. split; [exact Hitems|].
  unfold new_sale_row.
  cbn [sale_is_vat_exempt tax_amount vat_amount vatable_amount
       vat_exempt_amount total_amount subtotal discount_amount
       points_value_redeemed].
  rewrite Hex.
  split; [reflexivity|]. split; [exact Htax|]. split; [exact Htax|].
  split; [reflexivity|]. split; [reflexivity|].
  split; [rewrite Htax; ring|].
  rewrite <- Hrows, Hrows'.
  apply Forall_forall. intros r Hr. apply in_map_iff in Hr.
  destruct Hr as [x [<- Hx]].
  rewrite Forall_forall in Hall. exact (Hall x Hx).
Qed.

End SaleLedgers.


(** Witness of [create_stock_nonneg]: rice after two units are sold. *)
Lemma create_stock_nonneg_witness :
  Ledger.stock_nonneg "p-rice" (snd (Sales.create plain_order "u-cashier" db0)).
Proof.
  eapply (create_stock_nonneg plain_order "u-cashier" db0 _ _ "p-rice").
  - vm_compute. reflexivity.
  - right. exists (line "p-rice" 2). split; [left; reflexivity|reflexivity].
Defined.

(** Witness of [create_insufficient_points_atomic]: 31 points asked of
    a customer who has 30. *)
Lemma create_insufficient_points_atomic_witness :
  Sales.create (order (Some "c-ana") [line "p-rice" 2] (Some 300) None (Some 31%Z))
               "u-cashier" db0
  = (Thrown (BadRequestError "Insufficient points. Available: 30"), db0).
Proof.
  eapply (create_insufficient_points_atomic
            (order (Some "c-ana") [line "p-rice" 2] (Some 300) None (Some 31%Z))
            "u-cashier" db0 _ _ "c-ana" 31 30 None []).
  - vm_compute. reflexivity.
  - reflexivity.
  - reflexivity.
  - reflexivity.
  - lia.
  - lia.
Defined.

(** Witness of [create_vat_exempt_untaxed]. *)
Lemma create_vat_exempt_untaxed_witness :
  exists row lines,
    sales (snd (Sales.create MoreExamples.exempt_order "u-cashier" db0))
      = (sales db0 ++ [row])%list /\
    sale_items (snd (Sales.create MoreExamples.exempt_order "u-cashier" db0))
      = (sale_items db0 ++ lines)%list /\
    sale_is_vat_exempt row = true /\
    tax_amount row == 0 /\ vat_amount row == 0 /\
    vatable_amount row = 0 /\
    vat_exempt_amount row = subtotal row - discount_amount row /\
    total_amount row
      == subtotal row - discount_amount row - points_value_redeemed row /\
    Forall (fun r => si_tax_amount r = 0 /\ si_is_vat_exempt r = true /\
                     si_total_price r == si_subtotal r - si_discount_amount r)
           lines.
Proof.
  eapply (create_vat_exempt_untaxed MoreExamples.exempt_order "u-cashier" db0).
  - reflexivity.
  - vm_compute. reflexivity.
Defined.

(* ================================================================== *)
(** ** Sales: the loyalty ledger of a sale *)
(* ================================================================== *)

Section SaleLoyalty.
Import Sales.

(** The customer and history rows a body of [create] that returns has
    written for the customer of the sale. *)
Lemma create_body_loyalty (data : CreateSaleData) (userId : string)
    (db db' : Db) (saleId : nat) (cid : string) :
  create_body data userId db = (Returned saleId, db') ->
  Js.orNullS (customerId data) = Some cid ->
  exists row total,
    sales db' = (sales db ++ [row])%list /\
    sale_id row = saleId /\
    points_redeemed row = Js.orZ (pointsToRedeem data) 0 /\
    total == total_amount row + points_value_redeemed row /\
    customers db'
    = customers (update_customer (points_earned row) (points_redeemed row)
                                 total cid db) /\
    loyalty_points_history db'
    = (loyalty_points_history db ++
       (if (0 <? points_earned row)%Z
        then map (fun c =>
                    mkLoyaltyPointsHistory cid "earn" (points_earned row)
                      (loyalty_points c) "sale" saleId
                      "Points earned from purchase" userId)
                 (filter (fun c => String.eqb (customer_id c) cid)
                         (customers db'))
        else []) ++
       (if (0 <? points_redeemed row)%Z
        then map (fun c =>
                    mkLoyaltyPointsHistory cid "redeem" (- points_redeemed row)
                      (loyalty_points c) "sale" saleId
                      "Points redeemed for purchase" userId)
                 (filter (fun c => String.eqb (customer_id c) cid)
                         (customers db'))
        else []))%list.
Proof.
  intros H Hcid. unfold create_body in H. unfold bind at 1 in H.
  destruct (items_loop data userId (items data) (mkTotals 0 0 []) db)
    as [[acc|e] db1] eqn:Eloop; [|discriminate H].
  destruct (items_loop_returned _ _ _ _ _ _ _ Eloop) as [Hsame _].
  destruct (items_loop_frame _ _ _ _ _ _ _ Eloop) as [Hh _].
  unfold bind at 1 in H.
  destruct (loyalty_step data _ _ db1) as [[pts|e] db2] eqn:Epts;
    [|discriminate H].
  apply loyalty_step_returned in Epts. destruct Epts as [-> _].
  destruct Hsame as [Hs [_ [Hc _]]].
  unfold bind, insert_sale, exec, ret in H. rewrite Hcid in H.
  set (total := acc_subtotal acc - Js.orQ (discountAmount data) 0 + acc_totalTax acc) in *.
  set (row := new_sale_row _ _ _ _ _ _ _ _ _ _) in *.
  exists (row (List.length (sales db))), total.
  assert (Hrow : points_earned (row (List.length (sales db))) = fst pts /\
                 points_redeemed (row (List.length (sales db)))
                   = Js.orZ (pointsToRedeem data) 0 /\
                 total == total_amount (row (List.length (sales db)))
                          + points_value_redeemed (row (List.length (sales db))) /\
                 sale_id (row (List.length (sales db))) = List.length (sales db)).
  { unfold row, new_sale_row. cbn. repeat split; try reflexivity. ring. }
  destruct Hrow as [R1 [R2 [R3 R4]]]. rewrite R1, R2, R4.
  rewrite Hs in H.
  destruct (paymentMethod data), (payments data), (isVatExempt data),
    (Js.orNullS (vatExemptReason data)),
    (0 <? fst pts)%Z eqn:Ee, (0 <? Js.orZ (pointsToRedeem data) 0)%Z eqn:Er;
    injection H as <- <-;
    cbn [sales with_sales with_sale_items with_sale_payments with_sale_discounts
         with_customers with_loyalty_points_history update_customer
         insert_sale_items insert_sale_payments insert_points_history
         customers loyalty_points_history];
    rewrite ?Hs, ?Hc, ?Hh;
    (split; [reflexivity|]);
    (split; [reflexivity|]); (split; [reflexivity|]);
    (split; [exact R3|]);
    (split; [reflexivity|]);
    rewrite ?app_nil_r; try rewrite <- app_assoc; reflexivity.
Qed.

Lemma filter_unique {A} (key : A -> string) (l : list A) (c : A) :
  NoDup (map key l) -> In c l ->
  filter (fun x => String.eqb (key x) (key c)) l = [c].
Proof.
  induction l as [|a l IH]; intros Hnd Hin; [destruct Hin|].
  simpl in Hnd. inversion Hnd as [|k ks Hnotin Hnd' E]. subst.
  simpl. destruct Hin as [->|Hin].
  - rewrite String.eqb_refl. f_equal.
    apply filter_none. intros x Hx. apply String.eqb_neq. intro E.
    apply Hnotin. rewrite <- E. apply in_map. exact Hx.
  - destruct (String.eqb (key a) (key c)) eqn:E.
    + apply String.eqb_eq in E. exfalso. apply Hnotin. rewrite E.
      apply in_map. exact Hin.
    + apply IH; assumption.
Qed.

(** X5. The loyalty ledger of a sale.  In a store where customer
    identifiers are unique, a sale that completes for an existing
    customer moves the balance of that customer by the points earned
    less the points redeemed, counts one more transaction, and adds the
    total before points to the lifetime spend; every history row it
    writes refers to the sale and records the balance after the sale;
    and when no negative number of points is earned or redeemed, the
    signed points of the rows written add up to the change of the
    balance. *)
Theorem create_loyalty_ledger (data : CreateSaleData) (userId : string)
    (db db' : Db) (sale : Sale) (c : Customer) :
  create data userId db = (Returned sale, db') ->
  Js.orNullS (customerId data) = Some (customer_id c) ->
  NoDup (map customer_id (customers db)) ->
  In c (customers db) ->
  exists row c' hs,
    sales db' = (sales db ++ [row])%list /\
    loyalty_points_history db' = (loyalty_points_history db ++ hs)%list /\
    filter (fun x => String.eqb (customer_id x) (customer_id c)) (customers db')
      = [c'] /\
    loyalty_points c'
      = (loyalty_points c + points_earned row - points_redeemed row)%Z /\
    total_transactions c' = (total_transactions c + 1)%Z /\
    lifetime_spend c'
      == lifetime_spend c + total_amount row + points_value_redeemed row /\
    Forall (fun h => lp_customer_id h = customer_id c /\
                     lp_reference_type h = "sale" /\
                     lp_reference_id h = sale_id row /\
                     lp_balance_after h = loyalty_points c') hs /\
    ((0 <= points_earned row)%Z -> (0 <= points_redeemed row)%Z ->
     Ledger.points_recorded hs
       = (points_earned row - points_redeemed row)%Z).
Proof.
  intros H Hcid Hnd Hin. apply create_returned in H.
  destruct (create_body_loyalty _ _ _ _ _ _ H Hcid)
    as [row [total [Hsales [Hid [Hred [Htotal [Hcust Hhist]]]]]]].
  assert (Hsel : filter (fun x => String.eqb (customer_id x) (customer_id c))
                        (customers db')
                 = [mkCustomer (customer_id c)
                      (loyalty_points c + points_earned row - points_redeemed row)%Z
                      (lifetime_spend c + total)
                      (total_transactions c + 1)%Z (membership_tier_id c)]).
  { rewrite Hcust. unfold update_customer. cbn [with_customers customers].
    rewrite filter_map_comm.
    - rewrite (filter_unique customer_id _ c Hnd Hin). simpl.
      rewrite String.eqb_refl. reflexivity.
    - intro a. destruct (String.eqb (customer_id a) (customer_id c)) eqn:E;
        cbn [customer_id]; rewrite E; reflexivity. }
  rewrite Hsel in Hhist. cbn [map loyalty_points] in Hhist.
  eexists row, _, _.
  split; [exact Hsales|]. split; [exact Hhist|]. split; [exact Hsel|].
  cbn [loyalty_points total_transactions lifetime_spend].
  split; [reflexivity|]. split; [reflexivity|].
  split; [rewrite Htotal; ring|].
  split.
  - destruct (0 <? points_earned row)%Z, (0 <? points_redeemed row)%Z;
      repeat (constructor;
              [cbn; repeat split; try reflexivity; symmetry; exact Hid|]);
      constructor.
  - intros He Hr. unfold Ledger.points_recorded.
    destruct (0 <? points_earned row)%Z eqn:Ee;
      destruct (0 <? points_redeemed row)%Z eqn:Er;
      cbn [app fold_right lp_points];
      try apply Z.ltb_ge in Ee; try apply Z.ltb_ge in Er; lia.
Qed.

End SaleLoyalty.

(** Witness of [create_loyalty_ledger]: the sale of [loyal_order], which
    redeems 30 points. *)
Lemma create_loyalty_ledger_witness :
  exists row c' hs,
    sales MoreExamples.db_loyal = (sales db0 ++ [row])%list /\
    loyalty_points_history MoreExamples.db_loyal
      = (loyalty_points_history db0 ++ hs)%list /\
    filter (fun x => String.eqb (customer_id x) (customer_id ana))
           (customers MoreExamples.db_loyal) = [c'] /\
    loyalty_points c'
      = (loyalty_points ana + points_earned row - points_redeemed row)%Z /\
    total_transactions c' = (total_transactions ana + 1)%Z /\
    lifetime_spend c'
      == lifetime_spend ana + total_amount row + points_value_redeemed row /\
    Forall (fun h => lp_customer_id h = customer_id ana /\
                     lp_reference_type h = "sale" /\
                     lp_reference_id h = sale_id row /\
                     lp_balance_after h = loyalty_points c') hs /\
    ((0 <= points_earned row)%Z -> (0 <= points_redeemed row)%Z ->
     Ledger.points_recorded hs
       = (points_earned row - points_redeemed row)%Z).
Proof.
  eapply (create_loyalty_ledger loyal_order "u-cashier" db0).
  - vm_compute. reflexivity.
  - reflexivity.
  - repeat constructor. intros [].
  - left. reflexivity.
Defined.

(* ================================================================== *)
(** ** Sales: void and refund, on their four paths *)
(* ================================================================== *)

Section ReversalFacts.
Import Sales.
Variable bcrypt_compare : string -> string -> bool.

(** A supervisor check that passes has found a user with the capability
    and a PIN that matches, and has read the store only. *)
Lemma verify_supervisor_returned (capability : User -> bool) (denied : string)
    (supervisorId supervisorPin : string) (db db1 : Db) (u : unit) :
  verify_supervisor bcrypt_compare capability denied supervisorId supervisorPin db
    = (Returned u, db1) ->
  db1 = db /\
  exists supervisor others hash,
    filter (fun x => String.eqb (user_id x) supervisorId) (users db)
      = supervisor :: others /\
    capability supervisor = true /\
    supervisor_pin_hash supervisor = Some hash /\ hash <> "" /\
    bcrypt_compare supervisorPin hash = true.
Proof.
  unfold verify_supervisor, bind, query, throw, ret.
  destruct (filter _ (users db)) as [|supervisor others]; [discriminate|].
  destruct (capability supervisor) eqn:Ecap; [|discriminate]. cbn [negb].
  destruct (supervisor_pin_hash supervisor) as [hash|] eqn:Ehash;
    [|discriminate].
  cbn [Js.orNullS]. destruct (Js.truthyS hash) eqn:Et; [|discriminate].
  destruct (bcrypt_compare supervisorPin hash) eqn:Ebc; [|discriminate].
  cbn [negb]. intro H. injection H as _ <-. split; [reflexivity|].
  exists supervisor, others, hash. repeat split; try reflexivity; try assumption.
  apply truthyS_true. exact Et.
Qed.

(** The restore loop: the movements it writes, and what it leaves
    alone. *)
Lemma restore_stock_loop_movements (rows : list SaleItemRow)
    (referenceType : string) (saleId : nat) (note actor : string)
    (db db2 : Db) (u : unit) :
  restore_stock_loop rows referenceType saleId note actor db = (Returned u, db2) ->
  (exists ms,
     stock_movements db2 = (stock_movements db ++ ms)%list /\
     map (fun m => (sm_product_id m, sm_quantity m)) ms = map Spec.row_key rows /\
     Forall (fun m => sm_movement_type m = "return" /\
                      sm_reference_type m = referenceType /\
                      sm_reference_id m = Some saleId /\
                      sm_notes m = Some note /\
                      sm_created_by m = actor /\
                      Ledger.consistent m) ms /\
     products db2
     = map (Spec.shift_stock (fun x => Ledger.moved x ms)) (products db)) /\
  customers db2 = customers db /\
  sales db2 = sales db /\
  sale_items db2 = sale_items db /\
  sale_payments db2 = sale_payments db /\
  sale_discounts db2 = sale_discounts db /\
  loyalty_points_history db2 = loyalty_points_history db.
Proof.
  revert db. induction rows as [|item rest IH]; intros db H.
  - injection H as _ <-. split; [|repeat split].
    exists []. rewrite app_nil_r. split; [reflexivity|].
    split; [reflexivity|]. split; [constructor|]. simpl.
    rewrite <- (map_id (products db)) at 1. apply map_ext.
    intro p. symmetry. apply shift_stock_zero. reflexivity.
  - cbn [restore_stock_loop] in H. unfold bind, query, throw, exec in H.
    destruct (select_stock (si_product_id item) _) as [|stock others];
      [discriminate H|].
    apply IH in H.
    destruct H as [[ms [Hms [Hkeys [Hall Hp]]]] [Hc [Hs [Hi [Hpay [Hd Hh]]]]]].
    split; [|repeat split; assumption].
    eexists (_ :: ms). split; [|split; [|split]].
    + rewrite Hms. cbn [insert_stock_movement with_stock_movements
                        stock_movements add_stock with_products].
      rewrite <- app_assoc. reflexivity.
    + cbn [map sm_product_id sm_quantity]. rewrite Hkeys. reflexivity.
    + constructor; [|exact Hall].
      unfold Ledger.consistent.
      cbn [sm_movement_type sm_reference_type sm_reference_id sm_notes
           sm_created_by sm_quantity_after sm_quantity_before sm_quantity].
      repeat split; lia.
    + rewrite Hp.
      change (products (insert_stock_movement ?m ?d)) with (products d).
      rewrite add_stock_shift, map_map. apply map_ext. intro p.
      rewrite shift_stock_compose. apply shift_stock_ext.
      unfold Ledger.moved. cbn [fold_right sm_product_id sm_quantity].
      destruct (String.eqb (product_id p) (si_product_id item)); lia.
Qed.

(** The statements of a reversal that returns: the sale was found
    completed, the supervisor (when there is one) has the capability and
    the PIN, and the store is the one the shared reversal of stock and
    loyalty gives after the sale rows are marked. *)
Lemma reversal_runs (action : Auth.Action) (supervisor : option (string * string))
    (saleId : nat) (reason actor : string) (db db' : Db) (sale : Sale) :
  Reversal.run bcrypt_compare action supervisor saleId reason actor db
    = (Returned sale, db') ->
  exists s rest,
    select_sale saleId db = s :: rest /\
    status s = "completed" /\
    (forall supervisorId supervisorPin,
       supervisor = Some (supervisorId, supervisorPin) ->
       exists u others hash,
         filter (fun x => String.eqb (user_id x) supervisorId) (users db)
           = u :: others /\
         Reversal.capability action u = true /\
         supervisor_pin_hash u = Some hash /\ hash <> "" /\
         bcrypt_compare supervisorPin hash = true) /\
    reverse_effects s (Reversal.reference_type action) saleId
      (Reversal.note action reason) actor
      (match action with
       | Auth.void =>
           mark_voided actor (Reversal.authorizer supervisor actor) reason
                       saleId db
       | Auth.refund =>
           mark_refunded actor (Reversal.authorizer supervisor actor) reason
                         saleId db
       end)
    = (Returned tt, db') /\
    getById saleId db' = Returned sale.
Proof.
  intro H.
  destruct action, supervisor as [[supervisorId supervisorPin]|];
    cbn [Reversal.run] in H;
    unfold voidSale, refundSale, voidSaleSelfAuthorized, refundSaleSelfAuthorized,
      transaction, voidSale_body, refundSale_body, voidSaleSelfAuthorized_body,
      refundSaleSelfAuthorized_body in H;
    unfold bind at 1 in H;
    try (destruct (verify_supervisor _ _ _ _ _ db) as [[u|e] db1] eqn:Ever;
         [|discriminate H];
         apply verify_supervisor_returned in Ever;
         destruct Ever as [-> Hsup];
         unfold bind at 1 in H);
    unfold query at 1 in H;
    (destruct (select_sale saleId db) as [|s rest] eqn:Hsel; [discriminate H|]);
    (destruct (negb (String.eqb (status s) "completed")) eqn:Est;
     [discriminate H|]);
    unfold bind at 1 in H; unfold exec at 1 in H;
    match type of H with
    | context [reverse_effects ?a ?b ?c ?d ?e ?f] =>
        destruct (reverse_effects a b c d e f) as [[[]|e0] db2] eqn:Erev;
          [|discriminate H]
    end;
    exists s, rest;
    (split; [reflexivity|]);
    (split; [apply completed_status; exact Est|]);
    (assert (Hdb : db' = db2) by (destruct (getById saleId db2); congruence));
    subst db2;
    (split;
     [ intros sid pin Esup; try discriminate Esup;
       injection Esup as <- <-; exact Hsup
     | split; [exact Erev|];
       destruct (getById saleId db'); congruence ]).
Qed.

End ReversalFacts.
Section ReversalLedgers.
Import Sales.
Variable bcrypt_compare : string -> string -> bool.

(** The shared reversal of stock and loyalty: what it writes and what it
    leaves alone. *)
Lemma reverse_effects_returned (sale : SaleRow) (referenceType : string)
    (saleId : nat) (note actor : string) (db db2 : Db) (u : unit) :
  reverse_effects sale referenceType saleId note actor db = (Returned u, db2) ->
  (exists ms,
     stock_movements db2 = (stock_movements db ++ ms)%list /\
     map (fun m => (sm_product_id m, sm_quantity m)) ms
       = map Spec.row_key
             (filter (fun i => Nat.eqb (si_sale_id i) saleId) (sale_items db)) /\
     Forall (fun m => sm_movement_type m = "return" /\
                      sm_reference_type m = referenceType /\
                      sm_reference_id m = Some saleId /\
                      sm_notes m = Some note /\
                      sm_created_by m = actor /\
                      Ledger.consistent m) ms /\
     products db2
     = map (Spec.shift_stock (fun x => Ledger.moved x ms)) (products db)) /\
  customers db2
    = match Js.orNullS (sale_customer_id sale) with
      | Some cid =>
          customers (reverse_customer (points_earned sale) (points_redeemed sale)
                                      (total_amount sale) cid db)
      | None => customers db
      end /\
  sales db2 = sales db /\
  sale_items db2 = sale_items db /\
  sale_payments db2 = sale_payments db /\
  sale_discounts db2 = sale_discounts db /\
  loyalty_points_history db2 = loyalty_points_history db.
Proof.
  unfold reverse_effects. unfold bind at 1. unfold query at 1.
  unfold bind at 1.
  destruct (restore_stock_loop _ referenceType saleId note actor db)
    as [[u1|e] db1] eqn:Er; [|discriminate].
  apply restore_stock_loop_movements in Er.
  destruct Er as [[ms [Hms [Hkeys [Hall Hp]]]] [Hc [Hs [Hi [Hpay [Hd Hh]]]]]].
  intro H.
  destruct (Js.orNullS (sale_customer_id sale)) as [cid|];
    unfold exec, ret in H; injection H as _ <-;
    (split; [exists ms; repeat split; assumption|]);
    cbn [reverse_customer with_customers customers sales sale_items
         sale_payments sale_discounts loyalty_points_history];
    rewrite Hc; repeat split; assumption.
Qed.

(** X6. The stock ledger of a void or refund.  A void or refund that
    completes, on any of its four paths, appends one 'return' movement
    for every item row of the sale, in order, with the product and the
    quantity of the row, the reference of the sale and the annotated
    reason; each has a quantity after equal to the quantity before plus
    the quantity moved, and the stock of every product row has changed by
    exactly the net quantity of the movements written for that product. *)
Theorem reversal_stock_ledger (action : Auth.Action)
    (supervisor : option (string * string)) (saleId : nat)
    (reason actor : string) (db db' : Db) (sale : Sale) :
  Reversal.run bcrypt_compare action supervisor saleId reason actor db
    = (Returned sale, db') ->
  exists ms,
    stock_movements db' = (stock_movements db ++ ms)%list /\
    map (fun m => (sm_product_id m, sm_quantity m)) ms
      = map Spec.row_key
            (filter (fun i => Nat.eqb (si_sale_id i) saleId) (sale_items db)) /\
    Forall (fun m => sm_movement_type m = "return" /\
                     sm_reference_type m = Reversal.reference_type action /\
                     sm_reference_id m = Some saleId /\
                     sm_notes m = Some (Reversal.note action reason) /\
                     sm_created_by m = actor /\
                     Ledger.consistent m) ms /\
    products db'
    = map (Spec.shift_stock (fun x => Ledger.moved x ms)) (products db).
Proof.
  intro H.
  destruct (reversal_runs bcrypt_compare _ _ _ _ _ _ _ _ H)
    as [s [rest [_ [_ [_ [Hrev _]]]]]].
  apply reverse_effects_returned in Hrev.
  destruct Hrev as [[ms [Hms [Hkeys [Hall Hp]]]] _].
  exists ms. destruct action; repeat split; assumption.
Qed.

Lemma Forall2_In_r {A B} (R : A -> B -> Prop) (l : list A) (l' : list B) (b : B) :
  Forall2 R l l' -> In b l' -> exists a, In a l /\ R a b.
Proof.
  induction 1 as [|x y l l' Hxy _ IH]; intro Hin; [destruct Hin|].
  destruct Hin as [<-|Hin].
  - exists x. split; [left; reflexivity|exact Hxy].
  - destruct (IH Hin) as [a [Ha HR]]. exists a. split; [right; exact Ha|exact HR].
Qed.

(** The sale rows after a reversal that returns. *)
Lemma reversal_audit_rows (action : Auth.Action)
    (supervisor : option (string * string)) (saleId : nat)
    (reason actor : string) (db db' : Db) (sale : Sale) :
  Reversal.run bcrypt_compare action supervisor saleId reason actor db
    = (Returned sale, db') ->
  Forall2 (fun s s' =>
             if Nat.eqb (sale_id s) saleId
             then status s' = Reversal.new_status action /\
                  Reversal.audited action actor
                    (Reversal.authorizer supervisor actor) reason s' /\
                  Reversal.same_sale s s'
             else s' = s)
          (sales db) (sales db').
Proof.
  intro H.
  destruct (reversal_runs bcrypt_compare _ _ _ _ _ _ _ _ H)
    as [s [rest [_ [_ [_ [Hrev _]]]]]].
  apply reverse_effects_returned in Hrev.
  destruct Hrev as [_ [_ [Hs _]]].
  rewrite Hs. destruct action;
    cbn [mark_voided mark_refunded with_sales sales];
    apply Forall2_same_map; intro a;
    destruct (Nat.eqb (sale_id a) saleId); try reflexivity;
    unfold Reversal.audited, Reversal.same_sale; cbn;
    repeat split; reflexivity.
Qed.

(** X7. The audit trail of a void or refund.  A void or refund that
    completes rewrites the sale rows of that identifier and no other:
    each gets the new status, the operator, the authorizing user (the
    supervisor, or the operator when self-authorized) and the reason,
    and a refund records the total of the sale as the amount refunded;
    the amounts, customer, cashier and points of the row are kept.  The
    sale returned carries the new status, and the items, payments and
    discounts of every sale are left as they were. *)
Theorem reversal_audit_trail (action : Auth.Action)
    (supervisor : option (string * string)) (saleId : nat)
    (reason actor : string) (db db' : Db) (sale : Sale) :
  Reversal.run bcrypt_compare action supervisor saleId reason actor db
    = (Returned sale, db') ->
  Forall2 (fun s s' =>
             if Nat.eqb (sale_id s) saleId
             then status s' = Reversal.new_status action /\
                  Reversal.audited action actor
                    (Reversal.authorizer supervisor actor) reason s' /\
                  Reversal.same_sale s s'
             else s' = s)
          (sales db) (sales db') /\
  status (sale_header sale) = Reversal.new_status action /\
  sale_items db' = sale_items db /\
  sale_payments db' = sale_payments db /\
  sale_discounts db' = sale_discounts db.
Proof.
  intro H.
  pose proof (reversal_audit_rows _ _ _ _ _ _ _ _ H) as Hall.
  destruct (reversal_runs bcrypt_compare _ _ _ _ _ _ _ _ H)
    as [s [rest [_ [_ [_ [Hrev Hget]]]]]].
  apply reverse_effects_returned in Hrev.
  destruct Hrev as [_ [_ [Hs [Hi [Hpay [Hd _]]]]]].
  split; [exact Hall|].
  split.
  - unfold getById in Hget.
    destruct (find _ (sales db')) as [row|] eqn:Efind; [|discriminate Hget].
    injection Hget as <-. cbn [sale_header].
    apply find_some in Efind. destruct Efind as [Hin Hrow].
    apply andb_true_iff in Hrow. destruct Hrow as [Hid _].
    destruct (Forall2_In_r _ _ _ _ Hall Hin) as [a [_ Ha]].
    destruct (Nat.eqb (sale_id a) saleId) eqn:E.
    + exact (proj1 Ha).
    + subst row. congruence.
  - destruct action; repeat split; assumption.
Qed.

(** X8. The loyalty side of a void or refund.  A void or refund that
    completes takes the points earned by the sale from every customer
    row of the customer of the sale and gives back the points redeemed,
    takes the total of the sale from the lifetime spend and one from the
    number of transactions, and leaves every other customer row as it
    was; it writes no loyalty history row. *)
Theorem reversal_loyalty_unrecorded (action : Auth.Action)
    (supervisor : option (string * string)) (saleId : nat)
    (reason actor : string) (db db' : Db) (sale : Sale) :
  Reversal.run bcrypt_compare action supervisor saleId reason actor db
    = (Returned sale, db') ->
  exists s rest,
    select_sale saleId db = s :: rest /\
    loyalty_points_history db' = loyalty_points_history db /\
    Forall2 (fun c c' =>
               if match Js.orNullS (sale_customer_id s) with
                  | Some cid => String.eqb (customer_id c) cid
                  | None => false
                  end
               then customer_id c' = customer_id c /\
                    loyalty_points c'
                      = (loyalty_points c - points_earned s
                         + points_redeemed s)%Z /\
                    lifetime_spend c' = lifetime_spend c - total_amount s /\
                    total_transactions c' = (total_transactions c - 1)%Z /\
                    membership_tier_id c' = membership_tier_id c
               else c' = c)
            (customers db) (customers db').
Proof.
  intro H.
  destruct (reversal_runs bcrypt_compare _ _ _ _ _ _ _ _ H)
    as [s [rest [Hsel [_ [_ [Hrev _]]]]]].
  apply reverse_effects_returned in Hrev.
  destruct Hrev as [_ [Hc [_ [_ [_ [_ Hh]]]]]].
  exists s, rest. split; [exact Hsel|].
  split; [destruct action; exact Hh|].
  rewrite Hc.
  assert (Hcust : customers (match action with
                             | Auth.void =>
                                 mark_voided actor
                                   (Reversal.authorizer supervisor actor)
                                   reason saleId db
                             | Auth.refund =>
                                 mark_refunded actor
                                   (Reversal.authorizer supervisor actor)
                                   reason saleId db
                             end) = customers db)
    by (destruct action; reflexivity).
  destruct (Js.orNullS (sale_customer_id s)) as [cid|].
  - unfold reverse_customer. cbn [with_customers customers]. rewrite Hcust.
    apply Forall2_same_map. intro c.
    destruct (String.eqb (customer_id c) cid); [|reflexivity].
    cbn. repeat split; reflexivity.
  - rewrite Hcust. rewrite <- (map_id (customers db)) at 2.
    apply Forall2_same_map. intro c. reflexivity.
Qed.


(** X10. Void or refund after create, on the loyalty balances.  In a
    store whose next sale identifier is fresh, a sale that is voided or
    refunded at once, on any path, leaves every customer row with the
    points balance and the number of transactions it had before the
    sale; the lifetime spend of the customer of the sale is left higher
    by the value of the points the sale redeemed, and that of every
    other customer is as before. *)
Theorem reversal_after_create_loyalty (data : CreateSaleData)
    (userId : string) (action : Auth.Action)
    (supervisor : option (string * string)) (reason actor : string)
    (db db1 db2 : Db) (sale sale' : Sale) :
  (forall s, In s (sales db) -> sale_id s <> List.length (sales db)) ->
  create data userId db = (Returned sale, db1) ->
  Reversal.run bcrypt_compare action supervisor (List.length (sales db))
               reason actor db1 = (Returned sale', db2) ->
  exists row,
    sales db1 = (sales db ++ [row])%list /\
    Forall2 (fun c c2 =>
               customer_id c2 = customer_id c /\
               loyalty_points c2 = loyalty_points c /\
               total_transactions c2 = total_transactions c /\
               membership_tier_id c2 = membership_tier_id c /\
               lifetime_spend c2
                 == lifetime_spend c +
                    (if match Js.orNullS (customerId data) with
                        | Some cid => String.eqb (customer_id c) cid
                        | None => false
                        end
                     then points_value_redeemed row else 0))
            (customers db) (customers db2).
Proof.
  intros Hfs Hcreate Hrun.
  apply create_returned in Hcreate.
  destruct (create_body_effects _ _ _ _ _ Hcreate)
    as [acc [dbl [pts [_ [_ [_ [Hsales [_ [_ Hcust]]]]]]]]].
  destruct (reversal_runs bcrypt_compare _ _ _ _ _ _ _ _ Hrun)
    as [s [rest [Hsel [_ [_ [Hrev _]]]]]].
  apply reverse_effects_returned in Hrev.
  destruct Hrev as [_ [Hc _]].
  unfold select_sale in Hsel. rewrite Hsales in Hsel.
  rewrite filter_fresh_sales in Hsel; [|exact Hfs|reflexivity].
  injection Hsel as <- <-.
  eexists. split; [exact Hsales|].
  rewrite Hc.
  assert (Hm : customers (match action with
                          | Auth.void =>
                              mark_voided actor
                                (Reversal.authorizer supervisor actor)
                                reason (List.length (sales db)) db1
                          | Auth.refund =>
                              mark_refunded actor
                                (Reversal.authorizer supervisor actor)
                                reason (List.length (sales db)) db1
                          end) = customers db1)
    by (destruct action; reflexivity).
  cbn [new_sale_row sale_customer_id points_earned points_redeemed
       total_amount points_value_redeemed].
  rewrite orNullS_idempotent.
  destruct (Js.orNullS (customerId data)) as [cid|].
  - unfold reverse_customer. cbn [with_customers customers].
    rewrite Hm, Hcust. unfold update_customer. cbn [with_customers customers].
    rewrite map_map. apply Forall2_same_map. intro c.
    destruct (String.eqb (customer_id c) cid) eqn:E.
    + cbn [customer_id]. rewrite E.
      cbn [customer_id loyalty_points total_transactions lifetime_spend
           membership_tier_id].
      repeat split; try lia. ring.
    + rewrite E. repeat split; try reflexivity. ring.
  - rewrite Hm, Hcust. rewrite <- (map_id (customers db)) at 2.
    apply Forall2_same_map. intro c. repeat split; try reflexivity. ring.
Qed.

End ReversalLedgers.

(** Witness of [reversal_stock_ledger]: the refund, by a supervisor, of
    the sale of two units of rice. *)
Lemma reversal_stock_ledger_witness :
  exists ms,
    stock_movements
      (snd (Reversal.run compare_pin Auth.refund (Some ("u-super", "1234")) 0
                         "broken" "u-cashier" MoreExamples.db_plain))
      = (stock_movements MoreExamples.db_plain ++ ms)%list /\
    map (fun m => (sm_product_id m, sm_quantity m)) ms = [("p-rice", 2%Z)] /\
    products
      (snd (Reversal.run compare_pin Auth.refund (Some ("u-super", "1234")) 0
                         "broken" "u-cashier" MoreExamples.db_plain))
    = map (Spec.shift_stock (fun x => Ledger.moved x ms))
          (products MoreExamples.db_plain).
Proof.
  edestruct (reversal_stock_ledger compare_pin Auth.refund
               (Some ("u-super", "1234")) 0 "broken" "u-cashier"
               MoreExamples.db_plain) as [ms [A [B [_ C]]]].
  - vm_compute. reflexivity.
  - exists ms. split; [exact A|]. split; [exact B|exact C].
Defined.

(** Witness of [reversal_audit_trail]: the self-authorized void of the
    sale of [service_order]. *)
Lemma reversal_audit_trail_witness :
  Forall2 (fun s s' =>
             if Nat.eqb (sale_id s) 0
             then status s' = "voided" /\
                  Reversal.audited Auth.void "u-super" "u-super" "mistake" s' /\
                  Reversal.same_sale s s'
             else s' = s)
          (sales db_sold) (sales db_voided) /\
  sale_items db_voided = sale_items db_sold.
Proof.
  edestruct (reversal_audit_trail compare_pin Auth.void None 0 "mistake"
               "u-super" db_sold) as [A [_ [B _]]].
  - vm_compute. reflexivity.
  - split; [exact A|exact B].
Defined.

(** Witness of [reversal_loyalty_unrecorded]: the void of the sale of
    [service_order], which had redeemed 30 points. *)
Lemma reversal_loyalty_unrecorded_witness :
  loyalty_points_history db_voided = loyalty_points_history db_sold /\
  map loyalty_points (customers db_sold) = [1%Z] /\
  map loyalty_points (customers db_voided) = [30%Z].
Proof.
  edestruct (reversal_loyalty_unrecorded compare_pin Auth.void None 0 "mistake"
               "u-super" db_sold) as [s [rest [_ [A _]]]].
  - vm_compute. reflexivity.
  - split; [exact A|]. split; vm_compute; reflexivity.
Defined.


(** Witness of [reversal_after_create_loyalty]: the sale of
    [loyal_order], refunded at once. *)
Lemma reversal_after_create_loyalty_witness :
  exists row,
    sales MoreExamples.db_loyal = (sales db0 ++ [row])%list /\
    Forall2 (fun c c2 =>
               customer_id c2 = customer_id c /\
               loyalty_points c2 = loyalty_points c /\
               total_transactions c2 = total_transactions c /\
               membership_tier_id c2 = membership_tier_id c /\
               lifetime_spend c2
                 == lifetime_spend c +
                    (if match Js.orNullS (Sales.customerId loyal_order) with
                        | Some cid => String.eqb (customer_id c) cid
                        | None => false
                        end
                     then points_value_redeemed row else 0))
            (customers db0)
            (customers
               (snd (Reversal.run compare_pin Auth.refund None 0 "changed mind"
                                  "u-super" MoreExamples.db_loyal))).
Proof.
  eapply (reversal_after_create_loyalty compare_pin loyal_order "u-cashier"
            Auth.refund None "changed mind" "u-super" db0).
  - intros s [].
  - vm_compute. reflexivity.
  - vm_compute. reflexivity.
Defined.

Section Authority.
Import Sales.
Variable bcrypt_compare : string -> string -> bool.


(** X12. A void or refund through its route.  A request to the void or
    to the refund route that completes carries a non-empty reason, and
    was authorized either by the operator, whose session holds the
    capability for the operation or the role of a manager or super
    administrator, or by a supervisor named in the request who holds the
    capability and whose PIN hash matches the PIN of the request; every
    sale row of that identifier then records the new status, the
    operator, that authorizing user and the reason. *)
Theorem request_authorized (action : Auth.Action)
    (user : SaleController.AuthPayload) (id : nat)
    (body : SaleController.ReverseBody) (db db' : Db) (sale : Sale) :
  Routes.request bcrypt_compare action user id body db = (Returned sale, db') ->
  exists reason authorizedBy,
    SaleController.reason body = Some reason /\ reason <> "" /\
    ((Routes.self_authority action user = true /\
      authorizedBy = SaleController.userId user) \/
     (Routes.self_authority action user = false /\
      SaleController.supervisorId body = Some authorizedBy /\
      exists pin u others hash,
        SaleController.supervisorPin body = Some pin /\
        filter (fun x => String.eqb (user_id x) authorizedBy) (users db)
          = u :: others /\
        Reversal.capability action u = true /\
        supervisor_pin_hash u = Some hash /\
        bcrypt_compare pin hash = true)) /\
    Forall (fun s' =>
              sale_id s' = id ->
              status s' = Reversal.new_status action /\
              Reversal.audited action (SaleController.userId user)
                               authorizedBy reason s')
           (sales db').
Proof.
  intro H.
  assert (Hcases :
    exists reason supervisor,
      SaleController.reason body = Some reason /\ reason <> "" /\
      ((Routes.self_authority action user = true /\ supervisor = None) \/
       (Routes.self_authority action user = false /\
        exists sid pin,
          SaleController.supervisorId body = Some sid /\
          SaleController.supervisorPin body = Some pin /\
          supervisor = Some (sid, pin))) /\
      Reversal.run bcrypt_compare action supervisor id reason
                   (SaleController.userId user) db = (Returned sale, db')).
  { destruct action; cbn [Routes.request] in H;
      unfold SaleController.voidSale, SaleController.refundSale in H;
      (destruct (SaleController.reason body) as [reason|] eqn:Er;
       [|discriminate H]);
      cbn [Js.orNullS] in H;
      (destruct (Js.truthyS reason) eqn:Et; [|discriminate H]);
      exists reason;
      unfold Routes.self_authority;
      match type of H with
      | context [if ?b then _ else _] => destruct b eqn:Eauth
      end.
    - exists None. split; [reflexivity|].
      split; [apply truthyS_true; exact Et|].
      split; [left; split; reflexivity|exact H].
    - destruct (SaleController.supervisorId body) as [sid|] eqn:Es;
        [|discriminate H].
      cbn [Js.orNullS] in H.
      destruct (Js.truthyS sid); [|discriminate H].
      destruct (SaleController.supervisorPin body) as [pin|] eqn:Ep;
        [|discriminate H].
      cbn [Js.orNullS] in H.
      destruct (Js.truthyS pin); [|discriminate H].
      exists (Some (sid, pin)). split; [reflexivity|].
      split; [apply truthyS_true; exact Et|].
      split; [right; split; [reflexivity|]; exists sid, pin; repeat split|].
      exact H.
    - exists None. split; [reflexivity|].
      split; [apply truthyS_true; exact Et|].
      split; [left; split; reflexivity|exact H].
    - destruct (SaleController.supervisorId body) as [sid|] eqn:Es;
        [|discriminate H].
      cbn [Js.orNullS] in H.
      destruct (Js.truthyS sid); [|discriminate H].
      destruct (SaleController.supervisorPin body) as [pin|] eqn:Ep;
        [|discriminate H].
      cbn [Js.orNullS] in H.
      destruct (Js.truthyS pin); [|discriminate H].
      exists (Some (sid, pin)). split; [reflexivity|].
      split; [apply truthyS_true; exact Et|].
      split; [right; split; [reflexivity|]; exists sid, pin; repeat split|].
      exact H. }
  destruct Hcases as [reason [supervisor [Hr [Hne [Hauth Hrun]]]]].
  exists reason, (Reversal.authorizer supervisor (SaleController.userId user)).
  split; [exact Hr|]. split; [exact Hne|].
  split.
  - destruct Hauth as [[Ha ->]|[Ha [sid [pin [Hs [Hp ->]]]]]].
    + left. split; [exact Ha|reflexivity].
    + right. split; [exact Ha|]. cbn [Reversal.authorizer].
      split; [exact Hs|].
      destruct (reversal_runs bcrypt_compare _ _ _ _ _ _ _ _ Hrun)
        as [_ [_ [_ [_ [Hsup _]]]]].
      destruct (Hsup sid pin eq_refl)
        as [u [others [hash [A [B [C [_ D]]]]]]].
      exists pin, u, others, hash. repeat split; assumption.
  - pose proof (reversal_audit_rows bcrypt_compare _ _ _ _ _ _ _ _ Hrun) as Hall.
    apply Forall_forall. intros s' Hin Hid.
    destruct (Forall2_In_r _ _ _ _ Hall Hin) as [a [_ Ha]].
    destruct (Nat.eqb (sale_id a) id) eqn:E.
    + destruct Ha as [A [B _]]. split; assumption.
    + subst s'. apply Nat.eqb_neq in E. contradiction.
Qed.

End Authority.


(** Witness of [request_authorized]: the cashier voids the sale of
    [service_order] with the PIN of the supervisor. *)
Lemma request_authorized_witness :
  exists reason authorizedBy,
    reason <> "" /\
    Forall (fun s' =>
              sale_id s' = 0%nat ->
              status s' = "voided" /\
              Reversal.audited Auth.void "u-cashier" authorizedBy reason s')
           (sales
              (snd (Routes.request compare_pin Auth.void cashier_session 0
                      (SaleController.mkReverseBody (Some "mistake")
                         (Some "u-super") (Some "1234")) db_sold))).
Proof.
  edestruct (request_authorized compare_pin Auth.void cashier_session 0
               (SaleController.mkReverseBody (Some "mistake") (Some "u-super")
                  (Some "1234")) db_sold)
    as [reason [authorizedBy [_ [A [_ B]]]]].
  - vm_compute. reflexivity.
  - exists reason, authorizedBy. split; [exact A|exact B].
Defined.
From Stdlib Require Import Lqa.

(* ================================================================== *)
(** ** Discounts: bounds and sources of the discounts applied *)
(* ================================================================== *)

Section DiscountBounds.
Import Discounts.

Lemma percentage_of_bounds (s pct : Q) :
  0 <= s -> 0 <= pct -> pct <= 100 ->
  0 <= s * (pct / 100) /\ s * (pct / 100) <= s.
Proof.
  intros Hs Hp Hp'.
  assert (H1 : 0 <= pct / 100) by (apply Qle_shift_div_l; [reflexivity|lra]).
  assert (H2 : pct / 100 <= 1) by (apply Qle_shift_div_r; [reflexivity|lra]).
  split; nra.
Qed.

Lemma find_setting_In (t : string) (rows : list DiscountSetting)
    (d : DiscountSetting) :
  find_setting t rows = Some d -> In d rows /\ discount_type d = t.
Proof.
  unfold find_setting. intro H. apply find_some in H.
  destruct H as [Hin Ht]. split; [exact Hin|].
  apply String.eqb_eq. exact Ht.
Qed.

Lemma govDiscounts_In (db : Db) (d : DiscountSetting) :
  In d (govDiscounts db) ->
  In d (discount_settings db) /\ setting_is_active d = true.
Proof.
  unfold govDiscounts. intro H. apply filter_In in H.
  destruct H as [Hin Hd]. apply andb_true_iff in Hd.
  split; [exact Hin|exact (proj1 Hd)].
Qed.

(** The government step yields the discount of one applied entry, or
    nothing. *)
Lemma government_step_cases (p : Params) (db : Db) :
  (government_step p db = (0, false, [])) \/
  (exists d,
     In d (discount_settings db) /\ setting_is_active d = true /\
     ((discount_type d = "senior_citizen" /\ isSeniorCitizen p = true) \/
      (discount_type d = "pwd" /\ isSeniorCitizen p = false /\
       isPwd p = true)) /\
     government_step p db
     = (subtotal p * (percentage d / 100), is_vat_exempt d,
        [mkApplied (discount_type d) (setting_name d) (percentage d)
                   (subtotal p * (percentage d / 100))])).
Proof.
  unfold government_step.
  destruct (isSeniorCitizen p).
  - destruct (find_setting "senior_citizen" (govDiscounts db)) as [d|] eqn:E;
      [|left; reflexivity].
    right. exists d. apply find_setting_In in E. destruct E as [Hin Ht].
    apply govDiscounts_In in Hin. destruct Hin as [Hin Hact].
    split; [exact Hin|]. split; [exact Hact|].
    split; [left; split; [exact Ht|reflexivity]|]. rewrite Ht. reflexivity.
  - destruct (isPwd p); [|left; reflexivity].
    destruct (find_setting "pwd" (govDiscounts db)) as [d|] eqn:E;
      [|left; reflexivity].
    right. exists d. apply find_setting_In in E. destruct E as [Hin Ht].
    apply govDiscounts_In in Hin. destruct Hin as [Hin Hact].
    split; [exact Hin|]. split; [exact Hact|].
    split; [right; repeat split; exact Ht|]. rewrite Ht. reflexivity.
Qed.

(** The membership step yields the discount of one applied entry, a
    discount that is not positive and is not listed, or nothing. *)
Lemma membership_step_cases (p : Params) (db : Db) (g : Q) :
  (membership_step p db g = (0, [])) \/
  (exists t,
     In t (membership_tiers db) /\ tier_is_active t = true /\
     membershipTierId p = Some (tier_id t) /\
     let m := (subtotal p - g) * (tier_discount_percentage t / 100) in
     (0 < m /\
      membership_step p db g
      = (m, [mkApplied "membership" (tier_name t)
                       (tier_discount_percentage t) m])) \/
     (m <= 0 /\ membership_step p db g = (m, []))).
Proof.
  unfold membership_step.
  destruct (membershipTierId p) as [id|]; [|left; reflexivity].
  destruct (Js.truthyS id); [|left; reflexivity].
  destruct (active_tiers db id) as [|t rest] eqn:E; [left; reflexivity|].
  right. exists t.
  assert (Hin : In t (active_tiers db id)) by (rewrite E; left; reflexivity).
  unfold active_tiers in Hin. apply filter_In in Hin.
  destruct Hin as [Hin Ht]. apply andb_true_iff in Ht. destruct Ht as [Hid Hact].
  apply String.eqb_eq in Hid.
  split; [exact Hin|]. split; [exact Hact|]. split; [rewrite Hid; reflexivity|].
  cbv zeta. unfold Js.Qgtb.
  destruct (Js.Qltb 0 _) eqn:Ecmp.
  - left. split; [apply Qltb_true; exact Ecmp|reflexivity].
  - right. split; [apply Qltb_false; exact Ecmp|reflexivity].
Qed.

(** X13. The discounts stay within the subtotal.  When the subtotal is
    not negative and the percentages of the discount settings and of the
    membership tiers lie between 0 and 100, the government discount and
    the membership discount are not negative, together they do not
    exceed the subtotal, and the amounts of the applied discounts listed
    add up to their sum. *)
Theorem calculateDiscounts_bounded (p : Params) (db : Db) :
  0 <= subtotal p ->
  Forall (fun d => 0 <= percentage d /\ percentage d <= 100)
         (discount_settings db) ->
  Forall (fun t => 0 <= tier_discount_percentage t /\
                   tier_discount_percentage t <= 100)
         (membership_tiers db) ->
  let r := calculateDiscounts p db in
  0 <= governmentDiscount r /\
  0 <= membershipDiscount r /\
  governmentDiscount r + membershipDiscount r <= subtotal p /\
  Spec.sum_Q (map applied_amount (appliedDiscounts r))
    == governmentDiscount r + membershipDiscount r.
Proof.
  intros Hs Hd Ht. cbv zeta. unfold calculateDiscounts.
  rewrite Forall_forall in Hd, Ht.
  assert (Hg : exists g v ga,
             government_step p db = (g, v, ga) /\ 0 <= g /\ g <= subtotal p /\
             Spec.sum_Q (map applied_amount ga) == g).
  { destruct (government_step_cases p db) as [E|[d [Hin [_ [_ E]]]]];
      rewrite E.
    - exists 0, false, []. split; [reflexivity|].
      unfold Spec.sum_Q. simpl. repeat split; lra.
    - destruct (Hd d Hin) as [H0 H100].
      destruct (percentage_of_bounds (subtotal p) (percentage d) Hs H0 H100)
        as [B1 B2].
      eexists. eexists. eexists. split; [reflexivity|].
      split; [exact B1|]. split; [exact B2|].
      unfold Spec.sum_Q. simpl. lra. }
  destruct Hg as [g [v [ga [Eg [Hg0 [Hg1 Hgs]]]]]]. rewrite Eg.
  assert (Hm : exists m ma,
             membership_step p db g = (m, ma) /\ 0 <= m /\
             m <= subtotal p - g /\
             Spec.sum_Q (map applied_amount ma) == m).
  { destruct (membership_step_cases p db g)
      as [E|[t [Hin [_ [_ [[Hpos E]|[Hneg E]]]]]]]; rewrite E.
    - exists 0, []. split; [reflexivity|].
      unfold Spec.sum_Q. simpl. repeat split; lra.
    - destruct (Ht t Hin) as [H0 H100].
      assert (Hbase : 0 <= subtotal p - g) by lra.
      destruct (percentage_of_bounds (subtotal p - g)
                  (tier_discount_percentage t) Hbase H0 H100) as [B1 B2].
      eexists. eexists. split; [reflexivity|].
      split; [exact B1|]. split; [exact B2|].
      unfold Spec.sum_Q. simpl. lra.
    - destruct (Ht t Hin) as [H0 H100].
      assert (Hbase : 0 <= subtotal p - g) by lra.
      destruct (percentage_of_bounds (subtotal p - g)
                  (tier_discount_percentage t) Hbase H0 H100) as [B1 B2].
      eexists. eexists. split; [reflexivity|].
      split; [exact B1|]. split; [exact B2|].
      unfold Spec.sum_Q. simpl. lra. }
  destruct Hm as [m [ma [Em [Hm0 [Hm1 Hms]]]]]. rewrite Em.
  cbn [governmentDiscount membershipDiscount appliedDiscounts].
  split; [exact Hg0|]. split; [exact Hm0|]. split; [lra|].
  rewrite map_app. unfold Spec.sum_Q in *. rewrite fold_right_app.
  assert (Hfold : forall (l : list Q) (z : Q),
             fold_right Qplus z l == fold_right Qplus 0 l + z).
  { induction l as [|x l IH]; intro z; simpl; [ring|]. rewrite IH. ring. }
  rewrite Hfold, Hgs, Hms. ring.
Qed.

(** X14. Where the applied discounts come from.  Every government
    discount listed comes from an active discount setting of the kind the
    request is flagged for (senior citizen first), with the name and the
    percentage of that setting, an amount of that percentage of the
    subtotal, and its VAT exemption as the exemption of the result; every
    membership discount listed comes from the active tier of the request
    and is positive.  Without a flag there is no government discount and
    no VAT exemption, and a VAT exemption is granted only with a
    government discount listed. *)
Theorem calculateDiscounts_sources (p : Params) (db : Db) :
  let r := calculateDiscounts p db in
  (forall a, In a (appliedDiscounts r) ->
     (exists d,
        In d (discount_settings db) /\ setting_is_active d = true /\
        ((discount_type d = "senior_citizen" /\ isSeniorCitizen p = true) \/
         (discount_type d = "pwd" /\ isSeniorCitizen p = false /\
          isPwd p = true)) /\
        a = mkApplied (discount_type d) (setting_name d) (percentage d)
                      (subtotal p * (percentage d / 100)) /\
        governmentDiscount r = applied_amount a /\
        isVatExempt r = is_vat_exempt d) \/
     (exists t,
        In t (membership_tiers db) /\ tier_is_active t = true /\
        membershipTierId p = Some (tier_id t) /\
        a = mkApplied "membership" (tier_name t) (tier_discount_percentage t)
                      (membershipDiscount r) /\
        0 < membershipDiscount r)) /\
  (isSeniorCitizen p = false -> isPwd p = false ->
   governmentDiscount r = 0 /\ isVatExempt r = false) /\
  (isVatExempt r = true ->
   exists a, In a (appliedDiscounts r) /\ Spec.is_government a = true).
Proof.
  cbv zeta. unfold calculateDiscounts.
  destruct (government_step_cases p db) as [Eg|[d [Hin [Hact [Hkind Eg]]]]];
    rewrite Eg.
  - destruct (membership_step_cases p db 0)
      as [Em|[t [Htin [Htact [Hid [[Hpos Em]|[Hneg Em]]]]]]]; rewrite Em;
      cbn [appliedDiscounts governmentDiscount membershipDiscount isVatExempt
           app].
    + split; [intros a []|]. split; [intros; split; reflexivity|discriminate].
    + split; [|split; [intros; split; reflexivity|discriminate]].
      intros a [<-|[]]. right. exists t. repeat split; assumption.
    + split; [intros a []|]. split; [intros; split; reflexivity|discriminate].
  - set (g := subtotal p * (percentage d / 100)) in *.
    assert (Hgov : Spec.is_government
                     (mkApplied (discount_type d) (setting_name d)
                                (percentage d) g) = true).
    { unfold Spec.is_government. cbn [applied_type].
      destruct Hkind as [[-> _]|[-> _]]; reflexivity. }
    assert (Hflags : isSeniorCitizen p = false -> isPwd p = false -> False).
    { intros H1 H2. destruct Hkind as [[_ H]|[_ [_ H]]]; congruence. }
    destruct (membership_step_cases p db g)
      as [Em|[t [Htin [Htact [Hid [[Hpos Em]|[Hneg Em]]]]]]]; rewrite Em;
      cbn [appliedDiscounts governmentDiscount membershipDiscount isVatExempt
           app].
    + split; [|split].
      * intros a [<-|[]]. left. exists d. repeat split; assumption.
      * intros H1 H2. destruct (Hflags H1 H2).
      * intros _. eexists. split; [left; reflexivity|exact Hgov].
    + split; [|split].
      * intros a [<-|[<-|[]]].
        -- left. exists d. repeat split; assumption.
        -- right. exists t. repeat split; assumption.
      * intros H1 H2. destruct (Hflags H1 H2).
      * intros _. eexists. split; [left; reflexivity|exact Hgov].
    + split; [|split].
      * intros a [<-|[]]. left. exists d. repeat split; assumption.
      * intros H1 H2. destruct (Hflags H1 H2).
      * intros _. eexists. split; [left; reflexivity|exact Hgov].
Qed.

End DiscountBounds.

(** Witness of [calculateDiscounts_bounded]: a senior citizen of the
    Silver tier, on a subtotal of 200. *)
Lemma calculateDiscounts_bounded_witness :
  0 <= Discounts.governmentDiscount (Discounts.calculateDiscounts both_flags db0) /\
  0 <= Discounts.membershipDiscount (Discounts.calculateDiscounts both_flags db0) /\
  Discounts.governmentDiscount (Discounts.calculateDiscounts both_flags db0)
  + Discounts.membershipDiscount (Discounts.calculateDiscounts both_flags db0)
    <= 200.
Proof.
  destruct (calculateDiscounts_bounded both_flags db0) as [A [B [C _]]].
  - vm_compute. discriminate.
  - repeat constructor; vm_compute; discriminate.
  - repeat constructor; vm_compute; discriminate.
  - split; [exact A|]. split; [exact B|exact C].
Defined.
Section PromotionExtras.
Import Promotions.

(** The loop reads the coupon only through [coupon_matches]. *)
Lemma promotions_loop_coupon_ext (params : Params) (cc : option string)
    (subtotal : Q) (promos applicable : list Promotion) (totalDiscount : Q) :
  (forall p, In p promos ->
     coupon_matches cc p = coupon_matches (couponCode params) p) ->
  promotions_loop (Carts.with_couponCode cc params) subtotal promos applicable
                  totalDiscount
  = promotions_loop params subtotal promos applicable totalDiscount.
Proof.
  revert applicable totalDiscount.
  induction promos as [|promo rest IH]; intros applicable totalDiscount H;
    [reflexivity|].
  cbn [promotions_loop Carts.with_couponCode couponCode items customerId
       membershipTierId].
  rewrite (H promo (or_introl eq_refl)).
  assert (Hrest : forall a t,
             promotions_loop (Carts.with_couponCode cc params) subtotal rest a t
             = promotions_loop params subtotal rest a t).
  { intros a t. apply IH. intros p Hp. apply H. right. exact Hp. }
  rewrite !Hrest. reflexivity.
Qed.

Lemma toUpperCase_truthy (s : string) :
  Js.truthyS (Js.toUpperCase s) = Js.truthyS s.
Proof. destruct s; reflexivity. Qed.

(** Two coupon codes that are equal in upper case give the same
    applicable promotions and the same discount amount. *)
Lemma checkApplicable_coupon_case_insensitive (now : Z) (params : Params)
    (db : Db) (cc1 cc2 : string) :
  Js.toUpperCase cc1 = Js.toUpperCase cc2 ->
  checkApplicable now (Carts.with_couponCode (Some cc1) params) db
  = checkApplicable now (Carts.with_couponCode (Some cc2) params) db.
Proof.
  intro H. unfold checkApplicable.
  cbn [Carts.with_couponCode items].
  assert (Hext : forall promos a t,
            promotions_loop (Carts.with_couponCode (Some cc1) params)
              (cart_subtotal (items params)) promos a t
            = promotions_loop (Carts.with_couponCode (Some cc2) params)
                (cart_subtotal (items params)) promos a t).
  { intros promos a t.
    change (Carts.with_couponCode (Some cc1) params)
      with (Carts.with_couponCode (Some cc1)
              (Carts.with_couponCode (Some cc2) params)).
    apply promotions_loop_coupon_ext. intros p _.
    cbn [Carts.with_couponCode couponCode]. unfold coupon_matches.
    destruct (promo_code p) as [pc|]; [|reflexivity].
    rewrite <- (toUpperCase_truthy cc1), <- (toUpperCase_truthy cc2), H.
    reflexivity. }
  rewrite Hext. reflexivity.
Qed.

Lemma activePromotions_In (now : Z) (db : Db) (p : Promotion) :
  In p (activePromotions now db) <->
  In p (promotions db) /\ active_promotion now p = true.
Proof.
  unfold activePromotions, mapPromotion. rewrite map_id.
  rewrite <- filter_In.
  split; intro H.
  - exact (Permutation_in _ (order_by_priority_desc_perm _) H).
  - exact (Permutation_in _ (Permutation_sym (order_by_priority_desc_perm _)) H).
Qed.

(** A coupon code that is the code of no active promotion gives the
    result of the same request without a coupon code. *)
Lemma checkApplicable_unmatched_coupon (now : Z) (params : Params) (db : Db)
    (cc : string) :
  (forall p, In p (promotions db) -> active_promotion now p = true ->
             coupon_matches (Some cc) p = false) ->
  checkApplicable now (Carts.with_couponCode (Some cc) params) db
  = checkApplicable now (Carts.with_couponCode None params) db.
Proof.
  intro H. unfold checkApplicable.
  cbn [Carts.with_couponCode items].
  change (Carts.with_couponCode (Some cc) params)
    with (Carts.with_couponCode (Some cc) (Carts.with_couponCode None params)).
  rewrite promotions_loop_coupon_ext; [reflexivity|].
  intros p Hp. apply activePromotions_In in Hp. destruct Hp as [Hin Hact].
  rewrite (H p Hin Hact).
  cbn [Carts.with_couponCode couponCode coupon_matches]. reflexivity.
Qed.

(** X15. What a coupon code can change.  Whatever the store and the
    cart, two coupon codes that are equal in upper case give the same
    applicable promotions and the same discount amount; and a coupon
    code that is the code of no active promotion (in upper case) gives
    the applicable promotions and the discount amount of the same
    request without a coupon code. *)
Theorem checkApplicable_coupon (now : Z) (params : Params) (db : Db)
    (cc1 cc2 : string) :
  (Js.toUpperCase cc1 = Js.toUpperCase cc2 ->
   checkApplicable now (Carts.with_couponCode (Some cc1) params) db
   = checkApplicable now (Carts.with_couponCode (Some cc2) params) db) /\
  ((forall p, In p (promotions db) -> active_promotion now p = true ->
              coupon_matches (Some cc1) p = false) ->
   checkApplicable now (Carts.with_couponCode (Some cc1) params) db
   = checkApplicable now (Carts.with_couponCode None params) db).
Proof.
  split.
  - apply checkApplicable_coupon_case_insensitive.
  - apply checkApplicable_unmatched_coupon.
Qed.

End PromotionExtras.
Section PromotionAmounts.
Import Promotions.

Lemma buy_x_get_y_loop_nonneg (promo : Promotion) (b g : Z)
    (items : list CartItem) (discount : Q) :
  (0 < b + g)%Z -> (0 <= g)%Z -> Forall Carts.item_nonneg items ->
  0 <= discount -> 0 <= buy_x_get_y_loop promo b g items discount.
Proof.
  intros Hbg Hg Hall. revert discount.
  induction Hall as [|item rest [Hq Hp] _ IH]; intros discount Hd;
    [exact Hd|].
  cbn [buy_x_get_y_loop]. destruct (item_eligible promo item); [|exact (IH _ Hd)].
  apply IH. rewrite Qfloor_div by lia.
  assert (H1 : (0 <= quantity item / (b + g))%Z) by (apply Z.div_pos; lia).
  assert (H2 : 0 <= inject_Z (quantity item / (b + g)))
    by (rewrite <- (Zle_Qle 0); exact H1).
  assert (H3 : 0 <= inject_Z g) by (rewrite <- (Zle_Qle 0); exact Hg).
  assert (H4 : 0 <= inject_Z (quantity item / (b + g)) * inject_Z g)
    by (apply Qmult_le_0_compat; assumption).
  assert (H5 : 0 <= inject_Z (quantity item / (b + g)) * inject_Z g * price item)
    by (apply Qmult_le_0_compat; assumption).
  lra.
Qed.

(** X16. The range of a promotion's discount.  For a cart of
    non-negative prices and quantities and a non-negative subtotal, a
    promotion whose value, quantities and cap are not negative gives a
    discount that is not negative and, when a non-zero cap is
    configured, not above the cap. *)
Theorem calculateDiscount_range (promo : Promotion) (items : list CartItem)
    (subtotal : Q) :
  0 <= subtotal ->
  0 <= discount_value promo ->
  Forall Carts.item_nonneg items ->
  (forall b, buy_quantity promo = Some b -> (0 <= b)%Z) ->
  (forall g, get_quantity promo = Some g -> (0 <= g)%Z) ->
  (forall cap, max_discount_amount promo = Some cap -> 0 <= cap) ->
  0 <= calculateDiscount promo items subtotal /\
  (forall cap, max_discount_amount promo = Some cap -> ~ cap == 0 ->
               calculateDiscount promo items subtotal <= cap).
Proof.
  intros Hs Hv Hitems Hb Hg Hcap.
  assert (Hd : 0 <= discount_by_type promo items subtotal).
  { unfold discount_by_type.
    destruct (String.eqb (promotion_type promo) "percentage").
    - assert (0 <= discount_value promo / 100)
        by (apply Qle_shift_div_l; [reflexivity|lra]).
      apply Qmult_le_0_compat; assumption.
    - destruct (String.eqb (promotion_type promo) "fixed_amount"); [exact Hv|].
      destruct (String.eqb (promotion_type promo) "buy_x_get_y"); [|lra].
      destruct (buy_quantity promo) as [b|] eqn:Eb; [|lra].
      destruct (get_quantity promo) as [g|] eqn:Eg; [|lra].
      destruct (Js.truthyZ b) eqn:Etb; [|cbn [andb]; lra].
      destruct (Js.truthyZ g) eqn:Etg; [|cbn [andb]; lra].
      cbn [andb]. apply truthyZ_true in Etb, Etg.
      pose proof (Hb b eq_refl). pose proof (Hg g eq_refl).
      apply buy_x_get_y_loop_nonneg; try lia; try assumption. lra. }
  unfold calculateDiscount.
  destruct (max_discount_amount promo) as [cap|] eqn:Ecap.
  - pose proof (Hcap cap eq_refl) as Hc.
    destruct (Js.truthyQ cap) eqn:Et; cbn [andb].
    + unfold Js.Qgtb. destruct (Js.Qltb cap _) eqn:Ecmp.
      * split; [exact Hc|]. intros c E _. injection E as <-. lra.
      * apply Qltb_false in Ecmp. split; [exact Hd|].
        intros c E _. injection E as <-. exact Ecmp.
    + split; [exact Hd|]. intros c E Hne. injection E as <-.
      apply truthyQ_false in Et. contradiction.
  - split; [exact Hd|]. intros c E. discriminate E.
Qed.

Lemma cart_subtotal_fold_le (more : list CartItem) (z : Q) :
  Forall Carts.item_nonneg more ->
  z <= fold_left (fun sum item => sum + price item * inject_Z (quantity item))
                 more z.
Proof.
  intro Hall. revert z.
  induction Hall as [|item rest [Hq Hp] _ IH]; intro z; [simpl; lra|].
  cbn [fold_left].
  assert (H : 0 <= price item * inject_Z (quantity item)).
  { apply Qmult_le_0_compat; [exact Hp|].
    rewrite <- (Zle_Qle 0). exact Hq. }
  specialize (IH (z + price item * inject_Z (quantity item))). lra.
Qed.

(** X17. Adding to the cart keeps a promotion.  A promotion that
    matches a request (it is considered for the coupon code of the
    request and its conditions hold on the cart) still matches when
    items of non-negative price and quantity are added to the cart. *)
Theorem matches_cart_monotone (params : Params) (more : list CartItem)
    (promo : Promotion) :
  Forall Carts.item_nonneg more ->
  Spec.matches params promo = true ->
  Spec.matches (Carts.with_more more params) promo = true.
Proof.
  intros Hmore H. unfold Spec.matches, Spec.considered in *.
  cbn [Carts.with_more couponCode items customerId membershipTierId].
  apply andb_true_iff in H. destruct H as [Hc Hk].
  rewrite Hc. cbn [andb].
  assert (Hsub : cart_subtotal (items params)
                 <= cart_subtotal (items params ++ more)).
  { unfold cart_subtotal. rewrite fold_left_app.
    apply cart_subtotal_fold_le. exact Hmore. }
  unfold checkPromotionConditions in *.
  destruct (Js.truthyOptQ (min_purchase_amount promo)); cbn [andb] in *.
  - destruct (Js.Qltb (cart_subtotal (items params)) _) eqn:E1;
      [discriminate Hk|].
    apply Qltb_false in E1.
    assert (E2 : Js.Qltb (cart_subtotal (items params ++ more))
                         (Js.orQ (min_purchase_amount promo) 0) = false)
      by (apply Qltb_false; lra).
    rewrite E2.
    destruct (String.eqb (target_type promo) "products");
      [|destruct (String.eqb (target_type promo) "categories")];
      try exact Hk;
      match goal with
      | |- context [nonempty_list ?l] =>
          destruct (nonempty_list l); [|exact Hk]
      end;
      rewrite existsb_app;
      match type of Hk with
      | context [existsb ?f (items params)] =>
          destruct (existsb f (items params)); [exact Hk|discriminate Hk]
      end.
  - destruct (String.eqb (target_type promo) "products");
      [|destruct (String.eqb (target_type promo) "categories")];
      try exact Hk;
      match goal with
      | |- context [nonempty_list ?l] =>
          destruct (nonempty_list l); [|exact Hk]
      end;
      rewrite existsb_app;
      match type of Hk with
      | context [existsb ?f (items params)] =>
          destruct (existsb f (items params)); [exact Hk|discriminate Hk]
      end.
Qed.

End PromotionAmounts.

(** Witness of [checkApplicable_coupon]: the code "save" in another
    case, and a code that no promotion carries. *)
Lemma checkApplicable_coupon_witness :
  Promotions.checkApplicable 50 (Carts.with_couponCode (Some "save") coupon_request)
                             db0
  = Promotions.checkApplicable 50
      (Carts.with_couponCode (Some "SaVe") coupon_request) db0 /\
  Promotions.checkApplicable 50 (Carts.with_couponCode (Some "nope") coupon_request)
                             db0
  = Promotions.checkApplicable 50 (Carts.with_couponCode None coupon_request) db0.
Proof.
  split.
  - apply (proj1 (checkApplicable_coupon 50 coupon_request db0 "save" "SaVe")).
    reflexivity.
  - apply (proj2 (checkApplicable_coupon 50 coupon_request db0 "nope" "nope")).
    intros p Hp _. simpl in Hp.
    destruct Hp as [<-|[<-|[]]]; reflexivity.
Defined.

(** Witness of [calculateDiscount_range]: 10% of 200, capped at 15. *)
Lemma calculateDiscount_range_witness :
  0 <= Promotions.calculateDiscount stack_promo [cart_item "p-rice" 2 100] 200 /\
  Promotions.calculateDiscount stack_promo [cart_item "p-rice" 2 100] 200 <= 15.
Proof.
  destruct (calculateDiscount_range stack_promo [cart_item "p-rice" 2 100] 200)
    as [A B].
  - vm_compute. discriminate.
  - vm_compute. discriminate.
  - repeat constructor; vm_compute; discriminate.
  - intros b E. discriminate E.
  - intros g E. discriminate E.
  - intros cap E. injection E as <-. vm_compute. discriminate.
  - split; [exact A|]. apply B; [reflexivity|]. intro E. discriminate E.
Defined.

(** Witness of [matches_cart_monotone]: the house promotion, on the
    small cart and on the cart with a bottle of water added. *)
Lemma matches_cart_monotone_witness :
  Spec.matches (Carts.with_more [cart_item "p-water" 1 100] coupon_request)
               house_promo = true.
Proof.
  apply (matches_cart_monotone coupon_request [cart_item "p-water" 1 100]
           house_promo).
  - repeat constructor; vm_compute; discriminate.
  - reflexivity.
Defined.

(* ================================================================== *)
(** ** Promotions: maintenance and usage *)
(* ================================================================== *)

Section PromotionMaintenance.
Import Promotions.

(** What the loop applies is among the promotions it is given. *)
Lemma applicable_In (now : Z) (params : Params) (db : Db) (p : Promotion) :
  In p (applicable (checkApplicable now params db)) ->
  In p (promotions db) /\ active_promotion now p = true.
Proof.
  intro H. unfold checkApplicable in H.
  pose proof (promotions_loop_spec params (activePromotions now db) [] 0) as Hs.
  cbv zeta in Hs. destruct Hs as [Hs _].
  destruct (promotions_loop _ _ _ _ _) as [a t]. cbn [fst applicable] in *.
  rewrite Hs in H. cbn [app] in H.
  apply through_first_incl in H. apply filter_In in H.
  apply activePromotions_In. exact (proj1 H).
Qed.

Lemma getActive_In (now : Z) (db : Db) (p : Promotion) :
  In p (PromotionAdmin.getActive now db) <->
  In p (promotions db) /\
  (promo_is_active p && (start_date p <=? now)%Z && (now <=? end_date p)%Z)%bool
  = true.
Proof.
  unfold PromotionAdmin.getActive, mapPromotion. rewrite map_id.
  set (f := fun r => (promo_is_active r && (start_date r <=? now)%Z &&
                      (now <=? end_date r)%Z)%bool).
  change ((promo_is_active p && (start_date p <=? now)%Z &&
           (now <=? end_date p)%Z)%bool) with (f p).
  rewrite <- filter_In.
  split; intro H.
  - exact (Permutation_in _ (order_by_priority_desc_perm _) H).
  - exact (Permutation_in _ (Permutation_sym (order_by_priority_desc_perm _)) H).
Qed.

(** Every promotion [checkApplicable] applies is one of the promotions
    [getActive] lists at the same time, and is below its usage limit
    when it has one; [getActive] itself does not look at the usage
    limit. *)
Lemma checkApplicable_within_getActive (now : Z) (params : Params) (db : Db)
    (p : Promotion) :
  In p (applicable (checkApplicable now params db)) ->
  In p (PromotionAdmin.getActive now db) /\
  (forall lim, usage_limit p = Some lim -> (current_usage p < lim)%Z).
Proof.
  intro H. apply applicable_In in H. destruct H as [Hin Hact].
  unfold active_promotion in Hact.
  apply andb_true_iff in Hact. destruct Hact as [Hact Hlim].
  split.
  - apply getActive_In. split; [exact Hin|exact Hact].
  - intros lim E. rewrite E in Hlim. apply Z.ltb_lt. exact Hlim.
Qed.

(** X18. Recording the last use.  [recordUsage] appends one usage row
    and counts one more use on every promotion row of the identifier,
    leaving the other promotions as they are; when that brings a
    promotion to its usage limit, no request is given that promotion
    any more. *)
Theorem recordUsage_exhausts (now : Z) (params : Params)
    (st : Db * list PromotionAdmin.UsageRow) (promotionId : string)
    (customerId : option string) (saleId : nat) (amount : Q) :
  (forall r, In r (promotions (fst st)) -> promo_id r = promotionId ->
             exists lim, usage_limit r = Some lim /\
                         (lim <= current_usage r + 1)%Z) ->
  let st' := PromotionAdmin.recordUsage promotionId customerId saleId amount st in
  snd st' = (snd st ++ [PromotionAdmin.mkUsageRow promotionId customerId saleId
                                                  amount])%list /\
  Forall2 (fun r r' =>
             if String.eqb (promo_id r) promotionId
             then current_usage r' = (current_usage r + 1)%Z /\
                  promo_id r' = promo_id r /\ usage_limit r' = usage_limit r
             else r' = r)
          (promotions (fst st)) (promotions (fst st')) /\
  (forall p, In p (applicable (checkApplicable now params (fst st'))) ->
             promo_id p <> promotionId).
Proof.
  intro Hlim. cbv zeta. unfold PromotionAdmin.recordUsage. cbn [fst snd].
  split; [reflexivity|].
  assert (Hrows : Forall2 (fun r r' =>
             if String.eqb (promo_id r) promotionId
             then current_usage r' = (current_usage r + 1)%Z /\
                  promo_id r' = promo_id r /\ usage_limit r' = usage_limit r
             else r' = r)
          (promotions (fst st))
          (promotions (PromotionAdmin.count_usage promotionId (fst st)))).
  { unfold PromotionAdmin.count_usage. cbn [promotions].
    apply Forall2_same_map. intro r.
    destruct (String.eqb (promo_id r) promotionId); [|reflexivity].
    cbn. repeat split. }
  split; [exact Hrows|].
  intros p Hp Hid. apply applicable_In in Hp. destruct Hp as [Hin Hact].
  destruct (Forall2_In_r _ _ _ _ Hrows Hin) as [r [Hr HR]].
  destruct (String.eqb (promo_id r) promotionId) eqn:E.
  - destruct HR as [Hu [_ Hl]].
    apply String.eqb_eq in E. destruct (Hlim r Hr E) as [lim [El Hle]].
    unfold active_promotion in Hact. rewrite Hl, El in Hact.
    apply andb_true_iff in Hact. destruct Hact as [_ Hact].
    apply Z.ltb_lt in Hact. lia.
  - subst p. apply String.eqb_neq in E. contradiction.
Qed.

Lemma upper_ascii_idempotent (c : ascii) :
  Js.upper_ascii (Js.upper_ascii c) = Js.upper_ascii c.
Proof.
  destruct c as [[] [] [] [] [] [] [] []]; reflexivity.
Qed.

Lemma toUpperCase_idempotent (s : string) :
  Js.toUpperCase (Js.toUpperCase s) = Js.toUpperCase s.
Proof.
  induction s as [|c s IH]; simpl; [reflexivity|].
  rewrite upper_ascii_idempotent, IH. reflexivity.
Qed.

Lemma NoDup_snoc {A} (l : list A) (x : A) :
  NoDup l -> ~ In x l -> NoDup (l ++ [x]).
Proof.
  induction 1 as [|a l Ha _ IH]; intro Hx; simpl.
  - constructor; [intros []|constructor].
  - constructor.
    + intro Hin. apply in_app_or in Hin. destruct Hin as [Hin|[->|[]]].
      * exact (Ha Hin).
      * apply Hx. left. reflexivity.
    + apply IH. intro Hin. apply Hx. right. exact Hin.
Qed.

Lemma codes_app (db : Db) (row : PromotionRow) :
  Coupons.codes (PromotionAdmin.insert_promotion row db)
  = (Coupons.codes db ++
     match promo_code row with
     | Some c => [Js.toUpperCase c]
     | None => []
     end)%list.
Proof.
  unfold Coupons.codes, PromotionAdmin.insert_promotion. cbn [promotions].
  rewrite flat_map_app. simpl. rewrite app_nil_r. reflexivity.
Qed.

Lemma code_is_none_not_in (c : string) (db : Db) :
  filter (PromotionAdmin.code_is c) (promotions db) = [] ->
  ~ In (Js.toUpperCase c) (Coupons.codes db).
Proof.
  intros Hnone Hin. unfold Coupons.codes in Hin.
  apply in_flat_map in Hin. destruct Hin as [r [Hr Hc]].
  assert (Hf : In r (filter (PromotionAdmin.code_is c) (promotions db))).
  { apply filter_In. split; [exact Hr|].
    unfold PromotionAdmin.code_is.
    destruct (promo_code r) as [pc|]; [|destruct Hc].
    destruct Hc as [Hc|[]]. rewrite Hc. apply String.eqb_refl. }
  rewrite Hnone in Hf. destruct Hf.
Qed.

(** X19. Creating a promotion with a code.  A promotion that [create]
    accepts is stored with its code trimmed and in upper case (and
    without a code when the code given is blank); in a store where no
    two promotions carry the same code up to case, this still holds
    after the creation; and when the promotion is created active, a
    lookup by its code, in any case, returns it. *)
Theorem create_promotion_code (data : PromotionAdmin.CreatePromotionData)
    (id : string) (db db' : Db) (promo : Promotion) :
  PromotionAdmin.create data id db = (Returned promo, db') ->
  Coupons.distinct db ->
  Coupons.distinct db' /\
  promotions db' = (promotions db ++ [promo])%list /\
  promo_id promo = id /\ current_usage promo = 0%Z /\
  promo_code promo
    = match PromotionAdmin.code data with
      | Some c => if Js.truthyS (PromotionAdmin.trim c)
                  then Some (Js.toUpperCase (PromotionAdmin.trim c))
                  else None
      | None => None
      end /\
  (forall c code,
     promo_code promo = Some c ->
     PromotionAdmin.isActive data <> Some false ->
     Js.toUpperCase code = c ->
     PromotionAdmin.getByCode code db' = Some promo).
Proof.
  intros H Hnd. unfold PromotionAdmin.create in H.
  assert (Hcode : promo_code (PromotionAdmin.new_promotion_row data id)
                  = match PromotionAdmin.code data with
                    | Some c => if Js.truthyS (PromotionAdmin.trim c)
                                then Some (Js.toUpperCase (PromotionAdmin.trim c))
                                else None
                    | None => None
                    end).
  { unfold PromotionAdmin.new_promotion_row, PromotionAdmin.sanitized_code.
    cbn [promo_code].
    destruct (PromotionAdmin.code data) as [c|]; [|reflexivity].
    cbn [Js.orNullS].
    destruct (Js.truthyS (PromotionAdmin.trim c)) eqn:Et; [|reflexivity].
    cbn [Js.orNullS]. rewrite toUpperCase_truthy, Et. reflexivity. }
  assert (Hfresh : forall c, PromotionAdmin.sanitized_code data = Some c ->
                             filter (PromotionAdmin.code_is c) (promotions db) = [] /\
                             promo_code (PromotionAdmin.new_promotion_row data id)
                             = Some (Js.toUpperCase c)).
  { intros c Ec. rewrite Ec in H.
    destruct (filter (PromotionAdmin.code_is c) (promotions db)) as [|x l];
      [|discriminate H].
    split; [reflexivity|].
    unfold PromotionAdmin.new_promotion_row. cbn [promo_code]. rewrite Ec.
    cbn [Js.orNullS]. rewrite toUpperCase_truthy.
    unfold PromotionAdmin.sanitized_code in Ec.
    destruct (PromotionAdmin.code data) as [c0|]; [|discriminate Ec].
    cbn [Js.orNullS] in Ec.
    destruct (Js.truthyS (PromotionAdmin.trim c0)) eqn:Et; [|discriminate Ec].
    injection Ec as <-. rewrite Et. reflexivity. }
  assert (Hres : promo = PromotionAdmin.new_promotion_row data id /\
                 db' = PromotionAdmin.insert_promotion
                         (PromotionAdmin.new_promotion_row data id) db).
  { destruct (PromotionAdmin.sanitized_code data) as [c|].
    - destruct (filter (PromotionAdmin.code_is c) (promotions db)) as [|x l];
        [|discriminate H].
      injection H as <- <-. split; reflexivity.
    - injection H as <- <-. split; reflexivity. }
  destruct Hres as [-> ->].
  split; [|split; [reflexivity|split; [reflexivity|split; [reflexivity|split]]]].
  - unfold Coupons.distinct in *. rewrite codes_app.
    destruct (promo_code (PromotionAdmin.new_promotion_row data id)) as [c|] eqn:Ec;
      [|rewrite app_nil_r; exact Hnd].
    destruct (PromotionAdmin.sanitized_code data) as [c0|] eqn:Es.
    + destruct (Hfresh c0 eq_refl) as [Hnone Hc]. try rewrite Ec in Hc.
      injection Hc as ->. rewrite toUpperCase_idempotent.
      apply NoDup_snoc; [exact Hnd|].
      apply code_is_none_not_in. exact Hnone.
    + unfold PromotionAdmin.new_promotion_row in Ec. cbn [promo_code] in Ec.
      rewrite Es in Ec. discriminate Ec.
  - exact Hcode.
  - intros c code Ec Hact Hup.
    destruct (PromotionAdmin.sanitized_code data) as [c0|] eqn:Es.
    + destruct (Hfresh c0 eq_refl) as [Hnone Hc]. try rewrite Ec in Hc.
      injection Hc as Hc.
      unfold PromotionAdmin.getByCode, PromotionAdmin.insert_promotion.
      cbn [promotions]. rewrite filter_app.
      assert (Hsame : forall r, PromotionAdmin.code_is code r
                                = PromotionAdmin.code_is c0 r).
      { intro r. unfold PromotionAdmin.code_is.
        destruct (promo_code r) as [pc|]; [|reflexivity].
        rewrite Hup, Hc. reflexivity. }
      rewrite (filter_none _ (promotions db)).
      * cbn [filter app]. rewrite Hsame.
        unfold PromotionAdmin.code_is at 1. rewrite Ec, Hc.
        rewrite toUpperCase_idempotent, String.eqb_refl.
        unfold PromotionAdmin.new_promotion_row at 1. cbn [promo_is_active andb].
        destruct (PromotionAdmin.isActive data) as [[|]|];
          try reflexivity. exfalso. apply Hact. reflexivity.
      * intros r Hr. rewrite Hsame.
        destruct (PromotionAdmin.code_is c0 r) eqn:E; [|reflexivity].
        assert (Hf : In r (filter (PromotionAdmin.code_is c0) (promotions db)))
          by (apply filter_In; split; assumption).
        rewrite Hnone in Hf. destruct Hf.
    + unfold PromotionAdmin.new_promotion_row in Ec. cbn [promo_code] in Ec.
      rewrite Es in Ec. discriminate Ec.
Qed.

End PromotionMaintenance.
Section PromotionRemoval.
Import Promotions.

Lemma filter_filter_neg {A} (f : A -> bool) (l : list A) :
  filter f (filter (fun a => negb (f a)) l) = [].
Proof.
  apply filter_none. intros a Ha. apply filter_In in Ha.
  destruct Ha as [_ Ha]. apply negb_true_iff. exact Ha.
Qed.

Lemma filter_filter_same {A} (f : A -> bool) (l : list A) :
  filter f (filter f l) = filter f l.
Proof.
  induction l as [|a l IH]; simpl; [reflexivity|].
  destruct (f a) eqn:E; simpl; [rewrite E, IH; reflexivity|exact IH].
Qed.

Lemma filter_filter_other {A} (f g : A -> bool) (l : list A) :
  (forall a, f a = true -> g a = true) ->
  filter f (filter g l) = filter f l.
Proof.
  intro H. induction l as [|a l IH]; simpl; [reflexivity|].
  destruct (g a) eqn:Eg; simpl.
  - rewrite IH. reflexivity.
  - destruct (f a) eqn:Ef; [|exact IH].
    rewrite (H a Ef) in Eg. discriminate Eg.
Qed.

(** X20. Removing a promotion.  After [remove] has deleted a promotion,
    a lookup of its identifier fails with a NotFound error, a second
    [remove] fails with the same error and changes nothing, every other
    promotion is found as before, and no request is given a promotion
    of that identifier any more. *)
Theorem remove_promotion (id : string) (db db' : Db) :
  PromotionAdmin.remove id db = (Returned tt, db') ->
  PromotionAdmin.getById id db' = Thrown (NotFoundError "Promotion not found") /\
  PromotionAdmin.remove id db'
    = (Thrown (NotFoundError "Promotion not found"), db') /\
  (forall id', id' <> id ->
     PromotionAdmin.getById id' db' = PromotionAdmin.getById id' db) /\
  (forall now params p,
     In p (applicable (checkApplicable now params db')) -> promo_id p <> id).
Proof.
  unfold PromotionAdmin.remove.
  destruct (filter (fun r => String.eqb (promo_id r) id) (promotions db))
    as [|x l]; [discriminate|].
  intro H. injection H as <-.
  split; [|split; [|split]].
  - unfold PromotionAdmin.getById. cbn [promotions].
    rewrite filter_filter_neg. reflexivity.
  - cbn [promotions products membership_tiers customers users
         discount_settings sales sale_items sale_payments sale_discounts
         stock_movements loyalty_points_history].
    rewrite filter_filter_neg, filter_filter_same. reflexivity.
  - intros id' Hne. unfold PromotionAdmin.getById. cbn [promotions].
    rewrite filter_filter_other; [reflexivity|].
    intros a Ha. apply String.eqb_eq in Ha. apply negb_true_iff.
    apply String.eqb_neq. congruence.
  - intros now params p Hp. apply applicable_In in Hp.
    destruct Hp as [Hin _]. cbn [promotions] in Hin.
    apply filter_In in Hin. destruct Hin as [_ Hin].
    apply negb_true_iff in Hin. apply String.eqb_neq. exact Hin.
Qed.

End PromotionRemoval.

(** [checkApplicable_within_getActive] on the house promotion. *)
Lemma checkApplicable_within_getActive_example :
  In house_promo (PromotionAdmin.getActive 50 db0).
Proof.
  apply (checkApplicable_within_getActive 50 coupon_request db0 house_promo).
  vm_compute. left. reflexivity.
Defined.

(** Witness of [recordUsage_exhausts]: the promotion that can be used
    once, after its use is recorded. *)
Lemma recordUsage_exhausts_witness :
  Forall (fun p => promo_id p <> "promo-once")
         (Promotions.applicable
            (Promotions.checkApplicable 50 coupon_request
               (fst (PromotionAdmin.recordUsage "promo-once" None 0 5
                       (MoreExamples.db_once, []))))).
Proof.
  edestruct (recordUsage_exhausts 50 coupon_request (MoreExamples.db_once, [])
               "promo-once" None 0%nat 5) as [_ [_ A]].
  - intros r Hr Hid. simpl in Hr. destruct Hr as [<-|[<-|[]]].
    + exists 1%Z. split; [reflexivity|]. simpl. lia.
    + discriminate Hid.
  - apply Forall_forall. exact A.
Defined.

(** Witness of [create_promotion_code]: the code [" summer "] is stored
    as ["SUMMER"] and found again as ["Summer"]. *)
Lemma create_promotion_code_witness :
  exists promo,
    fst (PromotionAdmin.create MoreExamples.summer "promo-summer" db0)
      = Returned promo /\
    promo_code promo = Some "SUMMER" /\
    PromotionAdmin.getByCode "Summer"
      (snd (PromotionAdmin.create MoreExamples.summer "promo-summer" db0))
    = Some promo.
Proof.
  edestruct (create_promotion_code MoreExamples.summer "promo-summer" db0)
    as [_ [_ [_ [_ [A B]]]]].
  - vm_compute. reflexivity.
  - unfold Coupons.distinct. vm_compute.
    repeat constructor. intros [].
  - eexists. split; [vm_compute; reflexivity|].
    split; [exact A|].
    apply (B "SUMMER" "Summer"); [exact A|discriminate|reflexivity].
Defined.

(** Witness of [remove_promotion]. *)
Lemma remove_promotion_witness :
  PromotionAdmin.getById "promo-house"
    (snd (PromotionAdmin.remove "promo-house" db0))
  = Thrown (NotFoundError "Promotion not found").
Proof.
  edestruct (remove_promotion "promo-house" db0) as [A _].
  - vm_compute. reflexivity.
  - exact A.
Defined.

(* ================================================================== *)
(** ** Products and inventory: manual changes of stock *)
(* ================================================================== *)

Section StockFacts.
Import Sales.

Lemma select_product_set_stock (id' id : string) (stock : Z) (db : Db) :
  select_product id' (Products.set_stock stock id db)
  = map (fun p => if String.eqb (product_id p) id
                  then set_current_stock p stock else p)
        (select_product id' db).
Proof.
  unfold select_product, Products.set_stock. simpl.
  apply filter_map_comm.
  intro p. destruct (String.eqb (product_id p) id); reflexivity.
Qed.

Lemma set_stock_nonneg (id' id : string) (stock : Z) (db : Db) :
  (0 <= stock)%Z -> Ledger.stock_nonneg id' db ->
  Ledger.stock_nonneg id' (Products.set_stock stock id db).
Proof.
  intros Hs Hinv p' others' Hsel Htr.
  rewrite select_product_set_stock in Hsel.
  destruct (select_product id' db) as [|p rest] eqn:E; [discriminate|].
  simpl in Hsel. injection Hsel as <- _.
  destruct (String.eqb (product_id p) id).
  - simpl. exact Hs.
  - exact (Hinv p rest E Htr).
Qed.

Lemma set_stock_ids (stock : Z) (id : string) (db : Db) :
  map product_id (products (Products.set_stock stock id db))
  = map product_id (products db).
Proof.
  unfold Products.set_stock. simpl. rewrite map_map. apply map_ext.
  intro p. destruct (String.eqb (product_id p) id); reflexivity.
Qed.

Lemma NoDup_map_inj {A B} (f : A -> B) (l : list A) (a b : A) :
  NoDup (map f l) -> In a l -> In b l -> f a = f b -> a = b.
Proof.
  induction l as [|x l IH]; intros Hnd Ha Hb E; [destruct Ha|].
  simpl in Hnd. inversion Hnd as [|k ks Hnotin Hnd' Ek]. subst.
  destruct Ha as [->|Ha], Hb as [->|Hb].
  - reflexivity.
  - exfalso. apply Hnotin. rewrite E. apply in_map. exact Hb.
  - exfalso. apply Hnotin. rewrite <- E. apply in_map. exact Ha.
  - exact (IH Hnd' Ha Hb E).
Qed.

(** With unique product identifiers, setting the stock of the selected
    product to its stock plus a quantity shifts the stock of that
    product by the quantity. *)
Lemma set_stock_shift (id : string) (q : Z) (db : Db) (p : Product)
    (others : list Product) :
  NoDup (map product_id (products db)) ->
  select_product id db = p :: others ->
  products (Products.set_stock (current_stock p + q)%Z id db)
  = map (Spec.shift_stock (fun x => if String.eqb x id then q else 0%Z))
        (products db).
Proof.
  intros Hnd Hsel. unfold Products.set_stock. simpl.
  assert (Hp : In p (products db) /\ product_id p = id).
  { assert (Hin : In p (select_product id db)) by (rewrite Hsel; left; reflexivity).
    unfold select_product in Hin. apply filter_In in Hin.
    destruct Hin as [Hin Hb]. apply andb_true_iff in Hb.
    split; [exact Hin|]. apply String.eqb_eq. exact (proj1 Hb). }
  destruct Hp as [Hin Hid].
  apply map_ext_in. intros r Hr. unfold Spec.shift_stock.
  destruct (String.eqb (product_id r) id) eqn:E.
  - apply String.eqb_eq in E.
    assert (r = p) by (apply (NoDup_map_inj product_id _ _ _ Hnd Hr Hin); congruence).
    subst r. reflexivity.
  - destruct r. unfold set_current_stock. simpl. f_equal. lia.
Qed.

(** X21. A manual stock adjustment.  [adjustStock] either completes:
    then the product was found, its stock plus the quantity is not
    negative and is the stock of the product returned and of every row
    of that identifier, and one movement is appended that records the
    quantity with the stock before and after; or it fails, with a
    NotFound error when the product does not exist or is deleted and a
    BadRequest error when the stock would become negative, and the store
    is the store of the call. *)
Theorem adjustStock_outcome (id : string) (quantity : Z) (movementType : string)
    (notes createdBy : option string) (db : Db) :
  match Products.adjustStock id quantity movementType notes createdBy db with
  | (Returned product, db') =>
      exists p others,
        select_product id db = p :: others /\
        (0 <= current_stock p + quantity)%Z /\
        product = set_current_stock p (current_stock p + quantity)%Z /\
        Forall2 (fun r r' =>
                   if String.eqb (product_id r) id
                   then r' = set_current_stock r (current_stock p + quantity)%Z
                   else r' = r)
                (products db) (products db') /\
        stock_movements db'
        = (stock_movements db ++
           [mkStockMovement id movementType quantity (current_stock p)
              (current_stock p + quantity)%Z "manual" None (Js.orNullS notes)
              (Products.created_by createdBy)])%list
  | (Thrown e, db') =>
      db' = db /\
      ((select_product id db = [] /\ e = NotFoundError "Product not found") \/
       (exists p others,
          select_product id db = p :: others /\
          (current_stock p + quantity < 0)%Z /\
          e = BadRequestError "Insufficient stock"))
  end.
Proof.
  unfold Products.adjustStock, transaction, Products.adjustStock_body.
  unfold bind at 1. unfold query at 1.
  destruct (select_product id db) as [|p others] eqn:Hsel.
  - unfold throw. split; [reflexivity|]. left. split; reflexivity.
  - destruct (current_stock p + quantity <? 0)%Z eqn:Eneg.
    + unfold throw. split; [reflexivity|]. right.
      exists p, others. apply Z.ltb_lt in Eneg. repeat split; assumption.
    + unfold bind, exec. apply Z.ltb_ge in Eneg.
      unfold Products.getById.
      change (select_product id (insert_stock_movement ?m ?d))
        with (select_product id d).
      rewrite select_product_set_stock, Hsel. cbn [map].
      rewrite (select_product_head_id _ _ _ _ Hsel), String.eqb_refl.
      exists p, others. split; [reflexivity|]. split; [exact Eneg|].
      split; [reflexivity|]. split; [|reflexivity].
      unfold Products.set_stock. simpl.
      apply Forall2_same_map. intro r.
      destruct (String.eqb (product_id r) id); reflexivity.
Qed.

Lemma moved_cons (x : string) (m : StockMovement) (ms : list StockMovement) :
  Ledger.moved x (m :: ms)
  = ((if String.eqb x (sm_product_id m) then sm_quantity m else 0)
     + Ledger.moved x ms)%Z.
Proof.
  unfold Ledger.moved. cbn [fold_right].
  destruct (String.eqb x (sm_product_id m)); lia.
Qed.

(** The loop of [bulkAdjustStock]. *)
Lemma bulk_loop_outcome (adjustments : list Inventory.Adjustment)
    (movementType : string) (createdBy : option string) (success : nat)
    (errors : list string) (db : Db) :
  exists success' new ms db',
    Inventory.bulk_loop adjustments movementType createdBy success errors db
      = (Returned (success', (errors ++ new)%list), db') /\
    (success' + List.length new = success + List.length adjustments)%nat /\
    stock_movements db' = (stock_movements db ++ ms)%list /\
    (success + List.length ms = success')%nat /\
    Forall (fun m => sm_movement_type m = movementType /\
                     sm_reference_type m = "bulk" /\
                     (0 <= sm_quantity_after m)%Z /\
                     Ledger.consistent m) ms /\
    (forall id, Ledger.stock_nonneg id db -> Ledger.stock_nonneg id db') /\
    (NoDup (map product_id (products db)) ->
     products db'
     = map (Spec.shift_stock (fun x => Ledger.moved x ms)) (products db)) /\
    sales db' = sales db /\ sale_items db' = sale_items db /\
    customers db' = customers db /\
    loyalty_points_history db' = loyalty_points_history db.
Proof.
  revert success errors db.
  induction adjustments as [|adj rest IH]; intros success errors db.
  - exists success, [], [], db. rewrite !app_nil_r. simpl.
    split; [reflexivity|]. split; [lia|]. split; [reflexivity|].
    split; [lia|]. split; [constructor|]. split; [auto|].
    split; [|repeat split].
    intros _. rewrite <- (map_id (products db)) at 1. apply map_ext.
    intro p. symmetry. apply shift_stock_zero. reflexivity.
  - cbn [Inventory.bulk_loop]. unfold bind at 1. unfold query at 1.
    destruct (select_product (Inventory.adj_productId adj) db)
      as [|product others] eqn:Hsel.
    + destruct (IH success (errors ++ [("Product " ++ Inventory.adj_productId adj
                                        ++ " not found")%string])%list db)
        as [s' [new [ms [db' [E [Hc [Hm [Hl [Hall [Hinv [Hp Hf]]]]]]]]]]].
      exists s', (("Product " ++ Inventory.adj_productId adj ++ " not found")%string
                  :: new), ms, db'.
      rewrite E, <- app_assoc. split; [reflexivity|].
      simpl in *. repeat split; try assumption; try lia; tauto.
    + destruct (track_inventory product) eqn:Etr; cbn [negb].
      2:{ destruct (IH success
                      (errors ++ [("Product " ++ product_name product ++
                                   " does not track inventory")%string])%list db)
            as [s' [new [ms [db' [E [Hc [Hm [Hl [Hall [Hinv [Hp Hf]]]]]]]]]]].
          exists s', (("Product " ++ product_name product ++
                       " does not track inventory")%string :: new), ms, db'.
          rewrite E, <- app_assoc. split; [reflexivity|].
          simpl in *. repeat split; try assumption; try lia; tauto. }
      destruct (current_stock product + Inventory.adj_quantity adj <? 0)%Z
        eqn:Eneg.
      * match goal with
        | |- context [Inventory.bulk_loop rest movementType createdBy success
                        (errors ++ [?msg])%list db] =>
            destruct (IH success (errors ++ [msg])%list db)
              as [s' [new [ms [db' [E [Hc [Hm [Hl [Hall [Hinv [Hp Hf]]]]]]]]]]];
            exists s', (msg :: new), ms, db'
        end.
        rewrite E, <- app_assoc. split; [reflexivity|].
        simpl in *. repeat split; try assumption; try lia; tauto.
      * apply Z.ltb_ge in Eneg. unfold bind, exec.
        match goal with
        | |- context [Inventory.bulk_loop rest movementType createdBy (S success)
                        errors ?d] =>
            destruct (IH (S success) errors d)
              as [s' [new [ms [db' [E [Hc [Hm [Hl [Hall [Hinv [Hp Hf]]]]]]]]]]]
        end.
        eexists s', new, (_ :: ms), db'.
        split; [exact E|]. split; [simpl; lia|].
        split; [rewrite Hm; cbn [insert_stock_movement with_stock_movements
                                 stock_movements Products.set_stock with_products];
                rewrite <- app_assoc; reflexivity|].
        split; [simpl; lia|].
        split; [constructor; [|exact Hall]; unfold Ledger.consistent;
                cbn [sm_movement_type sm_reference_type sm_quantity_after
                     sm_quantity_before sm_quantity];
                repeat split; lia|].
        split; [intros id Hid; apply Hinv;
                intros p' others' Hs' Htr';
                change (select_product id (insert_stock_movement ?m ?d))
                  with (select_product id d) in Hs';
                exact (set_stock_nonneg id _ _ db Eneg Hid p' others' Hs' Htr')|].
        split; [|exact Hf].
        intro Hnd.
        rewrite Hp.
        -- change (products (insert_stock_movement ?m ?d)) with (products d).
           rewrite (set_stock_shift _ _ _ _ _ Hnd Hsel), map_map.
           apply map_ext. intro p.
           rewrite shift_stock_compose. apply shift_stock_ext.
           rewrite moved_cons. cbn [sm_product_id sm_quantity]. reflexivity.
        -- change (products (insert_stock_movement ?m ?d)) with (products d).
           rewrite set_stock_ids. exact Hnd.
Qed.


(** The loop of [stockCount]. *)
Lemma count_loop_outcome (counts : list Inventory.Count)
    (createdBy : option string) (success failed : nat)
    (found : list Inventory.Discrepancy) (db : Db) :
  exists success' failed' new ms db',
    Inventory.count_loop counts createdBy success failed found db
      = (Returned (success', failed', (found ++ new)%list), db') /\
    (success' + failed' = success + failed + List.length counts)%nat /\
    Forall (fun d => Inventory.difference d <> 0%Z /\
                     Inventory.difference d
                     = (Inventory.actual d - Inventory.expected d)%Z) new /\
    stock_movements db' = (stock_movements db ++ ms)%list /\
    (success + List.length ms = success')%nat /\
    Forall (fun m => sm_movement_type m = "count" /\
                     sm_reference_type m = "stock_count" /\
                     (exists n, sm_notes m = Some n /\ n <> "") /\
                     Ledger.consistent m) ms /\
    (NoDup (map product_id (products db)) ->
     products db'
     = map (Spec.shift_stock (fun x => Ledger.moved x ms)) (products db)) /\
    sales db' = sales db /\ sale_items db' = sale_items db /\
    customers db' = customers db /\
    loyalty_points_history db' = loyalty_points_history db.
Proof.
  revert success failed found db.
  induction counts as [|c rest IH]; intros success failed found db.
  - exists success, failed, [], [], db. rewrite !app_nil_r. simpl.
    split; [reflexivity|]. split; [lia|]. split; [constructor|].
    split; [reflexivity|]. split; [lia|]. split; [constructor|].
    split; [|repeat split].
    intros _. rewrite <- (map_id (products db)) at 1. apply map_ext.
    intro p. symmetry. apply shift_stock_zero. reflexivity.
  - cbn [Inventory.count_loop]. unfold bind at 1. unfold query at 1.
    destruct (select_product (Inventory.cnt_productId c) db)
      as [|product others] eqn:Hsel.
    + destruct (IH success (S failed) found db)
        as [s' [f' [new [ms [db' [E [Hc [Hd [Hm [Hl [Hall [Hp Hf]]]]]]]]]]]].
      exists s', f', new, ms, db'. rewrite E.
      split; [reflexivity|]. simpl.
      repeat split; try assumption; try lia; tauto.
    + unfold bind, exec.
      match goal with
      | |- context [Inventory.count_loop rest createdBy (S success) failed
                      ?fd ?d] =>
          destruct (IH (S success) failed fd d)
            as [s' [f' [new [ms [db' [E [Hc [Hd [Hm [Hl [Hall [Hp Hf]]]]]]]]]]]]
      end.
      assert (Hnote : exists n,
                 match Js.orNullS (Inventory.cnt_notes c) with
                 | Some n => Some n
                 | None => Some "Stock count adjustment"
                 end = Some n /\ n <> "").
      { destruct (Inventory.cnt_notes c) as [n|]; cbn [Js.orNullS].
        - destruct (Js.truthyS n) eqn:Et.
          + exists n. split; [reflexivity|]. apply truthyS_true. exact Et.
          + eexists. split; [reflexivity|]. discriminate.
        - eexists. split; [reflexivity|]. discriminate. }
      destruct (negb (Inventory.actualCount c - current_stock product =? 0)%Z)
        eqn:Ediff.
      * eexists s', f', (_ :: new), (_ :: ms), db'.
        rewrite <- app_assoc in E.
        split; [exact E|]. split; [simpl; lia|].
        split; [constructor; [|exact Hd]; cbn;
                apply negb_true_iff in Ediff; apply Z.eqb_neq in Ediff;
                split; [exact Ediff|reflexivity]|].
        split; [rewrite Hm; cbn [insert_stock_movement with_stock_movements
                                 stock_movements Products.set_stock with_products];
                rewrite <- app_assoc; reflexivity|].
        split; [simpl; lia|].
        split; [constructor; [|exact Hall]; unfold Ledger.consistent;
                cbn [sm_movement_type sm_reference_type sm_quantity_after
                     sm_quantity_before sm_quantity sm_notes];
                repeat split; try exact Hnote; lia|].
        split; [|exact Hf].
        intro Hnd. rewrite Hp.
        -- change (products (insert_stock_movement ?m ?d)) with (products d).
           replace (Inventory.actualCount c)
             with (current_stock product
                   + (Inventory.actualCount c - current_stock product))%Z
             at 1 by lia.
           rewrite (set_stock_shift _ _ _ _ _ Hnd Hsel), map_map.
           apply map_ext. intro p.
           rewrite shift_stock_compose. apply shift_stock_ext.
           rewrite moved_cons. cbn [sm_product_id sm_quantity]. reflexivity.
        -- change (products (insert_stock_movement ?m ?d)) with (products d).
           rewrite set_stock_ids. exact Hnd.
      * eexists s', f', new, (_ :: ms), db'.
        split; [exact E|]. split; [simpl; lia|].
        split; [exact Hd|].
        split; [rewrite Hm; cbn [insert_stock_movement with_stock_movements
                                 stock_movements Products.set_stock with_products];
                rewrite <- app_assoc; reflexivity|].
        split; [simpl; lia|].
        split; [constructor; [|exact Hall]; unfold Ledger.consistent;
                cbn [sm_movement_type sm_reference_type sm_quantity_after
                     sm_quantity_before sm_quantity sm_notes];
                repeat split; try exact Hnote; lia|].
        split; [|exact Hf].
        intro Hnd. rewrite Hp.
        -- change (products (insert_stock_movement ?m ?d)) with (products d).
           replace (Inventory.actualCount c)
             with (current_stock product
                   + (Inventory.actualCount c - current_stock product))%Z
             at 1 by lia.
           rewrite (set_stock_shift _ _ _ _ _ Hnd Hsel), map_map.
           apply map_ext. intro p.
           rewrite shift_stock_compose. apply shift_stock_ext.
           rewrite moved_cons. cbn [sm_product_id sm_quantity]. reflexivity.
        -- change (products (insert_stock_movement ?m ?d)) with (products d).
           rewrite set_stock_ids. exact Hnd.
Qed.







End StockFacts.

Section StockInvariants.
Import Sales.

(** The store a void or refund leaves: the store of the call when it
    fails, and otherwise the store the shared reversal gives after the
    sale rows are marked. *)
Lemma reversal_store (bcrypt_compare : string -> string -> bool)
    (action : Auth.Action) (supervisor : option (string * string))
    (saleId : nat) (reason actor : string) (db : Db) :
  snd (Reversal.run bcrypt_compare action supervisor saleId reason actor db) = db \/
  exists s,
    reverse_effects s (Reversal.reference_type action) saleId
      (Reversal.note action reason) actor
      (match action with
       | Auth.void =>
           mark_voided actor (Reversal.authorizer supervisor actor) reason
                       saleId db
       | Auth.refund =>
           mark_refunded actor (Reversal.authorizer supervisor actor) reason
                         saleId db
       end)
    = (Returned tt,
       snd (Reversal.run bcrypt_compare action supervisor saleId reason actor
                         db)).
Proof.
  remember (Reversal.run bcrypt_compare action supervisor saleId reason actor db)
    as r eqn:Hr.
  symmetry in Hr.
  destruct action, supervisor as [[supervisorId supervisorPin]|];
    cbn [Reversal.run] in Hr;
    unfold voidSale, refundSale, voidSaleSelfAuthorized, refundSaleSelfAuthorized,
      transaction, voidSale_body, refundSale_body, voidSaleSelfAuthorized_body,
      refundSaleSelfAuthorized_body in Hr;
    unfold bind at 1 in Hr;
    try (destruct (verify_supervisor _ _ _ _ _ db) as [[u|e] db1] eqn:Ever;
         [|rewrite <- Hr; left; reflexivity];
         apply verify_supervisor_returned in Ever;
         destruct Ever as [-> _];
         unfold bind at 1 in Hr);
    unfold query at 1 in Hr;
    (destruct (select_sale saleId db) as [|s rest];
     [rewrite <- Hr; left; reflexivity|]);
    (destruct (negb (String.eqb (status s) "completed"));
     [rewrite <- Hr; left; reflexivity|]);
    unfold bind at 1 in Hr; unfold exec at 1 in Hr;
    match type of Hr with
    | context [reverse_effects ?a ?b ?c ?d ?e ?f] =>
        destruct (reverse_effects a b c d e f) as [[[]|e0] db2] eqn:Erev;
          [|rewrite <- Hr; left; reflexivity]
    end;
    rewrite <- Hr; right; exists s; exact Erev.
Qed.

(** X25. The movement ledger stays consistent.  In a store where every
    stock movement has a quantity after equal to its quantity before plus
    the quantity moved, this still holds after a sale, a void or refund
    on any path, a manual adjustment, a bulk adjustment and a stock
    count, whether the operation completes or fails. *)
Theorem movements_stay_consistent (db : Db) :
  Forall Ledger.consistent (stock_movements db) ->
  (forall data userId,
     Forall Ledger.consistent (stock_movements (snd (create data userId db)))) /\
  (forall bcrypt_compare action supervisor saleId reason actor,
     Forall Ledger.consistent
       (stock_movements
          (snd (Reversal.run bcrypt_compare action supervisor saleId reason
                             actor db)))) /\
  (forall id quantity movementType notes createdBy,
     Forall Ledger.consistent
       (stock_movements
          (snd (Products.adjustStock id quantity movementType notes createdBy
                                     db)))) /\
  (forall adjustments movementType createdBy,
     Forall Ledger.consistent
       (stock_movements
          (snd (Inventory.bulkAdjustStock adjustments movementType createdBy
                                          db)))) /\
  (forall counts createdBy,
     Forall Ledger.consistent
       (stock_movements (snd (Inventory.stockCount counts createdBy db)))).
Proof.
  intro Hinv. split; [|split; [|split; [|split]]].
  - intros data userId. unfold create, transaction.
    destruct (create_body data userId db) as [[saleId|e] db2] eqn:E;
      [|exact Hinv].
    destruct (create_body_stock _ _ _ _ _ E) as [acc [db1 [Hloop [_ Hm]]]].
    destruct (items_loop_movements _ _ _ _ _ _ _ Hloop) as [ms [Hms [Hall _]]].
    cbn [snd]. rewrite Hm, Hms. apply Forall_app. split; [exact Hinv|].
    eapply Forall_impl; [|exact Hall]. intros m Hm'. apply Hm'.
  - intros bcrypt_compare action supervisor saleId reason actor.
    destruct (reversal_store bcrypt_compare action supervisor saleId reason
                actor db) as [->|[s Hrev]]; [exact Hinv|].
    apply reverse_effects_returned in Hrev.
    destruct Hrev as [[ms [Hms [_ [Hall _]]]] _].
    rewrite Hms. apply Forall_app. split.
    + destruct action; exact Hinv.
    + eapply Forall_impl; [|exact Hall]. intros m Hm'. apply Hm'.
  - intros id quantity movementType notes createdBy.
    pose proof (adjustStock_outcome id quantity movementType notes createdBy db)
      as H.
    destruct (Products.adjustStock id quantity movementType notes createdBy db)
      as [[product|e] db'].
    + destruct H as [p [others [_ [_ [_ [_ Hm]]]]]]. cbn [snd]. rewrite Hm.
      apply Forall_app. split; [exact Hinv|].
      constructor; [|constructor]. reflexivity.
    + destruct H as [-> _]. exact Hinv.
  - intros adjustments movementType createdBy.
    destruct (bulk_loop_outcome adjustments movementType createdBy 0 [] db)
      as [s' [new [ms [db' [E [_ [Hm [_ [Hall _]]]]]]]]].
    unfold Inventory.bulkAdjustStock, transaction, bind, ret. rewrite E.
    cbn [snd]. rewrite Hm. apply Forall_app. split; [exact Hinv|].
    eapply Forall_impl; [|exact Hall]. intros m Hm'. apply Hm'.
  - intros counts createdBy.
    destruct (count_loop_outcome counts createdBy 0 0 [] db)
      as [s' [f' [new [ms [db' [E [_ [_ [Hm [_ [Hall _]]]]]]]]]]].
    unfold Inventory.stockCount, transaction, bind, ret. rewrite E.
    cbn [snd]. rewrite Hm. apply Forall_app. split; [exact Hinv|].
    eapply Forall_impl; [|exact Hall]. intros m Hm'. apply Hm'.
Qed.

Lemma select_product_removed (id : string) (db : Db) :
  select_product id (snd (Products.remove id db)) = [].
Proof.
  unfold Products.remove.
  assert (H : select_product id
                (with_products
                   (map (fun p =>
                           if (String.eqb (product_id p) id &&
                               negb (product_deleted p))%bool
                           then Products.set_deleted p else p)) db) = []).
  { unfold select_product. simpl. apply filter_none.
    intros a Ha. apply in_map_iff in Ha. destruct Ha as [p [<- _]].
    destruct (String.eqb (product_id p) id && negb (product_deleted p))%bool
      eqn:E.
    - unfold Products.set_deleted. simpl. apply andb_false_r.
    - exact E. }
  destruct (select_product id db); exact H.
Qed.

(** X26. A removed product is out of reach.  After [remove] has
    soft-deleted a product, the product is no longer found by its
    identifier, a manual adjustment of it fails with a NotFound error,
    every sale with a line on it is refused with a BadRequest error, each
    of these leaving the store as it is, and a second [remove] fails;
    the rows keep their identifiers and their stock. *)
Theorem remove_product_out_of_reach (id : string) (db db' : Db) :
  Products.remove id db = (Returned tt, db') ->
  Products.getById id db' = Thrown (NotFoundError "Product not found") /\
  fst (Products.remove id db') = Thrown (NotFoundError "Product not found") /\
  (forall quantity movementType notes createdBy,
     Products.adjustStock id quantity movementType notes createdBy db'
     = (Thrown (NotFoundError "Product not found"), db')) /\
  (forall data userId l,
     In l (items data) -> productId l = id ->
     exists msg, create data userId db' = (Thrown (BadRequestError msg), db')) /\
  map product_id (products db') = map product_id (products db) /\
  map current_stock (products db') = map current_stock (products db).
Proof.
  intro H.
  assert (Hdb : db' = snd (Products.remove id db)) by (rewrite H; reflexivity).
  assert (Hnone : select_product id db' = [])
    by (rewrite Hdb; apply select_product_removed).
  split; [|split; [|split; [|split; [|split]]]].
  - unfold Products.getById. rewrite Hnone. reflexivity.
  - unfold Products.remove. rewrite Hnone. reflexivity.
  - intros quantity movementType notes createdBy.
    unfold Products.adjustStock, transaction, Products.adjustStock_body, bind,
      query, throw.
    rewrite Hnone. reflexivity.
  - intros data userId l Hin Hl.
    assert (Hl' : select_product (productId l) db' = [])
      by (rewrite Hl; exact Hnone).
    destruct (items_loop_missing_product data userId l (items data)
                (mkTotals 0 0 []) db' Hin Hl') as [msg [db1 Hloop]].
    exists msg. exact (create_thrown _ _ _ _ _ Hloop).
  - rewrite Hdb. unfold Products.remove.
    destruct (select_product id db) as [|x0 l0];
      cbn [snd with_products products];
      rewrite map_map; apply map_ext; intro r;
      destruct (String.eqb (product_id r) id && negb (product_deleted r))%bool;
      reflexivity.
  - rewrite Hdb. unfold Products.remove.
    destruct (select_product id db) as [|x0 l0];
      cbn [snd with_products products];
      rewrite map_map; apply map_ext; intro r;
      destruct (String.eqb (product_id r) id && negb (product_deleted r))%bool;
      reflexivity.
Qed.

End StockInvariants.


(** Witness of [movements_stay_consistent]: the store of the examples,
    after a sale. *)
Lemma movements_stay_consistent_witness :
  Forall Ledger.consistent
    (stock_movements (snd (Sales.create plain_order "u-cashier" db0))).
Proof.
  destruct (movements_stay_consistent db0) as [A _].
  - constructor.
  - exact (A plain_order "u-cashier").
Defined.

(** Witness of [remove_product_out_of_reach]: water is removed, then
    asked for. *)
Lemma remove_product_out_of_reach_witness :
  exists msg,
    Sales.create thirsty_order "u-cashier" (snd (Products.remove "p-water" db0))
    = (Thrown (BadRequestError msg), snd (Products.remove "p-water" db0)).
Proof.
  edestruct (remove_product_out_of_reach "p-water" db0) as [_ [_ [_ [A _]]]].
  - vm_compute. reflexivity.
  - apply (A thirsty_order "u-cashier" (line "p-water" 5)).
    + right. left. reflexivity.
    + reflexivity.
Defined.

(* ================================================================== *)
(** ** Customers: the loyalty balance *)
(* ================================================================== *)

Section LoyaltyBalance.

Lemma select_customer_set_points (id' id : string) (balance : Z)
    (db : Customers.CustomerDb) :
  Customers.select_customer id' (Customers.set_points balance id db)
  = map (fun c =>
           if String.eqb (customer_id (Customers.fields c)) id
           then Customers.mkCustomerRow
                  (mkCustomer (customer_id (Customers.fields c)) balance
                     (lifetime_spend (Customers.fields c))
                     (total_transactions (Customers.fields c))
                     (membership_tier_id (Customers.fields c)))
                  (Customers.deleted c)
           else c)
        (Customers.select_customer id' db).
Proof.
  unfold Customers.select_customer, Customers.set_points. simpl.
  apply filter_map_comm.
  intro c. destruct (String.eqb (customer_id (Customers.fields c)) id);
    reflexivity.
Qed.

Lemma select_customer_head (id : string) (db : Customers.CustomerDb)
    (c : Customers.CustomerRow) (others : list Customers.CustomerRow) :
  Customers.select_customer id db = c :: others ->
  In c (Customers.customers db) /\ customer_id (Customers.fields c) = id.
Proof.
  intro E.
  assert (Hin : In c (Customers.select_customer id db))
    by (rewrite E; left; reflexivity).
  unfold Customers.select_customer in Hin. apply filter_In in Hin.
  destruct Hin as [Hin Hb]. apply andb_true_iff in Hb.
  split; [exact Hin|]. apply String.eqb_eq. exact (proj1 Hb).
Qed.

(** X27. A redemption never overdraws.  [redeemLoyaltyPoints] either
    completes: then the customer was found with at least the points
    asked, the customer returned has the balance less the points, which
    is not negative, every row of that identifier has that balance, and
    one 'redeem' history row is appended with the points negated and the
    new balance; or it fails, with a NotFound error when the customer
    does not exist or is deleted and a BadRequest error when the
    balance is short, and the store is the store of the call. *)
Theorem redeemLoyaltyPoints_outcome (id : string) (points : Z)
    (description : string) (referenceId createdBy : option string)
    (db : Customers.CustomerDb) :
  match Customers.redeemLoyaltyPoints id points description referenceId
                                      createdBy db with
  | (Returned customer, db') =>
      exists c others,
        Customers.select_customer id db = c :: others /\
        (points <= loyalty_points (Customers.fields c))%Z /\
        loyalty_points customer
          = (loyalty_points (Customers.fields c) - points)%Z /\
        (0 <= loyalty_points customer)%Z /\
        customer_id customer = id /\
        Forall2 (fun r r' =>
                   if String.eqb (customer_id (Customers.fields r)) id
                   then loyalty_points (Customers.fields r')
                          = loyalty_points customer /\
                        Customers.deleted r' = Customers.deleted r
                   else r' = r)
                (Customers.customers db) (Customers.customers db') /\
        Customers.loyalty_points_history db'
        = (Customers.loyalty_points_history db ++
           [Customers.mkPointsEntry id "redeem" (- points)
              (loyalty_points customer) "redemption" (Js.orNullS referenceId)
              description (Js.orNullS createdBy)])%list
  | (Thrown e, db') =>
      db' = db /\
      ((Customers.select_customer id db = [] /\
        e = NotFoundError "Customer not found") \/
       (exists c others,
          Customers.select_customer id db = c :: others /\
          (loyalty_points (Customers.fields c) < points)%Z /\
          e = BadRequestError "Insufficient loyalty points"))
  end.
Proof.
  unfold Customers.redeemLoyaltyPoints.
  destruct (Customers.select_customer id db) as [|c others] eqn:Hsel.
  - split; [reflexivity|]. left. split; reflexivity.
  - destruct (loyalty_points (Customers.fields c) <? points)%Z eqn:Elow.
    + split; [reflexivity|]. right. exists c, others.
      apply Z.ltb_lt in Elow. repeat split; assumption.
    + apply Z.ltb_ge in Elow. cbv zeta.
      destruct (select_customer_head _ _ _ _ Hsel) as [_ Hid].
      unfold Customers.getById.
      change (Customers.select_customer id (Customers.insert_history ?e ?d))
        with (Customers.select_customer id d).
      rewrite select_customer_set_points, Hsel. cbn [map].
      rewrite Hid, String.eqb_refl. cbn [Customers.fields].
      exists c, others. cbn [loyalty_points customer_id].
      split; [reflexivity|]. split; [exact Elow|]. split; [reflexivity|].
      split; [lia|]. split; [reflexivity|]. split; [|reflexivity].
      cbn [Customers.insert_history Customers.set_points Customers.customers].
      apply Forall2_same_map. intro r.
      destruct (String.eqb (customer_id (Customers.fields r)) id);
        [|reflexivity].
      split; reflexivity.
Qed.

(** X28. Points added and redeemed again.  In a store where customer
    identifiers are unique, when [addLoyaltyPoints] completes for a
    customer whose balance is not negative, the customer returned has
    the balance plus the points, and a redemption of the same number of
    points then completes and gives every customer row back as it was;
    the two history rows written record the points and their negation,
    with the balances after each. *)
Theorem add_then_redeem_restores (id : string) (points : Z)
    (transactionType description description2 : string)
    (referenceId createdBy referenceId2 createdBy2 : option string)
    (db db1 : Customers.CustomerDb) (before after : Customer) :
  NoDup (map (fun c => customer_id (Customers.fields c))
             (Customers.customers db)) ->
  Customers.getById id db = Returned before ->
  (0 <= loyalty_points before)%Z ->
  Customers.addLoyaltyPoints id points transactionType description referenceId
                             createdBy db = (Returned after, db1) ->
  loyalty_points after = (loyalty_points before + points)%Z /\
  exists db2,
    Customers.redeemLoyaltyPoints id points description2 referenceId2 createdBy2
                                  db1 = (Returned before, db2) /\
    Customers.customers db2 = Customers.customers db /\
    Customers.loyalty_points_history db2
    = (Customers.loyalty_points_history db ++
       [Customers.mkPointsEntry id transactionType points
          (loyalty_points before + points)%Z "manual" (Js.orNullS referenceId)
          description (Js.orNullS createdBy);
        Customers.mkPointsEntry id "redeem" (- points) (loyalty_points before)
          "redemption" (Js.orNullS referenceId2) description2
          (Js.orNullS createdBy2)])%list.
Proof.
  intros Hnd Hget Hpos Hadd.
  unfold Customers.getById in Hget.
  destruct (Customers.select_customer id db) as [|c others] eqn:Hsel;
    [discriminate Hget|].
  injection Hget as <-.
  destruct (select_customer_head _ _ _ _ Hsel) as [Hin Hid].
  unfold Customers.addLoyaltyPoints in Hadd. rewrite Hsel in Hadd.
  cbv zeta in Hadd. unfold Customers.getById in Hadd.
  change (Customers.select_customer id (Customers.insert_history ?e ?d))
    with (Customers.select_customer id d) in Hadd.
  rewrite select_customer_set_points, Hsel in Hadd. cbn [map] in Hadd.
  rewrite Hid, String.eqb_refl in Hadd. cbn [Customers.fields] in Hadd.
  injection Hadd as <- <-.
  split; [reflexivity|].
  unfold Customers.redeemLoyaltyPoints.
  change (Customers.select_customer id (Customers.insert_history ?e ?d))
    with (Customers.select_customer id d).
  rewrite select_customer_set_points, Hsel. cbn [map].
  rewrite Hid, String.eqb_refl. cbn [Customers.fields loyalty_points].
  assert (Elow : (loyalty_points (Customers.fields c) + points <? points)%Z
                 = false) by (apply Z.ltb_ge; lia).
  rewrite Elow. cbv zeta.
  assert (Hrows :
    Customers.customers
      (Customers.set_points
         (loyalty_points (Customers.fields c) + points - points)%Z id
         (Customers.insert_history
            (Customers.mkPointsEntry id transactionType points
               (loyalty_points (Customers.fields c) + points)%Z "manual"
               (Js.orNullS referenceId) description (Js.orNullS createdBy))
            (Customers.set_points
               (loyalty_points (Customers.fields c) + points)%Z id db)))
    = Customers.customers db).
  { cbn [Customers.set_points Customers.insert_history Customers.customers].
    rewrite map_map. rewrite <- (map_id (Customers.customers db)) at 2.
    apply map_ext_in. intros r Hr.
    destruct (String.eqb (customer_id (Customers.fields r)) id) eqn:E.
    - cbn [Customers.fields customer_id]. rewrite E.
      apply String.eqb_eq in E.
      assert (r = c).
      { apply (NoDup_map_inj (fun c => customer_id (Customers.fields c))
                 _ _ _ Hnd Hr Hin). congruence. }
      subst r. destruct c as [[cid lp ls tt tier] del]. simpl.
      f_equal. f_equal. lia.
    - rewrite E. reflexivity. }
  eexists. split; [|split].
  - unfold Customers.getById.
    change (Customers.select_customer id (Customers.insert_history ?e ?d))
      with (Customers.select_customer id d).
    rewrite select_customer_set_points.
    change (Customers.select_customer id (Customers.insert_history ?e ?d))
      with (Customers.select_customer id d).
    rewrite select_customer_set_points, Hsel. cbn [map].
    rewrite Hid, String.eqb_refl. cbn [Customers.fields customer_id].
    rewrite String.eqb_refl. cbn [Customers.fields].
    f_equal. f_equal.
    destruct c as [[cid lp ls tt tier] del]. simpl in *. subst cid.
    f_equal. lia.
  - cbn [Customers.insert_history Customers.customers]. exact Hrows.
  - cbn [Customers.insert_history Customers.set_points
         Customers.loyalty_points_history].
    rewrite <- app_assoc. cbn [app]. repeat f_equal. lia.
Qed.

End LoyaltyBalance.

(** Witness of [add_then_redeem_restores]: ten bonus points are given to
    the customer of the examples and redeemed again. *)
Lemma add_then_redeem_restores_witness :
  exists db2,
    Customers.redeemLoyaltyPoints "c-ana" 10 "used" None None
      (snd (Customers.addLoyaltyPoints "c-ana" 10 "bonus" "welcome" None None
              MoreExamples.loyalty_db))
    = (Returned ana, db2) /\
    Customers.customers db2 = Customers.customers MoreExamples.loyalty_db.
Proof.
  edestruct (add_then_redeem_restores "c-ana" 10 "bonus" "welcome" "used"
               None None None None MoreExamples.loyalty_db)
    as [_ [db2 [A [B _]]]].
  - repeat constructor. intros [].
  - reflexivity.
  - simpl. lia.
  - vm_compute. reflexivity.
  - exists db2. split; [exact A|exact B].
Defined.

(* ================================================================== *)
(** ** Sales: the summary of the day *)
(* ================================================================== *)

Section DaySummary.
Import Sales.
Variable created_today : nat -> bool.
Variable bcrypt_compare : string -> string -> bool.





End DaySummary.


(* ================================================================== *)
(** ** Sales: the create route *)
(* ================================================================== *)

Section CreateRoute.
Import Sales.

(** X30. No sale without items.  The create route refuses a request
    whose cart is missing or empty, and then one whose payment method is
    missing, with a BadRequest error, and leaves the store as it is; a
    sale that completes through the route is the sale of the operator
    of the session, paid by the method of the request, and has one
    persisted line for every item of a cart that is not empty. *)
Theorem create_route_needs_items (user : SaleController.AuthPayload)
    (body : SaleControllerCreate.CreateBody) (db : Db) :
  ((SaleControllerCreate.body_items body = None \/
    SaleControllerCreate.body_items body = Some []) ->
   SaleControllerCreate.create user body db
   = (Thrown (BadRequestError "Items are required"), db)) /\
  (forall item rest,
     SaleControllerCreate.body_items body = Some (item :: rest) ->
     SaleControllerCreate.body_paymentMethod body = None ->
     SaleControllerCreate.create user body db
     = (Thrown (BadRequestError "Payment method is required"), db)) /\
  (forall sale db',
     SaleControllerCreate.create user body db = (Returned sale, db') ->
     exists item rest pm row lines,
       SaleControllerCreate.body_items body = Some (item :: rest) /\
       SaleControllerCreate.body_paymentMethod body = Some pm /\
       sales db' = (sales db ++ [row])%list /\
       payment_method row = pm /\
       sale_user_id row = SaleController.userId user /\
       status row = "completed" /\
       sale_items db' = (sale_items db ++ lines)%list /\
       List.length lines = S (List.length rest) /\
       Forall (fun r => si_sale_id r = sale_id row) lines).
Proof.
  unfold SaleControllerCreate.create.
  split; [|split].
  - intros [->| ->]; reflexivity.
  - intros item rest -> ->. reflexivity.
  - intros sale db' H.
    destruct (SaleControllerCreate.body_items body) as [[|item rest]|];
      try discriminate H.
    destruct (SaleControllerCreate.body_paymentMethod body) as [pm|];
      [|discriminate H].
    apply create_returned in H.
    destruct (create_body_returned _ _ _ _ _ H)
      as [acc [db1 [pts [Hloop [_ [_ [_ [Hsales [rows [Hrows Hitems]]]]]]]]]].
    destruct (items_loop_returned _ _ _ _ _ _ _ Hloop)
      as [_ [rows' [Hacc [Hall _]]]].
    cbn [acc_itemsData app SaleControllerCreate.to_data items] in Hacc, Hall.
    exists item, rest, pm. eexists. eexists.
    split; [reflexivity|]. split; [reflexivity|].
    split; [exact Hsales|].
    split; [reflexivity|]. split; [reflexivity|]. split; [reflexivity|].
    split; [exact Hitems|].
    split.
    + rewrite length_map, <- Hrows, Hacc.
      apply Forall2_length in Hall. simpl in Hall. lia.
    + apply Forall_forall. intros r Hr. apply in_map_iff in Hr.
      destruct Hr as [x [<- _]]. reflexivity.
Qed.

End CreateRoute.
